(** * A shallow embedding of the ChemFalcon chatbot agents

    The Python sources are [agents/request_details.py],
    [agents/address_purpose.py], [agents/product_request.py],
    [services/agent_manager.py] and [services/order_placement.py].

    Modelling conventions:
    - a Python value (the result of [json.loads], a session document, a
      vendor record) is a [PyVal]; a Python dict is an association list
      kept in insertion order, as CPython keeps it;
    - Python strings are byte strings ([String.string]); [str.lower],
      [str.upper], [str.strip], [str.isdigit] and [str.split] are
      modelled on their ASCII behaviour;
    - a Python float is an IEEE-754 binary64 value, [spec_float] with
      precision 53 and maximal exponent 1024 (the kernel-free
      specification of the Corelib);
    - code that may raise returns a [Result]; an exception carries its
      Python class;
    - the language model and the vendor HTTP API are inputs: their answers
      are given to the functions as arguments;
    - the human-readable [message] entries of result dicts are left out. *)

From Stdlib Require Import ZArith QArith List String Ascii Bool Lia.
From Stdlib Require Import Floats.SpecFloat.
From Stdlib Require Import Sorting.Sorted.
Import ListNotations.
Open Scope string_scope.

(** ** Python values *)

#[local] Set Warnings "-register-all".

Inductive PyVal : Type :=
  | VNone
  | VBool (b : bool)
  | VInt (z : Z)
  | VFloat (f : spec_float)
  | VStr (s : string)
  | VList (l : list PyVal)
  | VDict (d : list (string * PyVal)).

Definition dict := list (string * PyVal).

Inductive exn : Type :=
  | ValueError | TypeError | OverflowError | KeyError | AttributeError.

Inductive Result (A : Type) : Type :=
  | Ok (a : A)
  | Raise (e : exn).
Arguments Ok {A} a.
Arguments Raise {A} e.

Definition bind {A B} (m : Result A) (k : A -> Result B) : Result B :=
  match m with
  | Ok a => k a
  | Raise e => Raise e
  end.

Notation "'let*' x ':=' m 'in' k" := (bind m (fun x => k))
  (at level 200, x name, m at level 100, k at level 200).
Notation "'let*' ' p ':=' m 'in' k" := (bind m (fun x => match x with p => k end))
  (at level 200, p pattern, m at level 100, k at level 200).

(** [dict.get(k)] *)
Fixpoint dict_get (k : string) (d : dict) : option PyVal :=
  match d with
  | [] => None
  | (k', v) :: d' => if String.eqb k k' then Some v else dict_get k d'
  end.

(** [dict.get(k, default)] *)
Definition dict_get_or (k : string) (dflt : PyVal) (d : dict) : PyVal :=
  match dict_get k d with Some v => v | None => dflt end.

(** [d[k] = v]: an existing key keeps its position, a new key goes last. *)
Fixpoint dict_set (k : string) (v : PyVal) (d : dict) : dict :=
  match d with
  | [] => [(k, v)]
  | (k', v') :: d' =>
      if String.eqb k k' then (k', v) :: d' else (k', v') :: dict_set k v d'
  end.

(** [del d[k]] (the caller has checked [k in d]) *)
Fixpoint dict_del (k : string) (d : dict) : dict :=
  match d with
  | [] => []
  | (k', v') :: d' => if String.eqb k k' then d' else (k', v') :: dict_del k d'
  end.

Definition dict_mem (k : string) (d : dict) : bool :=
  match dict_get k d with Some _ => true | None => false end.

(** Python truthiness, [bool(v)]. *)
Definition truthy (v : PyVal) : bool :=
  match v with
  | VNone => false
  | VBool b => b
  | VInt z => negb (Z.eqb z 0)
  | VFloat (S754_zero _) => false
  | VFloat _ => true
  | VStr s => negb (String.eqb s "")
  | VList l => match l with [] => false | _ => true end
  | VDict d => match d with [] => false | _ => true end
  end.

(** ** String methods on ASCII text *)

Definition is_py_space (c : ascii) : bool :=
  let n := nat_of_ascii c in
  (Nat.leb 9 n && Nat.leb n 13) || (Nat.leb 28 n && Nat.leb n 32).

Fixpoint lstrip (s : string) : string :=
  match s with
  | EmptyString => EmptyString
  | String c s' => if is_py_space c then lstrip s' else s
  end.

Definition rev_string (s : string) : string :=
  string_of_list_ascii (rev (list_ascii_of_string s)).

(** [str.strip()] *)
Definition py_strip (s : string) : string :=
  rev_string (lstrip (rev_string (lstrip s))).

Definition ascii_upper (c : ascii) : ascii :=
  let n := nat_of_ascii c in
  if Nat.leb 97 n && Nat.leb n 122 then ascii_of_nat (n - 32)%nat else c.

Definition ascii_lower (c : ascii) : ascii :=
  let n := nat_of_ascii c in
  if Nat.leb 65 n && Nat.leb n 90 then ascii_of_nat (n + 32)%nat else c.

Fixpoint str_map (f : ascii -> ascii) (s : string) : string :=
  match s with
  | EmptyString => EmptyString
  | String c s' => String (f c) (str_map f s')
  end.

(** [str.upper()] and [str.lower()] *)
Definition py_upper := str_map ascii_upper.
Definition py_lower := str_map ascii_lower.

(** [str.capitalize()] *)
Definition py_capitalize (s : string) : string :=
  match s with
  | EmptyString => EmptyString
  | String c s' => String (ascii_upper c) (py_lower s')
  end.

Definition is_digit (c : ascii) : bool :=
  let n := nat_of_ascii c in Nat.leb 48 n && Nat.leb n 57.

Fixpoint all_digits (s : string) : bool :=
  match s with
  | EmptyString => true
  | String c s' => is_digit c && all_digits s'
  end.

(** [str.isdigit()]: non-empty and only digits. *)
Definition py_isdigit (s : string) : bool :=
  match s with EmptyString => false | _ => all_digits s end.

(** [int(s)] on a string of digits *)
Fixpoint digits_value (acc : Z) (s : string) : Z :=
  match s with
  | EmptyString => acc
  | String c s' =>
      digits_value (10 * acc + (Z.of_nat (nat_of_ascii c) - 48))%Z s'
  end.

Definition py_int_of_digits (s : string) : Z := digits_value 0%Z s.

(** [str.split()]: the maximal runs of non-whitespace characters. *)
Fixpoint split_words_aux (cur : string) (s : string) : list string :=
  match s with
  | EmptyString => if String.eqb cur "" then [] else [cur]
  | String c s' =>
      if is_py_space c
      then (if String.eqb cur "" then [] else [cur]) ++ split_words_aux "" s'
      else split_words_aux (cur ++ String c EmptyString) s'
  end.

Definition py_split (s : string) : list string := split_words_aux "" s.

(** [sub in s] for strings *)
Definition py_contains (sub s : string) : bool :=
  match String.index 0 sub s with Some _ => true | None => false end.

(** ** Floats: binary64 *)

Definition float64 := spec_float.
Definition prec64 : Z := 53%Z.
Definition emax64 : Z := 1024%Z.

Definition flt (a b : float64) : bool := SFltb a b.
Definition fle (a b : float64) : bool := SFleb a b.
Definition fmul (a b : float64) : float64 := SFmul prec64 emax64 a b.

Definition f_inf : float64 := S754_infinity false.
Definition f_nan : float64 := S754_nan.

(** A float as an exact rational, for finite values. *)
Definition float_to_Q (f : float64) : option Q :=
  match f with
  | S754_zero _ => Some 0%Q
  | S754_finite s m e =>
      let num := if s then Zneg m else Zpos m in
      Some (match e with
            | Z0 => inject_Z num
            | Zpos p => inject_Z (num * 2 ^ Zpos p)%Z
            | Zneg p => Qmake num (2 ^ p)%positive
            end)
  | _ => None
  end.

(** [float(n)] for a Python int: correctly rounded, and an integer
    too large for a float raises [OverflowError]. *)
Definition float_of_int (n : Z) : Result float64 :=
  match binary_normalize prec64 emax64 n 0%Z false with
  | S754_infinity _ => Raise OverflowError
  | f => Ok f
  end.

(** [d[k]] *)
Definition getitem (k : string) (d : dict) : Result PyVal :=
  match dict_get k d with Some v => Ok v | None => Raise KeyError end.

(** [except (ValueError, TypeError): return h] *)
Definition catch_value_type {A} (m : Result A) (h : A) : Result A :=
  match m with
  | Raise ValueError | Raise TypeError => Ok h
  | _ => m
  end.

(** A concrete reading of [float(s)] for plain literals:
    [[ws][sign](digits[.digits] | nan | inf | infinity)[ws]], letters in
    any case.  It agrees with CPython on these strings; literals with an
    exponent or digit underscores are outside it (it answers [None]).
    It is only used to evaluate the embedding on concrete inputs: the
    theorems take the string parser as a parameter. *)
Definition decimal_to_float (neg : bool) (m : Z) (k : nat) : float64 :=
  match m with
  | Z0 => S754_zero neg
  | Zpos p =>
      SFdiv prec64 emax64 (S754_finite neg p 0%Z)
        (S754_finite false (Pos.of_nat (10 ^ k)) 0%Z)
  | Zneg _ => S754_nan
  end.

Fixpoint split_at_dot (s : string) : string * option string :=
  match s with
  | EmptyString => (EmptyString, None)
  | String c s' =>
      if Ascii.eqb c "." then (EmptyString, Some s')
      else let '(a, b) := split_at_dot s' in (String c a, b)
  end.

Definition unsigned_literal (neg : bool) (s : string) : option float64 :=
  let l := py_lower s in
  if String.eqb l "nan" then Some S754_nan
  else if String.eqb l "inf" || String.eqb l "infinity"
  then Some (S754_infinity neg)
  else match split_at_dot s with
       | (a, None) =>
           if py_isdigit a then Some (decimal_to_float neg (py_int_of_digits a) 0)
           else None
       | (a, Some b) =>
           if py_isdigit (a ++ b) && all_digits a && all_digits b
           then Some (decimal_to_float neg (py_int_of_digits (a ++ b))
                        (String.length b))
           else None
       end.

Definition py_float_literal (s : string) : option float64 :=
  match py_strip s with
  | String "-"%char r => unsigned_literal true r
  | String "+"%char r => unsigned_literal false r
  | r => unsigned_literal false r
  end.

(** ** Agent 2: field validators ([agents/request_details.py]) *)

Record Validation := mkValidation {
  is_valid : bool;
  normalized_value : option PyVal
}.

Definition invalid : Validation := mkValidation false None.
Definition valid : Validation := mkValidation true None.

(** [ALLOWED_UNITS] *)
Definition ALLOWED_UNITS : list string := ["KG"; "GAL"; "LB"; "L"].

(** [validate_unit({"unit": v})]: [v.strip()] raises [AttributeError]
    on a value that is not a string. *)
Definition validate_unit (v : PyVal) : Result Validation :=
  match v with
  | VStr s =>
      let unit_value := py_upper (py_strip s) in
      if existsb (String.eqb unit_value) ALLOWED_UNITS
      then Ok (mkValidation true (Some (VStr unit_value)))
      else Ok invalid
  | _ => Raise AttributeError
  end.

(** [validate_selection({"field_name": f, "selected_value": v})] *)
Definition options_map (field_name : string) : list string :=
  if String.eqb field_name "unit" then ["KG"; "GAL"; "LB"; "L"]
  else if String.eqb field_name "incoterm" then ["Ex Factory"; "Deliver to Buyer Factory"]
  else if String.eqb field_name "mode_of_payment" then ["LC"; "TT"; "Cash"]
  else if String.eqb field_name "packaging_pref"
  then ["Bulk Tanker"; "PP Bag"; "Jerry Can"; "Drum"]
  else [].

Definition validate_selection (field_name : string) (v : PyVal) : Result Validation :=
  match v with
  | VStr s =>
      let normalized_selected := py_lower (py_strip s) in
      match find (fun opt => String.eqb (py_lower opt) normalized_selected)
                 (options_map field_name) with
      | Some actual_value => Ok (mkValidation true (Some (VStr actual_value)))
      | None => Ok invalid
      end
  | _ => Raise AttributeError
  end.

(** [get_required_fields(request_type)] *)
Definition get_required_fields (request_type : string) : list string :=
  let request_type_lower := py_lower request_type in
  if String.eqb request_type_lower "order" then
    ["unit"; "quantity"; "price_per_unit"; "expected_price"; "phone"; "incoterm";
     "mode_of_payment"; "packaging_pref"; "delivery_date"]
  else if String.eqb request_type_lower "sample" then
    ["unit"; "quantity"; "price_per_unit"; "expected_price"; "phone"; "incoterm";
     "mode_of_payment"; "packaging_pref"; "delivery_date"]
  else if String.eqb request_type_lower "quote" then
    ["unit"; "quantity"; "price_per_unit"; "expected_price"; "phone"; "incoterm";
     "mode_of_payment"; "packaging_pref"; "delivery_date"]
  else if String.eqb request_type_lower "ppr" then
    ["unit"; "quantity"; "price_per_unit"; "expected_price"; "delivery_date"]
  else ["unit"; "quantity"; "price_per_unit"; "expected_price"].

Section Validators.

(** [float(s)] on a Python string: [None] when it raises [ValueError]. *)
Variable float_of_str : string -> option float64.
(** [datetime.strptime(s, "%Y-%m-%d").date()] as a day number;
    [None] when it raises [ValueError]. *)
Variable strptime_ymd : string -> option Z.
(** [datetime.now().date()] as a day number. *)
Variable today : Z.
(** [phonenumbers.is_valid_number(phonenumbers.parse(s, None))];
    [None] when parsing raises [NumberParseException]. *)
Variable phone_check : string -> option bool.

(** Python's [float(v)]. *)
Definition py_float (v : PyVal) : Result float64 :=
  match v with
  | VFloat f => Ok f
  | VInt n => float_of_int n
  | VBool b => float_of_int (if b then 1%Z else 0%Z)
  | VStr s =>
      match float_of_str s with Some f => Ok f | None => Raise ValueError end
  | VNone | VList _ | VDict _ => Raise TypeError
  end.

(** [request_type.lower()]: [AttributeError] on a value that is not a
    string. *)
Definition py_lower_val (v : PyVal) : Result string :=
  match v with VStr s => Ok (py_lower s) | _ => Raise AttributeError end.

(** [validate_quantity({"quantity": q}, product_details, request_type)] *)
Definition validate_quantity (q : PyVal) (product_details : dict)
    (request_type : PyVal) : Result Validation :=
  catch_value_type
    (let* quantity := py_float q in
     let* min_quantity := py_float (dict_get_or "minQuantity" (VInt 1) product_details) in
     let* max_quantity := py_float (dict_get_or "maxQuantity" (VFloat f_inf) product_details) in
     let* rt := py_lower_val request_type in
     if String.eqb rt "sample" then
       (if flt max_quantity quantity then Ok invalid else Ok valid)
     else if flt quantity min_quantity then Ok invalid
     else if flt max_quantity quantity then Ok invalid
     else Ok valid)
    invalid.

(** [validate_date({"delivery_date": v})]: only [ValueError] is caught;
    [strptime] on a non-string raises [TypeError]. *)
Definition validate_date (v : PyVal) : Result Validation :=
  match v with
  | VStr s =>
      match strptime_ymd s with
      | Some d => if Z.leb d today then Ok invalid else Ok valid
      | None => Ok invalid
      end
  | _ => Raise TypeError
  end.

(** [validate_phone({"phone": v})] *)
Definition validate_phone (v : PyVal) : Result Validation :=
  match v with
  | VStr s =>
      match phone_check (py_strip s) with
      | Some b => Ok (mkValidation b None)
      | None => Ok invalid
      end
  | _ => Raise AttributeError
  end.

(** The result of [calculate_expected_price]: [calculated_value] and
    [status]. *)
Record PriceResult := mkPriceResult {
  calculated_value : PyVal;
  price_status : string
}.

(** [calculate_expected_price(args)]: [args["quantity"]] and
    [args["price_per_unit"]] raise [KeyError] when absent, and only
    [ValueError] and [TypeError] are caught. *)
Definition calculate_expected_price (args : dict) : Result PriceResult :=
  catch_value_type
    (let* qv := getitem "quantity" args in
     let* quantity := py_float qv in
     let* pv := getitem "price_per_unit" args in
     let* price_per_unit := py_float pv in
     Ok (mkPriceResult (VFloat (fmul quantity price_per_unit)) "success"))
    (mkPriceResult (VInt 0) "error").

(** ** Agent 2: tool processing ([process_request_details]) *)

(** The value of [x > 0]; comparing a string, a list, a dict or [None]
    with an int raises [TypeError]. *)
Definition py_gt_zero (v : PyVal) : Result bool :=
  match v with
  | VInt z => Ok (Z.ltb 0 z)
  | VBool b => Ok b
  | VFloat f => Ok (flt (S754_zero false) f)
  | _ => Raise TypeError
  end.

(** The validator chosen for a field name in both validation branches. *)
Definition validate_field (field_name : string) (field_value : PyVal)
    (product_details : dict) (req_type : PyVal) : Result Validation :=
  if String.eqb field_name "unit" then validate_unit field_value
  else if String.eqb field_name "quantity" then
    validate_quantity field_value product_details req_type
  else if String.eqb field_name "delivery_date" then validate_date field_value
  else if existsb (String.eqb field_name) ["incoterm"; "mode_of_payment"; "packaging_pref"]
  then validate_selection field_name field_value
  else if String.eqb field_name "phone" then validate_phone field_value
  else Ok valid.

(** [validation_results[field_name] = result] *)
Fixpoint vres_set (k : string) (r : Validation) (l : list (string * Validation))
    : list (string * Validation) :=
  match l with
  | [] => [(k, r)]
  | (k', r') :: l' => if String.eqb k k' then (k', r) :: l' else (k', r') :: vres_set k r l'
  end.

Fixpoint vres_get (k : string) (l : list (string * Validation)) : option Validation :=
  match l with
  | [] => None
  | (k', r) :: l' => if String.eqb k k' then Some r else vres_get k l'
  end.

(** FIRST: validate every supplied (non-[None]) field; the loop does not
    stop at an invalid field. *)
Fixpoint validate_all (product_details : dict) (req_type : PyVal) (fields : dict)
    (acc : list (string * Validation) * bool) : Result (list (string * Validation) * bool) :=
  match fields with
  | [] => Ok acc
  | (field_name, field_value) :: rest =>
      match field_value with
      | VNone => validate_all product_details req_type rest acc
      | _ =>
          let* result := validate_field field_name field_value product_details req_type in
          validate_all product_details req_type rest
            (vres_set field_name result (fst acc), snd acc && is_valid result)
      end
  end.

(** SECOND: copy every supplied field into [session_updates], the unit
    in its normalised form. *)
Fixpoint commit_all (fields : dict) (validation_results : list (string * Validation))
    (session_updates : dict) : dict :=
  match fields with
  | [] => session_updates
  | (field_name, field_value) :: rest =>
      match field_value with
      | VNone => commit_all rest validation_results session_updates
      | _ =>
          let v :=
            if String.eqb field_name "unit" then
              match vres_get field_name validation_results with
              | Some r => match normalized_value r with Some n => n | None => field_value end
              | None => field_value
              end
            else field_value in
          commit_all rest validation_results (dict_set field_name v session_updates)
      end
  end.

(** [function_args.get(...)] on arguments that are not a JSON object
    raises [AttributeError]. *)
Definition as_dict (v : PyVal) : Result dict :=
  match v with VDict d => Ok d | _ => Raise AttributeError end.

(** The [extract_and_validate_all_fields] branch: the new
    [session_updates]. *)
Definition extract_and_validate_all_fields (function_args : dict)
    (request_type : string) (product_details : dict) (session_updates : dict)
    : Result dict :=
  let* extracted_fields := as_dict (dict_get_or "extracted_fields" (VDict []) function_args) in
  let req_type := dict_get_or "request_type" (VStr request_type) function_args in
  let* '(validation_results, all_fields_valid) :=
    validate_all product_details req_type extracted_fields ([], true) in
  let updates :=
    if all_fields_valid then commit_all extracted_fields validation_results session_updates
    else session_updates in
  (* THIRD: the expected price *)
  let q := dict_get_or "quantity" VNone extracted_fields in
  let p := dict_get_or "price_per_unit" VNone extracted_fields in
  if all_fields_valid && truthy q && truthy p then
    let* positive := py_gt_zero p in
    if positive then
      let* price_result :=
        calculate_expected_price [("quantity", q); ("price_per_unit", p)] in
      if String.eqb (price_status price_result) "success"
      then Ok (dict_set "expected_price" (calculated_value price_result) updates)
      else Ok updates
    else Ok updates
  else Ok updates.

(** A tool call requested by the model: its name and its arguments as
    [json.loads] returns them, [None] when they are not valid JSON. *)
Record ToolCall := mkToolCall {
  tc_name : string;
  tc_args : option PyVal
}.

(** The model's side of a turn: the first completion (text and tool calls)
    and the text of the follow-up completion. *)
Record LLMTurn := mkLLMTurn {
  llm_content : string;
  llm_tool_calls : list ToolCall;
  llm_final : string
}.

(** [json.loads(tool_call.function.arguments)] *)
Definition json_loads_args (a : option PyVal) : Result PyVal :=
  match a with Some v => Ok v | None => Raise ValueError end.

(** A field name compared with the names of the validators: a value that
    is not a string equals none of them. *)
Definition field_name_str (v : PyVal) : string :=
  match v with VStr s => s | _ => "" end.

(** [x in container] for a string [x] *)
Definition py_in_str (x : string) (container : PyVal) : Result bool :=
  match container with
  | VList l => Ok (existsb (fun v => match v with VStr s => String.eqb s x | _ => false end) l)
  | VStr s => Ok (py_contains x s)
  | VDict d => Ok (dict_mem x d)
  | _ => Raise TypeError
  end.

Fixpoint filter_result {A} (f : A -> Result bool) (l : list A) : Result (list A) :=
  match l with
  | [] => Ok []
  | x :: l' =>
      let* b := f x in
      let* r := filter_result f l' in
      Ok (if b then x :: r else r)
  end.

(** [check_completion_status(args, required_fields)]: [all_completed]. *)
Definition check_completion_status (function_args : dict)
    (required_fields : list string) : Result bool :=
  let* completed_fields := getitem "completed_fields" function_args in
  let* pending_fields :=
    filter_result (fun f => let* b := py_in_str f completed_fields in Ok (negb b))
      required_fields in
  Ok (match pending_fields with [] => true | _ => false end).

(** One iteration of the tool loop: [session_updates] and
    [handover_ready] after the call. *)
Definition request_details_tool (request_type : string) (product_details : dict)
    (required_fields : list string) (st : dict * bool) (tc : ToolCall)
    : Result (dict * bool) :=
  let '(session_updates, handover_ready) := st in
  let* raw_args := json_loads_args (tc_args tc) in
  let function_name := tc_name tc in
  (* the arguments are only read by the five known tools *)
  if negb (existsb (String.eqb function_name)
             ["extract_and_validate_all_fields"; "validate_individual_field";
              "calculate_expected_price"; "update_validated_field";
              "check_completion_status"])
  then Ok (session_updates, handover_ready) else
  let* function_args := as_dict raw_args in
  if String.eqb function_name "extract_and_validate_all_fields" then
    let* u := extract_and_validate_all_fields function_args request_type
                product_details session_updates in
    Ok (u, handover_ready)
  else if String.eqb function_name "validate_individual_field" then
    let* field_name := getitem "field_name" function_args in
    let* field_value := getitem "field_value" function_args in
    let req_type := dict_get_or "request_type" (VStr request_type) function_args in
    let* _ := validate_field (field_name_str field_name) field_value product_details req_type in
    Ok (session_updates, handover_ready)
  else if String.eqb function_name "calculate_expected_price" then
    let* result := calculate_expected_price function_args in
    if String.eqb (price_status result) "success"
    then Ok (dict_set "expected_price" (calculated_value result) session_updates,
             handover_ready)
    else Ok (session_updates, handover_ready)
  else if String.eqb function_name "update_validated_field" then
    let* field_name := getitem "field_name" function_args in
    let* field_value := getitem "field_value" function_args in
    match field_name with
    | VStr "unit" =>
        let* unit_result := validate_unit field_value in
        if is_valid unit_result then
          let v := match normalized_value unit_result with Some n => n | None => field_value end in
          Ok (dict_set "unit" v session_updates, handover_ready)
        else Ok (session_updates, handover_ready)
    | VStr name => Ok (dict_set name field_value session_updates, handover_ready)
    (* a dict key that is not a string is outside the model *)
    | _ => Raise TypeError
    end
  else if String.eqb function_name "check_completion_status" then
    let* all_completed := check_completion_status function_args required_fields in
    Ok (session_updates, all_completed)
  else Ok (session_updates, handover_ready).

Fixpoint fold_result {A B} (f : A -> B -> Result A) (acc : A) (l : list B) : Result A :=
  match l with
  | [] => Ok acc
  | x :: l' => let* acc' := f acc x in fold_result f acc' l'
  end.

(** The dict returned by [process_request_details]. *)
Record AIResponse := mkAIResponse {
  ai_response : string;
  ai_session_updates : dict;
  ai_handover_ready : bool
}.

Definition is_none_or_empty (v : PyVal) : bool :=
  match v with VNone => true | VStr s => String.eqb s "" | _ => false end.

(** The [except] branch of [process_request_details]. *)
Definition request_details_fallback (request : string) (product_details : dict)
    (required_fields : list string) : AIResponse :=
  let pending_fields :=
    filter (fun f => is_none_or_empty (dict_get_or f VNone product_details)) required_fields in
  match pending_fields with
  | [] => mkAIResponse "Thank you for the information. I'm ready to proceed with your request."
            [] true
  | _ => mkAIResponse
           ("I need some additional information to process your " ++ request
            ++ ". Please provide: " ++ String.concat ", " pending_fields) [] false
  end.

(** [process_request_details(user_input, session_data)]; the prompt text
    is not modelled. *)
Definition process_request_details (session_data : dict) (llm : LLMTurn)
    : Result AIResponse :=
  let request := dict_get_or "request" (VStr "") session_data in
  let* request_type := py_lower_val request in
  let* product_details := as_dict (dict_get_or "product_details" (VDict []) session_data) in
  let required_fields := get_required_fields request_type in
  match llm_tool_calls llm with
  | [] => Ok (mkAIResponse (llm_content llm) [] false)
  | calls =>
      match fold_result (request_details_tool request_type product_details required_fields)
              ([], false) calls with
      | Ok (session_updates, handover_ready) =>
          Ok (mkAIResponse (llm_final llm) session_updates handover_ready)
      | Raise _ =>
          Ok (request_details_fallback (field_name_str request) product_details
                required_fields)
      end
  end.

(** [session_data.setdefault("history", []).append({...})]: [.append] on
    a history that is not a list raises [AttributeError]. *)
Definition history_entry (user agent : string) : PyVal :=
  VDict [("user", VStr user); ("agent", VStr agent)].

Definition append_history (entry : PyVal) (session_data : dict) : Result dict :=
  match dict_get "history" session_data with
  | None => Ok (dict_set "history" (VList [entry]) session_data)
  | Some (VList l) => Ok (dict_set "history" (VList (l ++ [entry])) session_data)
  | Some _ => Raise AttributeError
  end.

(** [session_data.get("agent") == name] *)
Definition agent_is (name : string) (session_data : dict) : bool :=
  match dict_get "agent" session_data with
  | Some (VStr a) => String.eqb a name
  | _ => false
  end.

Definition handoff_message : string := "I'll hand you over to the next specialist.".

(** The update loop of [handle_request_details]: every non-[None] value
    goes into [session_data["product_details"]], created when absent;
    item assignment on a [product_details] that is not a dict raises
    [TypeError] (at the first value, before any change). *)
Fixpoint apply_detail_updates (updates : dict) (session_data : dict) : Result dict :=
  match updates with
  | [] => Ok session_data
  | (key, value) :: rest =>
      match value with
      | VNone => apply_detail_updates rest session_data
      | _ =>
          let s1 := if dict_mem "product_details" session_data then session_data
                    else dict_set "product_details" (VDict []) session_data in
          match dict_get "product_details" s1 with
          | Some (VDict pd) =>
              apply_detail_updates rest (dict_set "product_details" (VDict (dict_set key value pd)) s1)
          | _ => Raise TypeError
          end
      end
  end.

Definition request_details_error : string :=
  "I apologize, but I'm having trouble processing your request. Please try again.".

(** [handle_request_details(user_input, session_data)]: the reply (or the
    exception it lets escape) and the session dict, which the caller
    shares and keeps also when an exception escapes. *)
Definition handle_request_details (user_input : string) (session_data : dict)
    (llm : LLMTurn) : Result string * dict :=
  let except_branch (st : dict) :=
    match append_history (history_entry user_input request_details_error) st with
    | Ok st' => (Ok request_details_error, st')
    | Raise e => (Raise e, st)
    end in
  if negb (agent_is "request_details" session_data) then (Ok handoff_message, session_data)
  else
    match process_request_details session_data llm with
    | Raise _ => except_branch session_data
    | Ok ai =>
        match apply_detail_updates (ai_session_updates ai) session_data with
        | Raise _ => except_branch session_data
        | Ok s1 =>
            let s2 := if ai_handover_ready ai
                      then dict_set "agent" (VStr "address_purpose") s1 else s1 in
            match append_history (history_entry user_input (ai_response ai)) s2 with
            | Ok s3 => (Ok (ai_response ai), s3)
            | Raise _ => except_branch s2
            end
        end
    end.

End Validators.

(** ** Agent 1: product search and selection ([agents/product_request.py]) *)

(** [d.setdefault(k, dflt)]: the dict and the value now under [k]. *)
Definition setdefault (k : string) (dflt : PyVal) (d : dict) : dict * PyVal :=
  match dict_get k d with
  | Some v => (d, v)
  | None => (dict_set k dflt d, dflt)
  end.

(** The four entries of [session_data["cache"]]. *)
Record InvCache := mkInvCache {
  product_cache : dict;
  product_details_cache : dict;
  product_list_cache : dict;
  current_product_list : list PyVal
}.

(** The [setdefault] calls at the top of [fetch_inventory_query]: the
    session with its cache entries in place, and their contents.  A
    [cache] that is not a dict raises [AttributeError]; cache entries of
    another type than the function itself writes are outside the model
    and raise [TypeError]. *)
Definition open_cache (session_data : dict) : Result (dict * InvCache) :=
  let '(s1, c) := setdefault "cache" (VDict []) session_data in
  match c with
  | VDict cd =>
      let '(cd1, pc) := setdefault "product_cache" (VDict []) cd in
      let '(cd2, pdc) := setdefault "product_details_cache" (VDict []) cd1 in
      let '(cd3, plc) := setdefault "product_list_cache" (VDict []) cd2 in
      let '(cd4, cpl) := setdefault "current_product_list" (VList []) cd3 in
      match pc, pdc, plc, cpl with
      | VDict pc', VDict pdc', VDict plc', VList cpl' =>
          Ok (dict_set "cache" (VDict cd4) s1, mkInvCache pc' pdc' plc' cpl')
      | _, _, _, _ => Raise TypeError
      end
  | _ => Raise AttributeError
  end.

(** Write the cache entries back into [session_data["cache"]]. *)
Definition close_cache (session_data : dict) (c : InvCache) : dict :=
  match dict_get "cache" session_data with
  | Some (VDict cd) =>
      dict_set "cache"
        (VDict (dict_set "current_product_list" (VList (current_product_list c))
                 (dict_set "product_list_cache" (VDict (product_list_cache c))
                   (dict_set "product_details_cache" (VDict (product_details_cache c))
                     (dict_set "product_cache" (VDict (product_cache c)) cd)))))
        session_data
  | _ => session_data
  end.

(** [d.get(k, dflt)] where [d] must be a dict: [AttributeError] otherwise. *)
Definition get_from (d : PyVal) (k : string) (dflt : PyVal) : Result PyVal :=
  match d with
  | VDict d' => Ok (dict_get_or k dflt d')
  | _ => Raise AttributeError
  end.

(** [cached_result.get("results", {}).get("products")] *)
Definition cached_products (cached_result : PyVal) : Result PyVal :=
  let* results := get_from cached_result "results" (VDict []) in
  get_from results "products" VNone.

(** The payload returned when the vendor call fails. *)
Definition inventory_error_payload : PyVal :=
  VDict [("error", VBool true); ("results", VDict [("products", VList [])])].

(** [len(v)] *)
Definition py_len (v : PyVal) : Result nat :=
  match v with
  | VStr s => Ok (String.length s)
  | VList l => Ok (List.length l)
  | VDict d => Ok (List.length d)
  | _ => Raise TypeError
  end.

(** [str(n)] for a natural number *)
Fixpoint digits_of_nat (fuel n : nat) (acc : string) : string :=
  match fuel with
  | O => acc
  | S fuel' =>
      let acc' := String (ascii_of_nat (48 + n mod 10)) acc in
      if Nat.ltb n 10 then acc' else digits_of_nat fuel' (n / 10) acc'
  end.

Definition string_of_nat (n : nat) : string := digits_of_nat (S n) n "".

(** The loop caching each product by id and by its 1-based list number.
    It stops at the first product that raises ([.get] on a non-dict);
    what it cached before stays cached.  A product id that is not a
    string is outside the model (it raises [TypeError]). *)
Fixpoint cache_products (i : nat) (products : list PyVal) (c : InvCache)
    : InvCache * option exn :=
  match products with
  | [] => (c, None)
  | product :: rest =>
      match product with
      | VDict pd =>
          let product_id := dict_get_or "_id" VNone pd in
          if truthy product_id then
            match product_id with
            | VStr pid =>
                cache_products (S i) rest
                  (mkInvCache (product_cache c)
                     (dict_set pid product (product_details_cache c))
                     (dict_set (string_of_nat (S i)) product_id (product_list_cache c))
                     (current_product_list c ++ [product]))
            | _ => (c, Some TypeError)
            end
          else cache_products (S i) rest c
      | _ => (c, Some AttributeError)
      end
  end.

(** The vendor search from [fetch_inventory_query], from the call on:
    [api query] is the decoded JSON answer of the inventory endpoint, or
    [None] when the request or the decoding raises.  The third component
    lists the queries sent to the vendor. *)
Definition inventory_fetch (api : string -> option PyVal) (query cache_key : string)
    (session_data : dict) (c : InvCache) : Result PyVal * dict * list string :=
  let calls := [query] in
  match api query with
  | None => (Ok inventory_error_payload, close_cache session_data c, calls)
  | Some result =>
      (* the log line computes len(result.get('results', {}).get('products', [])) *)
      match (let* r := get_from result "results" (VDict []) in
             let* ps := get_from r "products" (VList []) in
             py_len ps) with
      | Raise _ => (Ok inventory_error_payload, close_cache session_data c, calls)
      | Ok _ =>
          let result' :=
            match result with
            | VDict rd =>
                match dict_get "results" rd with
                | Some (VDict rr) =>
                    VDict (dict_set "results"
                             (VDict (dict_del "rawResult" (dict_del "sellers" rr))) rd)
                | _ => result
                end
            | _ => result
            end in
          let products :=
            match result' with
            | VDict rd => match dict_get "results" rd with
                          | Some (VDict rr) => dict_get_or "products" VNone rr
                          | _ => VNone
                          end
            | _ => VNone
            end in
          if truthy products then
            let c1 := mkInvCache (dict_set cache_key result' (product_cache c))
                        (product_details_cache c) [] [] in
            match products with
            | VList ps =>
                match cache_products 0 ps c1 with
                | (c2, None) => (Ok result', close_cache session_data c2, calls)
                | (c2, Some _) => (Ok inventory_error_payload, close_cache session_data c2, calls)
                end
            (* iterating a string or a dict yields strings, on which
               [.get] raises; other values are not iterable *)
            | _ => (Ok inventory_error_payload, close_cache session_data c1, calls)
            end
          else (Ok result', close_cache session_data c, calls)
      end
  end.

(** [fetch_inventory_query(query, session_data)] *)
Definition fetch_inventory_query (api : string -> option PyVal) (query : string)
    (session_data : dict) : Result PyVal * dict * list string :=
  match open_cache session_data with
  | Raise e => (Raise e, session_data, [])
  | Ok (s1, c) =>
      let cache_key := py_strip (py_lower query) in
      match dict_get cache_key (product_cache c) with
      | Some cached_result =>
          match cached_products cached_result with
          | Raise e => (Raise e, s1, [])
          | Ok products =>
              if truthy products then (Ok cached_result, s1, [])
              else
                let c' := mkInvCache (dict_del cache_key (product_cache c))
                            (product_details_cache c) (product_list_cache c)
                            (current_product_list c) in
                inventory_fetch api query cache_key (close_cache s1 c') c'
          end
      | None => inventory_fetch api query cache_key s1 c
      end
  end.

(** [get_product_by_id(product_id, session_data)]; [None] is [VNone].
    An unhashable id (a list or a dict) raises [TypeError]. *)
Definition get_product_by_id (product_id : PyVal) (session_data : dict) : Result PyVal :=
  let* cache := get_from (VDict session_data) "cache" (VDict []) in
  let* pdc := get_from cache "product_details_cache" (VDict []) in
  match product_id, pdc with
  | VList _, _ | VDict _, _ => Raise TypeError
  | VStr pid, VDict d => Ok (dict_get_or pid VNone d)
  | _, VDict _ => Ok VNone
  | _, _ => Raise TypeError
  end.

Definition has_id (v : PyVal) : bool :=
  match v with VDict d => dict_mem "_id" d | _ => false end.

(** The [update_session_memory] branch: [Some args] when the arguments
    (with [product_details] recovered from the cache if needed) are
    merged into [session_updates], [None] when the call is refused. *)
Definition update_session_memory_tool (function_args : dict) (session_data : dict)
    : Result (option dict) :=
  let product_details := dict_get_or "product_details" (VDict []) function_args in
  let product_id := dict_get_or "product_id" VNone function_args in
  (* the log line calls product_details.keys() when it is truthy *)
  let* _ := if truthy product_details
            then match product_details with VDict _ => Ok tt | _ => Raise AttributeError end
            else Ok tt in
  let* '(args1, pd1) :=
    if negb (truthy product_details) || negb (has_id product_details) then
      let* cached_product := get_product_by_id product_id session_data in
      if truthy cached_product
      then Ok (dict_set "product_details" cached_product function_args, cached_product)
      else Ok (function_args, product_details)
    else Ok (function_args, product_details) in
  if negb (truthy pd1) || negb (has_id pd1) then Ok None else Ok (Some args1).

(** [d.update(e)] *)
Definition dict_update (d e : dict) : dict :=
  fold_left (fun acc kv => dict_set (fst kv) (snd kv) acc) e d.

(** The tool loop of [process_with_ai_tools]: [session_updates] (or the
    exception that ends the turn), the session (its cache), and the
    vendor queries sent. *)
Fixpoint product_tools (api : string -> option PyVal) (calls : list ToolCall)
    (session_data : dict) (session_updates : dict) (sent : list string)
    : Result dict * dict * list string :=
  match calls with
  | [] => (Ok session_updates, session_data, sent)
  | tc :: rest =>
      match json_loads_args (tc_args tc) with
      | Raise e => (Raise e, session_data, sent)
      | Ok raw_args =>
          if String.eqb (tc_name tc) "fetch_inventory_query" then
            match (let* a := as_dict raw_args in getitem "query" a) with
            | Ok (VStr query) =>
                match fetch_inventory_query api query session_data with
                | (Raise e, s', q) => (Raise e, s', app sent q)
                | (Ok _, s', q) => product_tools api rest s' session_updates (app sent q)
                end
            | Ok _ => (Raise AttributeError, session_data, sent)
            | Raise e => (Raise e, session_data, sent)
            end
          else if String.eqb (tc_name tc) "update_session_memory" then
            match (let* a := as_dict raw_args in update_session_memory_tool a session_data) with
            | Ok (Some args') =>
                product_tools api rest session_data (dict_update session_updates args') sent
            | Ok None => product_tools api rest session_data session_updates sent
            | Raise e => (Raise e, session_data, sent)
            end
          else product_tools api rest session_data session_updates sent
      end
  end.

Definition product_request_error : string :=
  "I apologize, but I'm having trouble processing your request. Please try again.".

(** [handle_product_request(user_input, session_data)]: the reply, the
    session and the vendor queries sent. *)
Definition handle_product_request (api : string -> option PyVal) (user_input : string)
    (session_data : dict) (llm : LLMTurn) : Result string * dict * list string :=
  let '(s0, _) := setdefault "history" (VList []) session_data in
  if negb (agent_is "product_request" s0) then (Ok handoff_message, s0, [])
  else
    match product_tools api (llm_tool_calls llm) s0 [] [] with
    | (Raise _, s1, sent) => (Ok product_request_error, s1, sent)
    | (Ok session_updates, s1, sent) =>
        let response := match llm_tool_calls llm with
                        | [] => llm_content llm
                        | _ => llm_final llm
                        end in
        let s2 := fold_left (fun acc kv => if truthy (snd kv) then dict_set (fst kv) (snd kv) acc
                                           else acc) session_updates s1 in
        match dict_get "history" s2 with
        | Some (VList l) =>
            (Ok response, dict_set "history" (VList (app l [history_entry user_input response])) s2,
             sent)
        | _ => (Ok product_request_error, s2, sent)
        end
    end.

(** ** Python [==] on JSON values *)

(** Numbers compare by value across [bool], [int] and [float] (IEEE
    equality for two floats, exact comparison for an int and a float);
    lists compare elementwise; dicts compare as maps, whatever the
    insertion order. *)
Definition num_eq (a b : PyVal) : bool :=
  let as_int v := match v with
                  | VBool true => Some 1%Z | VBool false => Some 0%Z
                  | VInt z => Some z | _ => None end in
  match a, b with
  | VFloat x, VFloat y => match SFcompare x y with Some Eq => true | _ => false end
  | VFloat x, _ =>
      match float_to_Q x, as_int b with
      | Some q, Some z => Qeq_bool q (inject_Z z)
      | _, _ => false
      end
  | _, VFloat y =>
      match as_int a, float_to_Q y with
      | Some z, Some q => Qeq_bool (inject_Z z) q
      | _, _ => false
      end
  | _, _ =>
      match as_int a, as_int b with
      | Some x, Some y => Z.eqb x y
      | _, _ => false
      end
  end.

Fixpoint py_eq (a b : PyVal) {struct a} : bool :=
  match a, b with
  | VNone, VNone => true
  | VStr x, VStr y => String.eqb x y
  | VList xs, VList ys =>
      (fix go (xs ys : list PyVal) : bool :=
         match xs, ys with
         | [], [] => true
         | x :: xs', y :: ys' => py_eq x y && go xs' ys'
         | _, _ => false
         end) xs ys
  | VDict xs, VDict ys =>
      Nat.eqb (List.length xs) (List.length ys) &&
      (fix go (xs : dict) : bool :=
         match xs with
         | [] => true
         | (k, v) :: r =>
             match dict_get k ys with
             | Some w => py_eq v w && go r
             | None => false
             end
         end) xs
  | (VBool _ | VInt _ | VFloat _), (VBool _ | VInt _ | VFloat _) => num_eq a b
  | _, _ => false
  end.

(** [for x in v]: a list yields its items, a string its characters and
    a dict its keys; other values raise [TypeError]. *)
Fixpoint string_chars (s : string) : list PyVal :=
  match s with
  | EmptyString => []
  | String c r => VStr (String c EmptyString) :: string_chars r
  end.

Definition py_iter (v : PyVal) : Result (list PyVal) :=
  match v with
  | VList l => Ok l
  | VStr s => Ok (string_chars s)
  | VDict d => Ok (map (fun kv => VStr (fst kv)) d)
  | _ => Raise TypeError
  end.

(** ** Order placement ([services/order_placement.py]) *)

(** A form field as [aiohttp.FormData.add_field] receives it: a value
    passed as it is, or a dict serialised with [json.dumps]. *)
Inductive FormValue : Type :=
| FText (v : PyVal)
| FJson (d : dict).

(** The POST that [place_order_request] sends: a [FormData] body, which
    aiohttp encodes as multipart/form-data. *)
Record OrderRequest := mkOrderRequest {
  req_url : string;
  req_headers : list (string * PyVal);
  req_form : list (string * FormValue)
}.

(** The server's answer: the status code and the body when it decodes as
    JSON ([None] when [json.loads] raises). *)
Record HttpResponse := mkHttpResponse {
  http_status : Z;
  http_body : option PyVal
}.

(** The dict [place_order_request] returns, reduced to its [status] and
    [message] entries. *)
Record OrderResult := mkOrderResult {
  order_status : string;
  order_message : PyVal
}.

Definition PLACE_ORDER_URL : string := "https://chemfalcon.com:2053/order/placeOrder".

Definition is_hex_lower (c : ascii) : bool :=
  existsb (Ascii.eqb c) (list_ascii_of_string "0123456789abcdef").

Section Finalization.

(** Python's [str()] on a JSON value. *)
Variable py_str : PyVal -> string.

Definition is_mongo_id (v : PyVal) : bool :=
  match v with
  | VStr s => Nat.eqb (String.length s) 24 &&
              forallb is_hex_lower (list_ascii_of_string (py_lower s))
  | _ => false
  end.

(** The industry loop: the first cached industry whose [name_en] equals
    the session's industry name or whose [str(_id)] equals
    [str(industry_id)] gives its [_id]. *)
Fixpoint resolve_industry (industry_id industry_name : PyVal) (cached : list PyVal)
    : Result PyVal :=
  match cached with
  | [] => Ok VNone
  | industry :: rest =>
      let* name_en := get_from industry "name_en" VNone in
      let* iid := get_from industry "_id" VNone in
      if py_eq name_en industry_name || String.eqb (py_str iid) (py_str industry_id)
      then Ok iid
      else resolve_industry industry_id industry_name rest
  end.

Definition resolved_industry_id (session_data : dict) : Result PyVal :=
  let industry_id := dict_get_or "industry_id" VNone session_data in
  let industry_name := dict_get_or "industry_name" VNone session_data in
  if negb (truthy industry_id) then Ok VNone
  else if is_mongo_id industry_id then Ok industry_id
  else
    let* cached := py_iter (dict_get_or "_cached_industries" (VList []) session_data) in
    resolve_industry industry_id industry_name cached.

Definition simplified_address (address_data : PyVal) : Result dict :=
  match address_data with
  | VStr a =>
      Ok [("addressLine", VStr a); ("email", VStr ""); ("name", VStr "");
          ("phoneNumber", VStr ""); ("countryCode", VStr "");
          ("latitude", VStr ""); ("longitude", VStr "")]
  | VDict a =>
      Ok [("email", dict_get_or "email" (VStr "") a);
          ("name", dict_get_or "name" (VStr "") a);
          ("phoneNumber", dict_get_or "phoneNumber" (VStr "") a);
          ("countryCode", dict_get_or "countryCode" (VStr "") a);
          ("addressLine", dict_get_or "addressLine" (VStr "") a);
          ("latitude", VStr (py_str (dict_get_or "latitude" (VStr "") a)));
          ("longitude", VStr (py_str (dict_get_or "longitude" (VStr "") a)))]
  | _ => Raise AttributeError
  end.

(** [form_data.add_field(name, v)] guarded by [if v:] *)
Definition optional_field (name : string) (v : PyVal) : list (string * FormValue) :=
  if truthy v then [(name, FText v)] else [].

(** Everything [place_order_request] does before the POST: either the
    early [AUTH_ERROR] return, or the request to send.  Exceptions raised
    here are not caught by the function. *)
Definition build_order_request (session_data : dict)
    : Result (OrderResult + OrderRequest) :=
  let user_auth_token := dict_get_or "userAuth" VNone session_data in
  if negb (truthy user_auth_token) then
    Ok (inl (mkOrderResult "error" (VStr "No authentication token available")))
  else
    (* the log line slices user_auth_token[:20] *)
    let* _ := match user_auth_token with
              | VStr _ | VList _ => Ok tt
              | _ => Raise TypeError
              end in
    let product_details := dict_get_or "product_details" (VDict []) session_data in
    let address_data := dict_get_or "address" (VDict []) session_data in
    let* resolved := resolved_industry_id session_data in
    let* simplified := simplified_address address_data in
    (* the log line reads address_data.get('_id', 'N/A') *)
    let* _ := get_from address_data "_id" (VStr "N/A") in
    let* pd := match product_details with
               | VDict pd => Ok pd
               | _ => Raise AttributeError
               end in
    let* request := match dict_get_or "request" (VStr "") session_data with
                    | VStr r => Ok r
                    | _ => Raise AttributeError
                    end in
    let form := (
      [("address", FJson simplified);
       ("product", FText (dict_get_or "product_id" (VStr "") session_data));
       ("quantity", FText (VStr (py_str (dict_get_or "quantity" (VStr "") pd))));
       ("expectedAmount", FText (VStr (py_str (dict_get_or "expected_price" (VStr "") pd))));
       ("quantityType", FText (dict_get_or "unit" (VStr "") pd));
       ("type", FText (VStr (py_capitalize request)))]
      ++ (if String.eqb (py_lower request) "sample"
          then [("isSampleOrder", FText (VStr "TRUE"))] else [])
      ++ optional_field "industry" resolved
      ++ optional_field "incoterm" (dict_get_or "incoterm" VNone pd)
      ++ optional_field "modeOfPayment" (dict_get_or "mode_of_payment" VNone pd)
      ++ optional_field "packingType" (dict_get_or "packaging_pref" VNone pd)
      ++ optional_field "expectedPurchaseDate" (dict_get_or "delivery_date" VNone pd)
      ++ optional_field "shippingContactNumber" (dict_get_or "phone" VNone pd))%list in
    Ok (inr (mkOrderRequest PLACE_ORDER_URL
               [("x-auth-token-user", user_auth_token); ("x-user-type", VStr "Buyer")]
               form)).

(** [result.get("results", {}).get("order", {}).get("_id")], evaluated in
    the success branches: it raises on a [results] or [order] that is not
    a dict (for instance [null]). *)
Definition order_id_of (result : dict) : Result PyVal :=
  let* r := get_from (VDict result) "results" (VDict []) in
  let* o := get_from r "order" (VDict []) in
  get_from o "_id" VNone.

(** The response handling inside the [try]; [Raise] is caught by the
    final [except Exception], which returns an [UNKNOWN_ERROR]. *)
Definition handle_order_response (resp : HttpResponse) : Result OrderResult :=
  let st := http_status resp in
  if Z.eqb st 200 || Z.eqb st 201 then
    match http_body resp with
    | None => Ok (mkOrderResult "error" (VStr "Invalid response from server"))
    | Some body =>
        let* _ := get_from body "message" VNone in
        let* result := match body with VDict d => Ok d | _ => Raise AttributeError end in
        if py_eq (dict_get_or "error" VNone result) (VBool false) then
          let* _ := order_id_of result in
          Ok (mkOrderResult "success"
                (dict_get_or "message" (VStr "Order placed successfully!") result))
        else Ok (mkOrderResult "error" (dict_get_or "message" (VStr "Unknown API error") result))
    end
  else if Z.eqb st 206 then
    (* the bare except turns any failure here into a success *)
    let partial_success := mkOrderResult "success" (VStr "Order processed successfully (206)") in
    match http_body resp with
    | Some (VDict result) =>
        if py_eq (dict_get_or "error" VNone result) (VBool false) then
          match order_id_of result with
          | Ok _ => Ok (mkOrderResult "success"
                          (dict_get_or "message" (VStr "Order processed successfully!") result))
          | Raise _ => Ok partial_success
          end
        else Ok (mkOrderResult "error"
                   (dict_get_or "message" (VStr "Order partially processed") result))
    | _ => Ok partial_success
    end
  else
    let msg := if Z.eqb st 400 then "Invalid request data"
               else if Z.eqb st 401 then "Authentication required"
               else if Z.eqb st 403 then "Access forbidden"
               else if Z.eqb st 404 then "API endpoint not found"
               else if Z.eqb st 500 then "Server error occurred"
               else "HTTP " ++ py_str (VInt st) in
    Ok (mkOrderResult "error" (VStr msg)).

(** [place_order_request(session_data)]: [http] is the server, [None]
    when the POST raises (timeout, connection or other error; the three
    error messages are merged into one here).  The second component lists
    the requests sent. *)
Definition place_order_request (http : OrderRequest -> option HttpResponse)
    (session_data : dict) : Result OrderResult * list OrderRequest :=
  match build_order_request session_data with
  | Raise e => (Raise e, [])
  | Ok (inl early) => (Ok early, [])
  | Ok (inr req) =>
      match http req with
      | None => (Ok (mkOrderResult "error" (VStr "Request failed")), [req])
      | Some resp =>
          match handle_order_response resp with
          | Ok r => (Ok r, [req])
          | Raise _ => (Ok (mkOrderResult "error" (VStr "Unexpected error")), [req])
          end
      end
  end.

(** ** Agent 3: address and industry ([agents/address_purpose.py]) *)

(** [v.get(k)] on an element already known to be a dict. *)
Definition field_of (v : PyVal) (k : string) : PyVal :=
  match v with VDict d => dict_get_or k VNone d | _ => VNone end.

(** The loops that call [.get] on every element raise [AttributeError]
    at the first element that is not a dict. *)
Fixpoint all_dicts (l : list PyVal) : Result unit :=
  match l with
  | [] => Ok tt
  | VDict _ :: r => all_dicts r
  | _ :: _ => Raise AttributeError
  end.

(** The part of [fetch_and_cache_data] after the two API calls:
    [addresses_api] and [industries_api] are the lists the helpers return
    with status success, [None] when they report an error.  The session
    entry is written before the logging loop, which may raise. *)
Definition cache_list (key : string) (fetched : option PyVal) (session_data : dict)
    : Result unit * dict :=
  match fetched with
  | None => (Ok tt, dict_set key (VList []) session_data)
  | Some l =>
      let s1 := dict_set key l session_data in
      (let* _ := py_len l in
       let* items := py_iter l in
       all_dicts items, s1)
  end.

Definition fetch_and_cache_data (addresses_api industries_api : option PyVal)
    (session_data : dict) : Result unit * dict :=
  match cache_list "_cached_addresses" addresses_api session_data with
  | (Raise e, s1) => (Raise e, s1)
  | (Ok _, s1) =>
      match cache_list "_cached_industries" industries_api s1 with
      | (Raise e, s2) => (Raise e, s2)
      | (Ok _, s2) => (Ok tt, dict_set "_cached_data_fetched" (VBool true) s2)
      end
  end.

(** [history[-6:]], each entry read as [entry["user"]], [entry["agent"]]. *)
Definition check_history (history : PyVal) : Result unit :=
  match history with
  | VList l =>
      fold_result (fun _ entry =>
                     match entry with
                     | VDict e => let* _ := getitem "user" e in
                                  let* _ := getitem "agent" e in Ok tt
                     | _ => Raise TypeError
                     end) tt (skipn (List.length l - 6) l)
  | VStr "" => Ok tt
  | _ => Raise TypeError
  end.

(** What [process_address_purpose] and [build_system_prompt] read before
    the model call: the cached industries and addresses, every one of
    which is passed to [.get] while the prompt is built. *)
Definition prompt_data (session_data : dict) : Result (list PyVal * list PyVal) :=
  let* industries := py_iter (dict_get_or "_cached_industries" (VList []) session_data) in
  let* addresses := py_iter (dict_get_or "_cached_addresses" (VList []) session_data) in
  let* _ := all_dicts industries in
  let* _ := all_dicts addresses in
  let* _ := check_history (dict_get_or "history" (VList []) session_data) in
  Ok (industries, addresses).

(** [cached_addresses[n]] for [0 <= n < len(cached_addresses)], [None]
    out of range. *)
Definition pick (addresses : list PyVal) (n : Z) : PyVal :=
  if (0 <=? n)%Z && (n <? Z.of_nat (List.length addresses))%Z
  then nth (Z.to_nat n) addresses VNone else VNone.

(** The text match: the first address whose [addressLine] contains the
    lowercased text; a non-string [addressLine] raises on [.lower()]. *)
Fixpoint match_address_text (text : string) (addresses : list PyVal) : Result PyVal :=
  match addresses with
  | [] => Ok VNone
  | addr :: rest =>
      let* line := get_from addr "addressLine" (VStr "") in
      match line with
      | VStr l => if py_contains (py_lower text) (py_lower l) then Ok addr
                  else match_address_text text rest
      | _ => Raise AttributeError
      end
  end.

(** The last resort: the first word of the utterance that is a number in
    range. *)
Fixpoint scan_words (words : list string) (addresses : list PyVal) : PyVal :=
  match words with
  | [] => VNone
  | w :: rest =>
      if py_isdigit w then
        match pick addresses (py_int_of_digits w - 1) with
        | VNone => scan_words rest addresses
        | a => a
        end
      else scan_words rest addresses
  end.

(** The [select_address] branch: the address it stores, [VNone] when the
    branch reports an error and stores nothing. *)
Definition select_address (function_args : PyVal) (user_input : string)
    (cached_addresses : list PyVal) : Result PyVal :=
  let* address_object := get_from function_args "address_object" VNone in
  let* selected_address :=
    match address_object with
    | VDict d => Ok (if truthy (dict_get_or "_id" VNone d) then address_object else VNone)
    | VStr s =>
        if py_isdigit s then Ok (pick cached_addresses (py_int_of_digits s - 1))
        else match_address_text s cached_addresses
    | _ => Ok VNone
    end in
  let selected_address :=
    if negb (truthy selected_address) && match cached_addresses with [] => false | _ => true end
    then match scan_words (py_split (py_lower user_input)) cached_addresses with
         | VNone => selected_address
         | a => a
         end
    else selected_address in
  Ok (if truthy selected_address then selected_address else VNone).

(** [show_final_confirmation]: only its reads can raise. *)
Definition show_final_confirmation (session_data : dict) (confirmation_ready : bool)
    : Result unit :=
  if negb confirmation_ready then Ok tt
  else
    let* _ := get_from (dict_get_or "product_details" (VDict []) session_data) "quantity" VNone in
    match dict_get_or "address" (VDict []) session_data with
    | VStr _ | VDict _ => Ok tt
    | _ => Raise AttributeError
    end.

(** The tool loop of [process_address_purpose]: [session_updates] (or
    the exception that ends the turn) and the order requests sent.
    Missing or undecodable arguments read as [{}]. *)
Fixpoint address_tools (http : OrderRequest -> option HttpResponse) (user_input : string)
    (session_data : dict) (industries addresses : list PyVal) (calls : list ToolCall)
    (session_updates : dict) (sent : list OrderRequest) : Result dict * list OrderRequest :=
  match calls with
  | [] => (Ok session_updates, sent)
  | tc :: rest =>
      let function_args := match tc_args tc with Some v => v | None => VDict [] end in
      let continue u := address_tools http user_input session_data industries addresses
                          rest u sent in
      let name := tc_name tc in
      if String.eqb name "select_industry" then
        match (let* i := get_from function_args "industry_id" VNone in
               let* n := get_from function_args "industry_name" VNone in Ok (i, n)) with
        | Raise e => (Raise e, sent)
        | Ok (industry_id, industry_name) =>
            if existsb (fun ind => py_eq (field_of ind "_id") industry_id) industries
            then continue (dict_set "industry_name" industry_name
                             (dict_set "industry_id" industry_id session_updates))
            else continue session_updates
        end
      else if String.eqb name "select_address" then
        match select_address function_args user_input addresses with
        | Raise e => (Raise e, sent)
        | Ok VNone => continue session_updates
        | Ok a => continue (dict_set "address" a session_updates)
        end
      else if String.eqb name "show_final_confirmation" then
        let has_industry := truthy (dict_get_or "industry_id" VNone session_data)
                            || truthy (dict_get_or "industry_id" VNone session_updates) in
        let has_address := truthy (dict_get_or "address" VNone session_data)
                           || truthy (dict_get_or "address" VNone session_updates) in
        match show_final_confirmation session_data (has_industry && has_address) with
        | Raise e => (Raise e, sent)
        | Ok _ => continue session_updates
        end
      else if String.eqb name "place_order_request" then
        match get_from function_args "user_confirmed" VNone with
        | Raise e => (Raise e, sent)
        | Ok confirmed =>
            if truthy confirmed then
              match place_order_request http session_data with
              | (Raise e, reqs) => (Raise e, app sent reqs)
              | (Ok _, reqs) =>
                  address_tools http user_input session_data industries addresses
                    rest session_updates (app sent reqs)
              end
            else continue session_updates
        end
      (* get_cached_industries and get_cached_addresses only read *)
      else continue session_updates
  end.

(** [process_address_purpose(user_input, session_data)]: the reply and
    [session_updates], and the order requests sent. *)
Definition process_address_purpose (http : OrderRequest -> option HttpResponse)
    (user_input : string) (session_data : dict) (llm : LLMTurn)
    : Result (string * dict) * list OrderRequest :=
  match prompt_data session_data with
  | Raise e => (Raise e, [])
  | Ok (industries, addresses) =>
      match llm_tool_calls llm with
      | [] => (Ok (llm_content llm, []), [])
      | calls =>
          match address_tools http user_input session_data industries addresses calls [] [] with
          | (Raise e, sent) => (Raise e, sent)
          | (Ok u, sent) => (Ok (llm_final llm, u), sent)
          end
      end
  end.

Definition no_data_message : string :=
  "I apologize, but I'm unable to fetch the required data (industries and addresses) at the moment. Please try again later or contact support.".

Definition address_error_message : string :=
  "I apologize, but I'm having trouble processing your address information. Please try again.".

(** [for key, value in updates.items(): if value is not None: session_data[key] = value] *)
Definition apply_session_updates (updates session_data : dict) : dict :=
  fold_left (fun acc kv => match snd kv with VNone => acc | v => dict_set (fst kv) v acc end)
    updates session_data.

(** [handle_address_purpose(user_input, session_data)]: the reply, the
    shared session, and the order requests sent. *)
Definition handle_address_purpose (addresses_api industries_api : option PyVal)
    (http : OrderRequest -> option HttpResponse) (user_input : string)
    (session_data : dict) (llm : LLMTurn) : Result string * dict * list OrderRequest :=
  let except_branch (st : dict) (sent : list OrderRequest) :=
    match append_history (history_entry user_input address_error_message) st with
    | Ok st' => (Ok address_error_message, st', sent)
    | Raise e => (Raise e, st, sent)
    end in
  if negb (agent_is "address_purpose" session_data) then (Ok handoff_message, session_data, [])
  else
    let '(fetched, s1) :=
      if truthy (dict_get_or "_cached_data_fetched" VNone session_data)
      then (Ok tt, session_data)
      else fetch_and_cache_data addresses_api industries_api session_data in
    match fetched with
    | Raise _ => except_branch s1 []
    | Ok _ =>
        if negb (truthy (dict_get_or "_cached_industries" (VList []) s1))
           && negb (truthy (dict_get_or "_cached_addresses" (VList []) s1)) then
          match append_history (history_entry user_input no_data_message) s1 with
          | Ok s2 => (Ok no_data_message, s2, [])
          | Raise _ => except_branch s1 []
          end
        else
          match process_address_purpose http user_input s1 llm with
          | (Raise _, sent) => except_branch s1 sent
          | (Ok (response, updates), sent) =>
              let s2 := apply_session_updates updates s1 in
              match append_history (history_entry user_input response) s2 with
              | Ok s3 => (Ok response, s3, sent)
              | Raise _ => except_branch s2 sent
              end
          end
    end.

End Finalization.

(** ** The manager's session expansion ([services/agent_manager.py]) *)

(** The [field_requirements] dict of [expand_session_for_request]. *)
Definition field_requirements : list (string * list string) :=
  [("order", ["unit"; "quantity"; "price_per_unit"; "expected_price"; "phone"; "incoterm";
              "mode_of_payment"; "packaging_pref"; "delivery_date"]);
   ("sample", ["unit"; "quantity"; "price_per_unit"; "expected_price"; "phone"; "incoterm";
               "mode_of_payment"; "packaging_pref"; "delivery_date"]);
   ("quote", ["unit"; "quantity"; "price_per_unit"; "expected_price"; "phone"; "incoterm";
              "mode_of_payment"; "packaging_pref"; "delivery_date"]);
   ("ppr", ["unit"; "quantity"; "price_per_unit"; "expected_price"; "delivery_date"])].

Fixpoint lookup_fields (k : string) (table : list (string * list string)) : option (list string) :=
  match table with
  | [] => None
  | (k', v) :: rest => if String.eqb k k' then Some v else lookup_fields k rest
  end.

(** The list the field loop of [expand_session_for_request(data)] runs
    over: [data.get("request", "").lower()] looked up in
    [field_requirements], with the four base fields as default.  A
    request that is not a string raises on [.lower()]. *)
Definition expand_required_fields (data : dict) : Result (list string) :=
  match dict_get_or "request" (VStr "") data with
  | VStr r =>
      let request_type := py_lower r in
      Ok (match lookup_fields request_type field_requirements with
          | Some fields => fields
          | None => ["unit"; "quantity"; "price_per_unit"; "expected_price"]
          end)
  | _ => Raise AttributeError
  end.

(** [str(v)] on the scalars the examples below pass to it: strings,
    ints, booleans and [None]. *)
Definition str_of_scalar (v : PyVal) : string :=
  match v with
  | VStr s => s
  | VInt z => if (z <? 0)%Z then "-" ++ string_of_nat (Z.to_nat (- z))
              else string_of_nat (Z.to_nat z)
  | VBool true => "True"
  | VBool false => "False"
  | VNone => "None"
  | _ => ""
  end.

(** The success condition of [handle_order_response], read off its
    branches: 200 or 201 with a JSON object whose [error] equals [False]
    and whose order id lookup does not raise, or 206 unless the body is a
    JSON object whose [error] is not [False]. *)
Definition order_ok (resp : HttpResponse) : Prop :=
  ((http_status resp = 200 \/ http_status resp = 201)%Z /\
   exists d, http_body resp = Some (VDict d) /\
     py_eq (dict_get_or "error" VNone d) (VBool false) = true /\
     exists v, order_id_of d = Ok v)
  \/ (http_status resp = 206%Z /\
      forall d, http_body resp = Some (VDict d) ->
      py_eq (dict_get_or "error" VNone d) (VBool false) = true).


(** ** Agent 2: progress of the collected fields ([agents/request_details.py]) *)

(** [value not in [None, "", 0, "0"]]: membership compares with [==],
    so [False], [0.0] and [-0.0] are also not completed. *)
Definition completed_value (value : PyVal) : bool :=
  negb (existsb (py_eq value) [VNone; VStr ""; VInt 0; VStr "0"]).

(** [get_completed_fields(product_details, required_fields)] *)
Definition get_completed_fields (product_details : dict) (required_fields : list string)
    : list string :=
  filter (fun field => completed_value (dict_get_or field VNone product_details))
    required_fields.

(** The [pending_fields] of [process_request_details]:
    [[f for f in required_fields if f not in completed_fields]]. *)
Definition prompt_pending_fields (product_details : dict) (required_fields : list string)
    : list string :=
  let completed_fields := get_completed_fields product_details required_fields in
  filter (fun f => negb (existsb (String.eqb f) completed_fields)) required_fields.

(** ** The manager's field metadata ([services/agent_manager.py]) *)

Definition meta (type_ : string) (extra : dict) (required_for : list string)
    (agent : Z) (description : string) : PyVal :=
  VDict ([("type", VStr type_)] ++ extra ++
         [("required_for", VList (map VStr required_for)); ("agent", VInt agent);
          ("description", VStr description)])%list.

Definition strs (l : list string) : PyVal := VList (map VStr l).

(** [FIELD_METADATA] *)
Definition FIELD_METADATA : dict :=
  [("unit", meta "select" [("options", strs ["KG"; "GAL"; "LB"; "L"])]
              ["Order"; "Sample"; "Quote"; "ppr"] 2
              "Unit of measurement for the product - select from KG, GAL, LB, or L");
   ("quantity", meta "number" [("validation", VStr "positive_number")]
              ["Order"; "Sample"; "Quote"; "ppr"] 2
              "Quantity required (must be positive number), greater than or equal to minQuantity and less than available stock");
   ("price_per_unit", meta "number" [("validation", VStr "positive_number")]
              ["Order"; "Sample"; "Quote"; "ppr"] 2
              "Price per unit (must be positive number)");
   ("expected_price", meta "calculated" [("calculation", VStr "quantity * price_per_unit")]
              ["Order"; "Sample"; "Quote"; "ppr"] 2
              "Automatically calculated total price");
   ("address", meta "select" [("options", VStr "fetch_from_user_account via API")]
              ["Order"; "Sample"; "Quote"; "ppr"] 3
              "Delivery address (choose from saved addresses)");
   ("phone", meta "phone" [("validation", VStr "phone_number")]
              ["Order"; "Sample"; "Quote"] 2 "Contact phone number");
   ("incoterm", meta "select" [("options", strs ["Ex Factory"; "Deliver to Buyer Factory"])]
              ["Order"; "Sample"; "Quote"] 2 "International commercial terms");
   ("mode_of_payment", meta "select" [("options", strs ["LC"; "TT"; "Cash"])]
              ["Order"; "Sample"; "Quote"] 2 "Payment method");
   ("packaging_pref", meta "select"
              [("options", strs ["Bulk Tanker"; "PP Bag"; "Jerry Can"; "Drum"])]
              ["Order"; "Sample"; "Quote"] 2 "Packaging preference");
   ("delivery_date", meta "date" [("validation", VStr "future_date")]
              ["Order"; "Sample"; "Quote"; "ppr"] 2 "Delivery date (must be after today)");
   ("market", meta "select" [("options", VStr "fetch_from_site via API")]
              ["Order"] 3 "Target market")].

(** The [validation_info] entry written for a field. *)
Definition validation_info_entry (field_name : string) : PyVal :=
  let field_meta := match dict_get field_name FIELD_METADATA with
                    | Some (VDict m) => m
                    | _ => []
                    end in
  VDict [("type", dict_get_or "type" (VStr "text") field_meta);
         ("options", dict_get_or "options" (VList []) field_meta);
         ("validation", dict_get_or "validation" (VStr "") field_meta);
         ("description", dict_get_or "description" (VStr field_name) field_meta);
         ("required", VBool true)].

(** One iteration of the field loop of [expand_session_for_request]: it
    mutates [data] in place, so the session after a failing iteration
    keeps what the iteration wrote before raising.  [data["product_details"]]
    raises [KeyError] when absent; every operation of the loop raises
    [TypeError] on a [product_details] or [validation_info] that is not
    a dict. *)
Definition expand_field (data : dict) (field_name : string) : Result unit * dict :=
  match dict_get "product_details" data with
  | None => (Raise KeyError, data)
  | Some (VDict pd) =>
      let pd1 := if dict_mem field_name pd then pd
                 else dict_set field_name (VStr "") pd in
      let pd2 := if dict_mem "validation_info" pd1 then pd1
                 else dict_set "validation_info" (VDict []) pd1 in
      match dict_get "validation_info" pd2 with
      | Some (VDict vi) =>
          (Ok tt, dict_set "product_details"
                    (VDict (dict_set "validation_info"
                              (VDict (dict_set field_name (validation_info_entry field_name) vi))
                              pd2)) data)
      | _ => (Raise TypeError, dict_set "product_details" (VDict pd2) data)
      end
  | Some _ => (Raise TypeError, data)
  end.

Fixpoint expand_fields (fields : list string) (data : dict) : Result unit * dict :=
  match fields with
  | [] => (Ok tt, data)
  | f :: rest =>
      match expand_field data f with
      | (Ok _, d1) => expand_fields rest d1
      | (Raise e, d1) => (Raise e, d1)
      end
  end.

(** [expand_session_for_request(data)]: the session after the call (the
    same object the function returns). *)
Definition expand_session_for_request (data : dict) : Result unit * dict :=
  match expand_required_fields data with
  | Raise e => (Raise e, data)
  | Ok required_fields => expand_fields required_fields data
  end.


(** [validate_unit_field(unit_value)]: the manager's own list of units
    has the same four entries as [ALLOWED_UNITS] of agent 2; there is no
    [strip()] here. *)
Definition validate_unit_field (unit_value : PyVal) : Result bool :=
  if negb (truthy unit_value) then Ok false
  else match unit_value with
       | VStr s => Ok (existsb (String.eqb (py_upper s)) ALLOWED_UNITS)
       | _ => Raise AttributeError
       end.

(** ** The chat route's language handling ([routes/chat.py], [core/utils.py]) *)

Fixpoint assoc_str (k : string) (l : list (string * string)) : option string :=
  match l with
  | [] => None
  | (k', v) :: rest => if String.eqb k k' then Some v else assoc_str k rest
  end.

(** [normalize_language(language_input)] *)
Definition language_map : list (string * string) :=
  [("arabic", "ar"); ("bangla", "bn"); ("bengali", "bn"); ("english", "en");
   ("en", "en"); ("ar", "ar"); ("bn", "bn")].

Definition normalize_language (language_input : string) : string :=
  if String.eqb language_input "" then "en"
  else
    let normalized_input := py_lower (py_strip language_input) in
    py_lower (match assoc_str normalized_input language_map with
              | Some code => code
              | None => "en"
              end).

(** [translator.supported_languages] and [is_supported_language] *)
Definition supported_languages : list string := ["en"; "ar"; "bn"].

Definition is_supported_language (language : string) : bool :=
  existsb (String.eqb language) supported_languages.

(** ** Agent 3: the API helpers ([agents/address_purpose.py]) *)

(** The dict returned by [fetch_industries] and [fetch_user_addresses],
    reduced to its [status], the value under [industries] or [addresses]
    and [count]; the [error] text, which embeds [str(e)], is not kept. *)
Record FetchResult := mkFetchResult {
  fetch_status : string;
  fetch_items : PyVal;
  fetch_count : nat
}.

(** Every failure branch: [{"...": [], "count": 0, "status": "error", ...}] *)
Definition fetch_error : FetchResult := mkFetchResult "error" (VList []) 0.

Definition status_200_201 (r : HttpResponse) : bool :=
  (Z.eqb (http_status r) 200 || Z.eqb (http_status r) 201)%Z.

(** [industry.get("status") == True and industry.get("isDeleted") == False] *)
Definition industry_active (industry : dict) : bool :=
  py_eq (dict_get_or "status" VNone industry) (VBool true)
  && py_eq (dict_get_or "isDeleted" VNone industry) (VBool false).

(** [{"_id": industry.get("_id"), "name_en": industry.get("name_en")}] *)
Definition industry_projection (industry : dict) : PyVal :=
  VDict [("_id", dict_get_or "_id" VNone industry);
         ("name_en", dict_get_or "name_en" VNone industry)].

(** The filtering loop; [.get] on an element that is not a dict raises
    [AttributeError]. *)
Fixpoint filter_industries (raw : list PyVal) : Result (list PyVal) :=
  match raw with
  | [] => Ok []
  | VDict d :: rest =>
      let* r := filter_industries rest in
      Ok (if industry_active d then industry_projection d :: r else r)
  | _ :: _ => Raise AttributeError
  end.

(** The part of [fetch_industries] after [json.loads]: [industries_data]. *)
Definition industries_payload (result : PyVal) : Result (list PyVal) :=
  match result with
  | VDict d =>
      if py_eq (dict_get_or "error" VNone d) (VBool false) then
        let* inventories := get_from (dict_get_or "results" (VDict []) d) "inventories" VNone in
        if truthy inventories then
          let* _ := py_len inventories in
          let* raw_industries := py_iter inventories in
          filter_industries raw_industries
        else Ok []
      else Ok []
  | _ => Raise AttributeError
  end.

(** [fetch_industries()]: [resp] is the answer to the PATCH request,
    [None] when the request raises; every exception is caught. *)
Definition fetch_industries (resp : option HttpResponse) : FetchResult :=
  match resp with
  | None => fetch_error
  | Some r =>
      if status_200_201 r then
        match http_body r with
        | None => fetch_error
        | Some result =>
            match industries_payload result with
            | Ok l => mkFetchResult "success" (VList l) (List.length l)
            | Raise _ => fetch_error
            end
        end
      else fetch_error
  end.

(** The part of [fetch_user_addresses] after [json.loads]: [addresses]. *)
Definition addresses_payload (result : PyVal) : Result PyVal :=
  match result with
  | VDict d =>
      if py_eq (dict_get_or "error" VNone d) (VBool false) then
        let* address := get_from (dict_get_or "results" (VDict []) d) "address" VNone in
        Ok (if truthy address then address else VList [])
      else Ok (VList [])
  | _ => Raise AttributeError
  end.

(** [fetch_user_addresses(session_data)]: [api token] is the answer to
    the PATCH request sent with that token, [None] when it raises. *)
Definition fetch_user_addresses (api : PyVal -> option HttpResponse) (session_data : dict)
    : FetchResult :=
  let user_auth_token := dict_get_or "userAuth" VNone session_data in
  if negb (truthy user_auth_token) then fetch_error
  else
    match api user_auth_token with
    | None => fetch_error
    | Some r =>
        if status_200_201 r then
          match http_body r with
          | None => fetch_error
          | Some result =>
              match (let* addresses := addresses_payload result in
                     let* n := py_len addresses in Ok (addresses, n)) with
              | Ok (addresses, n) => mkFetchResult "success" addresses n
              | Raise _ => fetch_error
              end
          end
        else fetch_error
  end.

(** What [fetch_and_cache_data] caches from a helper's result: the list
    when [status] is success, nothing otherwise. *)
Definition fetched_list (r : FetchResult) : option PyVal :=
  if String.eqb (fetch_status r) "success" then Some (fetch_items r) else None.

(** The formatting loop of [get_cached_industries], numbered from [i]. *)
Fixpoint number_industries (i : nat) (industries : list PyVal) : Result (list PyVal) :=
  match industries with
  | [] => Ok []
  | VDict d :: rest =>
      let* r := number_industries (S i) rest in
      Ok (VDict [("number", VInt (Z.of_nat i)); ("id", dict_get_or "_id" VNone d);
                 ("name", dict_get_or "name_en" (VStr "Unknown Industry") d)] :: r)
  | _ :: _ => Raise AttributeError
  end.

(** One entry of [get_cached_industries]. *)
Definition industry_entry (i : nat) (d : dict) : PyVal :=
  VDict [("number", VInt (Z.of_nat i)); ("id", dict_get_or "_id" VNone d);
         ("name", dict_get_or "name_en" (VStr "Unknown Industry") d)].

(** [get_cached_industries(session_data)] *)
Definition get_cached_industries (session_data : dict) : Result dict :=
  let industries := dict_get_or "_cached_industries" (VList []) session_data in
  if negb (truthy industries) then
    Ok [("industries", VList []); ("count", VInt 0); ("status", VStr "error");
        ("message", VStr "No industries available from API")]
  else
    let* items := py_iter industries in
    let* formatted_industries := number_industries 1 items in
    let* n := py_len industries in
    Ok [("industries", VList formatted_industries); ("count", VInt (Z.of_nat n));
        ("status", VStr "success");
        ("message", VStr ("Found " ++ string_of_nat n
                          ++ " ACTIVE industries (status:true, isDeleted:false) - Display ALL "
                          ++ string_of_nat n ++ " items"))].

(** One entry of [get_cached_addresses]. *)
Definition address_entry (i : nat) (address : dict) : PyVal :=
  VDict [("number", VInt (Z.of_nat i)); ("id", dict_get_or "_id" VNone address);
         ("addressLine", dict_get_or "addressLine" (VStr "Unknown Address") address);
         ("name", dict_get_or "name" (VStr "") address);
         ("email", dict_get_or "email" (VStr "") address);
         ("phoneNumber", dict_get_or "phoneNumber" (VStr "") address);
         ("countryCode", dict_get_or "countryCode" (VStr "") address);
         ("city", dict_get_or "city" (VStr "") address);
         ("state", dict_get_or "state" (VStr "") address);
         ("country", dict_get_or "country" (VStr "") address);
         ("latitude", dict_get_or "latitude" (VStr "") address);
         ("longitude", dict_get_or "longitude" (VStr "") address)].

Fixpoint number_addresses (i : nat) (addresses : list PyVal) : Result (list PyVal) :=
  match addresses with
  | [] => Ok []
  | VDict d :: rest =>
      let* r := number_addresses (S i) rest in Ok (address_entry i d :: r)
  | _ :: _ => Raise AttributeError
  end.

(** [get_cached_addresses(session_data)] *)
Definition get_cached_addresses (session_data : dict) : Result dict :=
  let addresses := dict_get_or "_cached_addresses" (VList []) session_data in
  if negb (truthy addresses) then
    Ok [("addresses", VList []); ("count", VInt 0); ("status", VStr "error");
        ("message", VStr "No addresses available from API")]
  else
    let* items := py_iter addresses in
    let* formatted_addresses := number_addresses 1 items in
    let* n := py_len addresses in
    Ok [("addresses", VList formatted_addresses); ("count", VInt (Z.of_nat n));
        ("status", VStr "success");
        ("message", VStr ("Found " ++ string_of_nat n ++ " REAL addresses from API"))].

(** ** The agent manager ([services/agent_manager.py]) *)



Section Routing.

(** The translator's two calls; both catch every exception and fall back
    on the text they were given. *)
Variable translate_to_english : string -> string -> string.
Variable translate_from_english : string -> string -> string.

(** [datetime.datetime.utcnow()] *)
Variable now : PyVal.

(** The three agents, as [route_message] calls them: the reply (or the
    exception that escapes) and the session dict they share with it. *)
Variable product_handler : string -> dict -> Result string * dict.
Variable details_handler : string -> dict -> Result string * dict.
Variable address_handler : string -> dict -> Result string * dict.





End Routing.

(** ** The chat endpoint ([routes/chat.py]) *)

Definition sign_in_message (language_code : string) : string :=
  if String.eqb language_code "ar" then "يرجى تسجيل الدخول أو الاشتراك لتفعيل الدردشة."
  else if String.eqb language_code "bn" then "চ্যাটবট সক্রিয় করতে সাইন ইন বা সাইন আপ করুন।"
  else "Please sign in or sign up to activate the chatbot.".

Definition route_error_message (language_code : string) : string :=
  if String.eqb language_code "ar" then "عذرًا، حدث خطأ. يرجى المحاولة مرة أخرى."
  else if String.eqb language_code "bn" then "দুঃখিত, একটি ত্রুটি ঘটেছে। অনুগ্রহ করে আবার চেষ্টা করুন।"
  else "Sorry, something went wrong. Please try again.".

(** The reply of [chat_endpoint], its [sessionId], and the arguments of
    the [route_message] call ([None] when it is not called). *)
Record ChatReply := mkChatReply {
  chat_reply : string;
  chat_session_id : string;
  chat_routed : option (string * string * string * string)
}.

Section Chat.

(** [str(uuid.uuid4())] *)
Variable new_uuid : string.

(** [route_message(user_input, session_id, user_auth, language)], which
    may raise. *)
Variable route : string -> string -> string -> string -> Result string.

(** [chat_endpoint(chat)]; the two Mongo writes are not modelled. *)
Definition chat_endpoint (sessionId userAuth message : string) (language : option string)
    : ChatReply :=
  let session_id := if String.eqb sessionId "" then new_uuid else sessionId in
  let language_input := match language with
                        | Some l => if String.eqb l "" then "English" else l
                        | None => "English"
                        end in
  if String.eqb userAuth "" || String.eqb (py_strip userAuth) "" then
    mkChatReply (sign_in_message (normalize_language language_input)) session_id None
  else
    let language_code := normalize_language language_input in
    let language_code := if is_supported_language language_code then language_code else "en" in
    let ai_reply :=
      match route message session_id userAuth language_code with
      | Ok r => if String.eqb r "" then
                  "Sorry, something went wrong in the Agent or Manager. Please try again."
                else r
      | Raise _ => route_error_message language_code
      end in
    mkChatReply ai_reply session_id (Some (message, session_id, userAuth, language_code)).

End Chat.

(** A product as the search caches it: a dict with a non-empty string id. *)
Definition product_with_id (pd : dict) : Prop :=
  exists id, dict_get_or "_id" VNone pd = VStr id /\ id <> "".

(** ** The translation queue of [core/utils.py] *)

Section RateLimit.
Local Open Scope Z_scope.
Local Open Scope list_scope.

(** [while self.request_times and self.request_times[0] < now - 60:
        self.request_times.popleft()] (timestamps as integers) *)
Fixpoint popleft_expired (now : Z) (request_times : list Z) : list Z :=
  match request_times with
  | t :: rest => if t <? now - 60 then popleft_expired now rest else request_times
  | [] => []
  end.

(** How a pass of the wait loop ends: it proceeds at a clock reading, or
    [self.request_times[0]] raises [IndexError] on the empty deque. *)
Inductive WaitOutcome : Type :=
  | Proceed (now : Z)
  | IndexErrorRaised.

(** [_wait_for_rate_limit]: one loop pass per reading of [time.time()];
    [None] while it still sleeps, otherwise the outcome (the reading at
    which it proceeds, or the [IndexError] of [self.request_times[0]]) with
    the deque it leaves. Sleeping does not touch the deque. *)
Fixpoint wait_for_rate_limit (max_requests_per_minute : Z) (clock : list Z)
    (request_times : list Z) : option (WaitOutcome * list Z) :=
  match clock with
  | [] => None
  | now :: clock' =>
      let q := popleft_expired now request_times in
      if Z.of_nat (List.length q) <? max_requests_per_minute then Some (Proceed now, q)
      else match q with
           | [] => Some (IndexErrorRaised, q)
           | _ :: _ => wait_for_rate_limit max_requests_per_minute clock' q
           end
  end.

(** [_update_request_times] *)
Definition update_request_times (now : Z) (request_times : list Z) : list Z :=
  request_times ++ [now].

(** The worker [_process_queue] over the queued requests, each given by the
    clock readings of its wait and the reading taken after the translation:
    the (start, finish) times of the translations it performs, and the final
    deque. An exception of the wait is caught by the loop, which drops the
    request and moves on; a wait that has not ended stops the run. *)
Fixpoint process_queue (max_requests_per_minute : Z) (jobs : list (list Z * Z))
    (request_times : list Z) : list (Z * Z) * list Z :=
  match jobs with
  | [] => ([], request_times)
  | (clock, finished) :: jobs' =>
      match wait_for_rate_limit max_requests_per_minute clock request_times with
      | None => ([], request_times)
      | Some (IndexErrorRaised, q) => process_queue max_requests_per_minute jobs' q
      | Some (Proceed start, q) =>
          let (done_, qf) := process_queue max_requests_per_minute jobs'
                               (update_request_times finished q) in
          ((start, finished) :: done_, qf)
      end
  end.

End RateLimit.

(** ** The translation manager of [core/utils.py] *)

(** The [variations] table of [TranslationManager._normalize_term]. *)
Definition term_variations : list (string * string) :=
  [("ex factory", "ex factory"); ("ex-factory", "ex factory");
   ("ex works", "ex factory"); ("ex-works", "ex factory");
   ("bulk tanker", "bulk tanker"); ("bulk-tanker", "bulk tanker");
   ("bulk carrier", "bulk tanker"); ("bulk-carrier", "bulk tanker");
   ("tt", "tt"); ("t.t", "tt"); ("telegraphic transfer", "tt");
   ("lc", "lc"); ("letter of credit", "lc");
   ("full lc", "full letter of credit")].

(** [TranslationManager._normalize_term(term)] *)
Definition normalize_term (term : string) : string :=
  let normalized := py_strip (py_lower term) in
  match assoc_str normalized term_variations with
  | Some v => v
  | None => normalized
  end.

(** [TranslationManager._initialize_translation_memory()] *)
Definition translation_memory_init : dict :=
  [("<!-- R3S3T_S322I0N -->", VDict [("ar", VStr "<!-- R3S3T_S322I0N -->"); ("bn", VStr "<!-- R3S3T_S322I0N -->"); ("en", VStr "<!-- R3S3T_S322I0N -->")]);
   ("sample", VDict [("ar", VStr "العينة")]);
   ("order", VDict [("ar", VStr "الطلب")]);
   ("quotation", VDict [("ar", VStr "عرض الأسعار")]);
   ("bulk tanker", VDict [("ar", VStr "ناقل البضائع السائبة")]);
   ("ex factory", VDict [("ar", VStr "التسليم من المصنع")]);
   ("bdt", VDict [("ar", VStr "تاكا بنغلاديشي")]);
   ("bangladeshi taka", VDict [("ar", VStr "تاكا بنغلاديشي")]);
   ("taka", VDict [("ar", VStr "تاكا")]);
   ("bdt (bangladeshi taka)", VDict [("ar", VStr "تاكا بنغلاديشي")]);
   ("price in bdt", VDict [("ar", VStr "السعر بالتاكا البنغلاديشي")]);
   ("bangladeshi taka (bdt)", VDict [("ar", VStr "تاكا بنغلاديشي")])].

(** [TranslationManager.add_translation_memory_entry(english_term,
    arabic_translation)] on the memory [self._translation_memory]; [None]
    is the default argument. *)
Definition add_translation_memory_entry (english_term : string)
    (arabic_translation : option string) (memory : dict) : dict :=
  let ar := match arabic_translation with
            | Some a => if truthy (VStr a) then a else english_term
            | None => english_term
            end in
  dict_set (py_lower english_term) (VDict [("ar", VStr ar)]) memory.

(** [sum(1 for term in self._translation_memory.values() if term.get('ar'))] *)
Fixpoint count_arabic_terms (entries : dict) : Result nat :=
  match entries with
  | [] => Ok 0%nat
  | (_, term) :: rest =>
      let* ar := get_from term "ar" VNone in
      let* n := count_arabic_terms rest in
      Ok (if truthy ar then S n else n)
  end.

(** [TranslationManager.get_translation_memory_stats()] *)
Definition get_translation_memory_stats (memory : dict) : Result dict :=
  let* arabic_terms := count_arabic_terms memory in
  Ok [("total_terms", VInt (Z.of_nat (List.length memory)));
      ("arabic_translations", VInt (Z.of_nat arabic_terms));
      ("terms", VList (map (fun kv => VStr (fst kv)) memory))].

(** An entry of the memory with a non-empty Arabic translation. *)
Definition has_arabic (kv : string * PyVal) : Prop :=
  exists d t, snd kv = VDict d /\ dict_get_or "ar" VNone d = VStr t /\ t <> "".

(** [s'] agrees with [s] on every key but [k0]. *)
Definition same_except (k0 : string) (s s' : dict) : Prop :=
  forall k, k <> k0 -> dict_get k s' = dict_get k s.

(** * Properties *)

(** ** Dict lemmas *)

Lemma dict_get_set_other (k k' : string) (v : PyVal) (d : dict) :
  k <> k' -> dict_get k (dict_set k' v d) = dict_get k d.
Proof.
  intros Hne. induction d as [|[k0 v0] d IH]; simpl.
  - destruct (String.eqb_spec k k'); [congruence | reflexivity].
  - destruct (String.eqb_spec k' k0) as [->|Hk0]; simpl.
    + destruct (String.eqb_spec k k0); [congruence | reflexivity].
    + destruct (String.eqb k k0); [reflexivity | exact IH].
Qed.

Lemma dict_set_keys (k k' : string) (v : PyVal) (d : dict) :
  In k (map fst (dict_set k' v d)) -> k = k' \/ In k (map fst d).
Proof.
  induction d as [|[k0 v0] d IH]; simpl.
  - intros [H|[]]. left; symmetry; exact H.
  - destruct (String.eqb_spec k' k0) as [->|_]; simpl.
    + intros [H|H]; right; [left; exact H | right; exact H].
    + intros [H|H]; [right; left; exact H |].
      destruct (IH H) as [H'|H']; [left; exact H' | right; right; exact H'].
Qed.

(** ** C10: the two required-field tables *)

(** C10: for every [data], the fields [expand_session_for_request]
    initialises are those [get_required_fields] gives for
    [data["request"]], element for element, recognised request type or
    not (a request that is not a string raises before either is used). *)
Theorem expand_required_fields_agrees (data : dict) :
  expand_required_fields data =
  match dict_get_or "request" (VStr "") data with
  | VStr r => Ok (get_required_fields r)
  | _ => Raise AttributeError
  end.
Proof.
  unfold expand_required_fields, get_required_fields.
  destruct (dict_get_or "request" (VStr "") data) as [| | | |r| |]; try reflexivity.
  cbn [lookup_fields field_requirements].
  destruct (String.eqb (py_lower r) "order"); [reflexivity|].
  destruct (String.eqb (py_lower r) "sample"); [reflexivity|].
  destruct (String.eqb (py_lower r) "quote"); [reflexivity|].
  destruct (String.eqb (py_lower r) "ppr"); reflexivity.
Qed.

(** ** C8: unit validation *)

(** C8: for every string [s], [validate_unit] succeeds exactly when
    [s.strip().upper()] is one of KG, GAL, LB, L, and then its
    normalised value is that uppercase form. *)
Theorem validate_unit_iff_allowed (s : string) :
  exists r, validate_unit (VStr s) = Ok r /\
    (is_valid r = true <-> In (py_upper (py_strip s)) ["KG"; "GAL"; "LB"; "L"]) /\
    (is_valid r = true -> normalized_value r = Some (VStr (py_upper (py_strip s)))).
Proof.
  unfold validate_unit.
  destruct (existsb (String.eqb (py_upper (py_strip s))) ALLOWED_UNITS) eqn:E.
  - eexists; split; [reflexivity|]. simpl. split; [|reflexivity].
    split; [intros _|reflexivity].
    apply existsb_exists in E as [u [Hin Hu]].
    apply String.eqb_eq in Hu. subst u. exact Hin.
  - eexists; split; [reflexivity|]. simpl. split; [|discriminate].
    split; [discriminate|]. intros Hin.
    assert (existsb (String.eqb (py_upper (py_strip s))) ALLOWED_UNITS = true) as E'.
    { apply existsb_exists. exists (py_upper (py_strip s)).
      split; [exact Hin | apply String.eqb_refl]. }
    congruence.
Qed.

(** ** C9: idle handlers *)

(** C9 (as the code has it): a handler called on a session whose
    [agent] is not its own returns the hand-off message; the
    request-details and address handlers leave the session as it was,
    the product handler first adds an empty [history] when there is
    none.  No handler calls the vendor or the order endpoint. *)
Theorem idle_handlers_hand_off
    (float_of_str : string -> option float64) (strptime_ymd : string -> option Z)
    (today : Z) (phone_check : string -> option bool) (py_str : PyVal -> string)
    (api : string -> option PyVal) (addresses_api industries_api : option PyVal)
    (http : OrderRequest -> option HttpResponse)
    (user_input : string) (session_data : dict) (llm : LLMTurn) :
  (agent_is "request_details" session_data = false ->
   handle_request_details float_of_str strptime_ymd today phone_check
     user_input session_data llm = (Ok handoff_message, session_data)) /\
  (agent_is "address_purpose" session_data = false ->
   handle_address_purpose py_str addresses_api industries_api http
     user_input session_data llm = (Ok handoff_message, session_data, [])) /\
  (agent_is "product_request" session_data = false ->
   handle_product_request api user_input session_data llm =
   (Ok handoff_message,
    (if dict_mem "history" session_data then session_data
     else dict_set "history" (VList []) session_data), [])).
Proof.
  split; [|split]; intros H.
  - unfold handle_request_details. rewrite H. reflexivity.
  - unfold handle_address_purpose. rewrite H. reflexivity.
  - unfold handle_product_request, setdefault, dict_mem.
    destruct (dict_get "history" session_data) eqn:Eh; simpl.
    + rewrite H. reflexivity.
    + assert (agent_is "product_request" (dict_set "history" (VList []) session_data) = false)
        as H'.
      { unfold agent_is in *. rewrite dict_get_set_other by discriminate. exact H. }
      rewrite H'. reflexivity.
Qed.

(** C9: the product handler is not state-free when idle: on a session
    owned by the request-details agent and without history it adds
    [history = []] before handing off. *)
Lemma product_handler_idle_adds_history :
  let s := [("agent", VStr "request_details")] in
  handle_product_request (fun _ => None) "hello" s (mkLLMTurn "" [] "") =
    (Ok handoff_message, [("agent", VStr "request_details"); ("history", VList [])], []) /\
  [("agent", VStr "request_details"); ("history", VList [])] <> s.
Proof.
  split; [reflexivity | discriminate].
Qed.

(** ** C1: the bulk validation branch *)

(** C1 (code behaviour): with [quantity = 10] and [price_per_unit =
    "25"] every field of the batch validates, yet the price step
    compares ["25" > 0], which raises [TypeError]; the [except] of
    [process_request_details] then answers with empty
    [session_updates], so neither field is committed. *)
Theorem bulk_batch_lost_on_string_price
    (float_of_str : string -> option float64) (strptime_ymd : string -> option Z)
    (today : Z) (phone_check : string -> option bool) :
  let fields := [("quantity", VInt 10); ("price_per_unit", VStr "25")] in
  let args := [("extracted_fields", VDict fields)] in
  (exists vr, validate_all float_of_str strptime_ymd today phone_check [] (VStr "order")
                fields ([], true) = Ok (vr, true)) /\
  extract_and_validate_all_fields float_of_str strptime_ymd today phone_check
    args "order" [] [] = Raise TypeError /\
  (exists r, process_request_details float_of_str strptime_ymd today phone_check
               [("request", VStr "order"); ("product_details", VDict [])]
               (mkLLMTurn "" [mkToolCall "extract_and_validate_all_fields" (Some (VDict args))]
                  "done") = Ok r /\ ai_session_updates r = []).
Proof.
  split; [eexists; reflexivity | split; [reflexivity | eexists; split; reflexivity]].
Qed.

(** Supporting lemma for C1: when some supplied field fails its
    validator, the bulk branch returns [session_updates] unchanged: no
    field of the batch and no expected price is committed. *)
Lemma bulk_invalid_commits_nothing
    (float_of_str : string -> option float64) (strptime_ymd : string -> option Z)
    (today : Z) (phone_check : string -> option bool)
    (function_args : dict) (request_type : string) (product_details session_updates : dict)
    (fields : dict) (validation_results : list (string * Validation)) :
  dict_get_or "extracted_fields" (VDict []) function_args = VDict fields ->
  validate_all float_of_str strptime_ymd today phone_check product_details
    (dict_get_or "request_type" (VStr request_type) function_args) fields ([], true)
    = Ok (validation_results, false) ->
  extract_and_validate_all_fields float_of_str strptime_ymd today phone_check
    function_args request_type product_details session_updates = Ok session_updates.
Proof.
  intros Hf Hv. unfold extract_and_validate_all_fields.
  rewrite Hf. cbn [as_dict bind]. rewrite Hv. reflexivity.
Qed.

(** ** C4: quantity validation *)

(** C4 (code behaviour): [float("nan")] is NaN, every comparison with
    NaN is false, so for request type "order" a quantity of ["nan"]
    passes both bound checks and validates against bounds 1..100.  An
    int too large for a float makes [float()] raise [OverflowError],
    which the validator does not catch. *)
Theorem quantity_nan_validates (float_of_str : string -> option float64) :
  float_of_str "nan" = Some S754_nan ->
  validate_quantity float_of_str (VStr "nan")
    [("minQuantity", VInt 1); ("maxQuantity", VInt 100)] (VStr "order") = Ok valid /\
  validate_quantity float_of_str (VInt (2 ^ 1024)) [] (VStr "order") = Raise OverflowError.
Proof.
  intros Hnan. unfold validate_quantity. cbn [py_float bind]. rewrite Hnan.
  split; reflexivity.
Qed.

Lemma quantity_nan_validates_witness :
  py_float_literal "nan" = Some S754_nan /\
  validate_quantity py_float_literal (VStr "nan")
    [("minQuantity", VInt 1); ("maxQuantity", VInt 100)] (VStr "order") = Ok valid.
Proof.
  split; [reflexivity|].
  apply (proj1 (quantity_nan_validates py_float_literal eq_refl)).
Defined.

(** ** C6: the expected price *)

(** [float()] raises only [ValueError], [TypeError] and [OverflowError]. *)
Lemma py_float_exn (float_of_str : string -> option float64) (v : PyVal) (e : exn) :
  py_float float_of_str v = Raise e -> e = ValueError \/ e = TypeError \/ e = OverflowError.
Proof.
  destruct v as [|b|z|f|str|l|d]; cbn [py_float]; intros H.
  - injection H; intros <-; auto.
  - unfold float_of_int in H. destruct (binary_normalize _ _ _ _ _); try discriminate.
    injection H; intros <-; auto.
  - unfold float_of_int in H. destruct (binary_normalize _ _ _ _ _); try discriminate.
    injection H; intros <-; auto.
  - discriminate.
  - destruct (float_of_str str); [discriminate|]. injection H; intros <-; auto.
  - injection H; intros <-; auto.
  - injection H; intros <-; auto.
Qed.

(** C6 (as the code has it): with both arguments present,
    [calculate_expected_price] returns the binary64 product of their
    [float()] values with status "success"; when [float()] raises
    [ValueError] or [TypeError] it returns 0 with status "error"; an
    [OverflowError] from [float()] and a missing argument ([KeyError])
    escape.  For instance 10 and 25 give 250.0. *)
Theorem calculate_expected_price_cases (float_of_str : string -> option float64)
    (q p : PyVal) :
  calculate_expected_price float_of_str [("quantity", q); ("price_per_unit", p)] =
  match py_float float_of_str q, py_float float_of_str p with
  | Ok a, Ok b => Ok (mkPriceResult (VFloat (fmul a b)) "success")
  | Raise OverflowError, _ | Ok _, Raise OverflowError => Raise OverflowError
  | _, _ => Ok (mkPriceResult (VInt 0) "error")
  end /\
  (forall args, dict_get "quantity" args = None ->
   calculate_expected_price float_of_str args = Raise KeyError) /\
  (exists x, calculate_expected_price float_of_str
               [("quantity", VInt 10); ("price_per_unit", VInt 25)]
             = Ok (mkPriceResult (VFloat x) "success") /\
             match float_to_Q x with Some r => (r == 250)%Q | None => False end).
Proof.
  split; [|split].
  - unfold calculate_expected_price, catch_value_type, getitem. cbn - [py_float fmul].
    destruct (py_float float_of_str q) as [a|e] eqn:Hq.
    + destruct (py_float float_of_str p) as [b|e] eqn:Hp; cbn - [fmul]; [reflexivity|].
      destruct (py_float_exn _ _ _ Hp) as [ -> | [ -> | -> ] ]; reflexivity.
    + destruct (py_float float_of_str p); 
        destruct (py_float_exn _ _ _ Hq) as [ -> | [ -> | -> ] ]; reflexivity.
  - intros args H. unfold calculate_expected_price, getitem. rewrite H. reflexivity.
  - eexists. split; [reflexivity|]. vm_compute. reflexivity.
Qed.

(** C6: the product is rounded, not exact (0.1 times 3 is
    0.30000000000000004), a missing [price_per_unit] raises [KeyError]
    and an int beyond the float range raises [OverflowError]. *)
Lemma expected_price_inexact_and_raising :
  calculate_expected_price py_float_literal
    [("quantity", VFloat (S754_finite false 7205759403792794 (-56)));
     ("price_per_unit", VInt 3)]
  = Ok (mkPriceResult (VFloat (S754_finite false 5404319552844596 (-54))) "success") /\
  match float_to_Q (S754_finite false 5404319552844596 (-54)),
        float_to_Q (S754_finite false 7205759403792794 (-56)) with
  | Some r, Some tenth => ~ (r == 3 * tenth)%Q
  | _, _ => False
  end /\
  calculate_expected_price py_float_literal [("quantity", VInt 10)] = Raise KeyError /\
  calculate_expected_price py_float_literal
    [("quantity", VInt (2 ^ 1024)); ("price_per_unit", VInt 1)] = Raise OverflowError.
Proof.
  split; [reflexivity|]. split; [|split; reflexivity].
  intros H. vm_compute in H. discriminate H.
Qed.

(** ** C7: address selection *)

Lemma pick_out_of_range (addresses : list PyVal) (n : Z) :
  (n < 0 \/ Z.of_nat (List.length addresses) <= n)%Z -> pick addresses n = VNone.
Proof.
  intros H. unfold pick.
  destruct ((0 <=? n)%Z && (n <? Z.of_nat (List.length addresses))%Z) eqn:E; [|reflexivity].
  apply andb_true_iff in E as [E1 E2]. apply Z.leb_le in E1. apply Z.ltb_lt in E2. lia.
Qed.

(** C7 (as the code has it): with at least two cached addresses whose
    second entry is a non-empty record, [address_object = "2"] selects
    that entry; a number outside 1..[len(cached_addresses)], when no
    word of the utterance is a number in range, selects nothing and the
    [select_address] tool leaves [session_updates] unchanged. *)
Theorem select_address_by_number
    (py_str : PyVal -> string) (http : OrderRequest -> option HttpResponse)
    (user_input : string) (session_data : dict) (industries : list PyVal)
    (a1 a2 : PyVal) (rest : list PyVal)
    (s : string) (addresses : list PyVal) (session_updates : dict) (sent : list OrderRequest) :
  truthy a2 = true ->
  py_isdigit s = true ->
  (py_int_of_digits s < 1 \/ Z.of_nat (List.length addresses) < py_int_of_digits s)%Z ->
  scan_words (py_split (py_lower user_input)) addresses = VNone ->
  select_address (VDict [("address_object", VStr "2")]) user_input (a1 :: a2 :: rest) = Ok a2 /\
  select_address (VDict [("address_object", VStr s)]) user_input addresses = Ok VNone /\
  address_tools py_str http user_input session_data industries addresses
    [mkToolCall "select_address" (Some (VDict [("address_object", VStr s)]))]
    session_updates sent = (Ok session_updates, sent).
Proof.
  intros Ha2 Hs Hrange Hscan.
  assert (select_address (VDict [("address_object", VStr s)]) user_input addresses = Ok VNone)
    as Hsel.
  { unfold select_address. cbn [get_from dict_get_or dict_get String.eqb bind].
    simpl. rewrite Hs. rewrite pick_out_of_range by lia.
    destruct addresses; [reflexivity|]. cbn [truthy negb andb]. rewrite Hscan. reflexivity. }
  split; [|split].
  - assert (pick (a1 :: a2 :: rest) 1 = a2) as Hp.
    { unfold pick.
      destruct ((0 <=? 1)%Z && (1 <? Z.of_nat (List.length (a1 :: a2 :: rest)))%Z) eqn:E;
        [reflexivity|].
      apply andb_false_iff in E as [E|E]; [discriminate|].
      apply Z.ltb_ge in E. simpl List.length in E. lia. }
    unfold select_address. simpl. rewrite Hp, Ha2. simpl. rewrite Ha2. reflexivity.
  - exact Hsel.
  - simpl. rewrite Hsel. reflexivity.
Qed.

Lemma select_address_by_number_witness :
  truthy (VDict [("_id", VStr "a2")]) = true /\
  py_isdigit "7" = true /\
  (py_int_of_digits "7" < 1 \/ Z.of_nat (List.length [VDict [("_id", VStr "a1")]])
                              < py_int_of_digits "7")%Z /\
  scan_words (py_split (py_lower "the seventh")) [VDict [("_id", VStr "a1")]] = VNone /\
  select_address (VDict [("address_object", VStr "2")]) "the seventh"
    [VDict [("_id", VStr "a1")]; VDict [("_id", VStr "a2")]] = Ok (VDict [("_id", VStr "a2")]).
Proof.
  split; [reflexivity|]. split; [reflexivity|]. split; [right; reflexivity|].
  split; [reflexivity|].
  exact (proj1 (select_address_by_number str_of_scalar (fun _ => None) "the seventh" [] []
           (VDict [("_id", VStr "a1")]) (VDict [("_id", VStr "a2")]) []
           "7" [VDict [("_id", VStr "a1")]] [] [] eq_refl eq_refl (or_intror eq_refl) eq_refl)).
Defined.

(** C7: "2" does not always resolve to the second entry: when that
    entry is an empty record the selection fails, and with a single
    cached address the utterance "no, 1" makes "2" select the first. *)
Lemma select_address_2_counterexample :
  select_address (VDict [("address_object", VStr "2")]) "the second one"
    [VDict [("_id", VStr "a1"); ("addressLine", VStr "Road 1")]; VDict []] = Ok VNone /\
  select_address (VDict [("address_object", VStr "2")]) "no, 1"
    [VDict [("_id", VStr "a1"); ("addressLine", VStr "Road 1")]]
  = Ok (VDict [("_id", VStr "a1"); ("addressLine", VStr "Road 1")]).
Proof.
  split; reflexivity.
Qed.

(** ** C5: the inventory cache *)

(** [inventory_fetch] sends exactly one vendor query, the one it is
    given. *)
Lemma inventory_fetch_calls (api : string -> option PyVal) (query cache_key : string)
    (session_data : dict) (c : InvCache) :
  snd (inventory_fetch api query cache_key session_data c) = [query].
Proof.
  unfold inventory_fetch.
  destruct (api query) as [result|]; [|reflexivity].
  repeat match goal with
         | |- context [match ?x with _ => _ end] => destruct x
         | |- context [if ?b then _ else _] => destruct b
         end; reflexivity.
Qed.

(** C5: when the normalised query [query.lower().strip()] is a key of
    the session's product cache and the cached entry has a non-empty
    [results.products], the search returns the cached entry and sends no
    vendor query; when its product list is empty (falsy), the entry is
    deleted from the cache and the search is the vendor fetch on the
    evicted cache, which sends exactly the query. *)
Theorem inventory_cache_hit_or_evict (api : string -> option PyVal) (query : string)
    (session_data s1 : dict) (c : InvCache) (cached products : PyVal) :
  open_cache session_data = Ok (s1, c) ->
  dict_get (py_strip (py_lower query)) (product_cache c) = Some cached ->
  cached_products cached = Ok products ->
  (truthy products = true ->
   fetch_inventory_query api query session_data = (Ok cached, s1, [])) /\
  (truthy products = false ->
   let cache_key := py_strip (py_lower query) in
   let c' := mkInvCache (dict_del cache_key (product_cache c)) (product_details_cache c)
               (product_list_cache c) (current_product_list c) in
   fetch_inventory_query api query session_data
     = inventory_fetch api query cache_key (close_cache s1 c') c' /\
   snd (fetch_inventory_query api query session_data) = [query]).
Proof.
  intros Hopen Hget Hprod.
  unfold fetch_inventory_query. rewrite Hopen. cbv zeta. rewrite Hget, Hprod.
  split; intros Ht; rewrite Ht; [reflexivity|].
  split; [reflexivity | apply inventory_fetch_calls].
Qed.

Lemma inventory_cache_hit_or_evict_witness :
  let entry := VDict [("results", VDict [("products", VList [VDict [("_id", VStr "p1")]])])] in
  let pc := [("acid", entry)] in
  let s := [("cache", VDict [("product_cache", VDict pc); ("product_details_cache", VDict []);
                             ("product_list_cache", VDict []);
                             ("current_product_list", VList [])])] in
  open_cache s = Ok (s, mkInvCache pc [] [] []) /\
  dict_get (py_strip (py_lower " Acid ")) pc = Some entry /\
  cached_products entry = Ok (VList [VDict [("_id", VStr "p1")]]) /\
  truthy (VList [VDict [("_id", VStr "p1")]]) = true /\
  fetch_inventory_query (fun _ => None) " Acid " s = (Ok entry, s, []).
Proof.
  intros entry pc s.
  split; [reflexivity|]. split; [reflexivity|]. split; [reflexivity|].
  split; [reflexivity|].
  exact (proj1 (inventory_cache_hit_or_evict (fun _ => None) " Acid " s s
                  (mkInvCache pc [] [] []) entry (VList [VDict [("_id", VStr "p1")]])
                  eq_refl eq_refl eq_refl) eq_refl).
Defined.

(** ** C2: after an order is placed *)

(** The keys the agent-3 tools write into [session_updates]. *)
Lemma address_tools_keys (py_str : PyVal -> string) (http : OrderRequest -> option HttpResponse)
    (user_input : string) (session_data : dict) (industries addresses : list PyVal)
    (calls : list ToolCall) :
  forall session_updates sent u sent',
  address_tools py_str http user_input session_data industries addresses calls
    session_updates sent = (Ok u, sent') ->
  forall k, In k (map fst u) ->
  In k (map fst session_updates) \/ In k ["industry_id"; "industry_name"; "address"].
Proof.
  induction calls as [|tc rest IH]; intros upd sent u sent' H k Hk.
  - simpl in H. injection H as <- <-. left; exact Hk.
  - cbn [address_tools] in H. cbv zeta in H.
    repeat match type of H with
           | context [match ?x with _ => _ end] =>
               lazymatch x with address_tools _ _ _ _ _ _ _ _ _ => fail | _ => destruct x end
           | context [if ?b then _ else _] => destruct b
           end;
    try discriminate H;
    destruct (IH _ _ _ _ H k Hk) as [Hin|Hin]; auto;
    repeat match type of Hin with
           | In _ (map fst (dict_set _ _ _)) =>
               apply dict_set_keys in Hin; destruct Hin as [->|Hin]; [right; simpl; tauto|]
           end; auto.
Qed.

Lemma append_history_agent (entry : PyVal) (s s' : dict) :
  append_history entry s = Ok s' -> dict_get "agent" s' = dict_get "agent" s.
Proof.
  unfold append_history. intros H.
  destruct (dict_get "history" s) as [[| | | | |l|]|]; try discriminate;
    injection H as <-; apply dict_get_set_other; discriminate.
Qed.

Lemma fetch_and_cache_data_agent (addresses_api industries_api : option PyVal) (s : dict) :
  dict_get "agent" (snd (fetch_and_cache_data addresses_api industries_api s))
  = dict_get "agent" s.
Proof.
  unfold fetch_and_cache_data, cache_list.
  destruct addresses_api as [a|]; destruct industries_api as [i|];
  repeat match goal with
         | |- context [match ?x with _ => _ end] => destruct x
         end; simpl;
  repeat rewrite dict_get_set_other by discriminate; reflexivity.
Qed.

Lemma apply_session_updates_agent (u s : dict) :
  (forall k, In k (map fst u) -> k <> "agent") ->
  dict_get "agent" (apply_session_updates u s) = dict_get "agent" s.
Proof.
  unfold apply_session_updates. revert s.
  induction u as [|[k v] u IH]; intros s H; [reflexivity|]. simpl.
  rewrite IH by (intros k' Hk'; apply H; right; exact Hk').
  destruct v; try (apply dict_get_set_other; intros E; apply (H k); [left; reflexivity | congruence]);
  reflexivity.
Qed.

Lemma process_address_purpose_keys (py_str : PyVal -> string)
    (http : OrderRequest -> option HttpResponse) (user_input : string) (s : dict)
    (llm : LLMTurn) (response : string) (u : dict) (sent : list OrderRequest) :
  process_address_purpose py_str http user_input s llm = (Ok (response, u), sent) ->
  forall k, In k (map fst u) -> In k ["industry_id"; "industry_name"; "address"].
Proof.
  unfold process_address_purpose. intros H k Hk.
  destruct (prompt_data s) as [[industries addresses]|e]; [|discriminate].
  destruct (llm_tool_calls llm) as [|tc rest] eqn:Ecalls.
  - injection H as _ <- _. destruct Hk.
  - destruct (address_tools py_str http user_input s industries addresses (tc :: rest) [] [])
      as [[u'|e] sent''] eqn:E; [|discriminate].
    injection H as _ <- _.
    destruct (address_tools_keys _ _ _ _ _ _ _ _ _ _ _ E k Hk) as [[]|Hin]. exact Hin.
Qed.

Lemma handle_address_purpose_keeps_agent (py_str : PyVal -> string)
    (addresses_api industries_api : option PyVal) (http : OrderRequest -> option HttpResponse)
    (user_input : string) (s : dict) (llm : LLMTurn) :
  dict_get "agent" (snd (fst (handle_address_purpose py_str addresses_api industries_api http
                                 user_input s llm)))
  = dict_get "agent" s.
Proof.
  unfold handle_address_purpose.
  destruct (negb (agent_is "address_purpose" s)); [reflexivity|].
  assert (dict_get "agent" (snd (if truthy (dict_get_or "_cached_data_fetched" VNone s)
                                 then (Ok tt, s)
                                 else fetch_and_cache_data addresses_api industries_api s))
          = dict_get "agent" s) as Hf.
  { destruct (truthy _); [reflexivity | apply fetch_and_cache_data_agent]. }
  destruct (if truthy (dict_get_or "_cached_data_fetched" VNone s) then (Ok tt, s)
            else fetch_and_cache_data addresses_api industries_api s) as [fetched s1].
  simpl in Hf.
  assert (forall (st : dict) (sent : list OrderRequest), dict_get "agent" st = dict_get "agent" s ->
            dict_get "agent" (snd (fst
              (match append_history (history_entry user_input address_error_message) st with
               | Ok st' => (@Ok string address_error_message, st', sent)
               | Raise e => (@Raise string e, st, sent)
               end))) = dict_get "agent" s) as Hexc.
  { intros st sent Hst.
    destruct (append_history _ st) as [st'|e] eqn:E; simpl; [|exact Hst].
    rewrite (append_history_agent _ _ _ E). exact Hst. }
  destruct fetched as [[]|e]; [|apply Hexc; exact Hf].
  destruct (negb _ && negb _).
  - destruct (append_history _ s1) as [s2|e] eqn:E; [|apply Hexc; exact Hf].
    simpl. rewrite (append_history_agent _ _ _ E). exact Hf.
  - destruct (process_address_purpose py_str http user_input s1 llm)
      as [[[response u]|e] sent] eqn:Ep; [|apply Hexc; exact Hf].
    assert (dict_get "agent" (apply_session_updates u s1) = dict_get "agent" s) as Hu.
    { rewrite apply_session_updates_agent; [exact Hf|].
      intros k Hk E. subst k.
      pose proof (process_address_purpose_keys _ _ _ _ _ _ _ _ Ep "agent" Hk) as Hin.
      simpl in Hin. intuition discriminate. }
    destruct (append_history _ (apply_session_updates u s1)) as [s3|e] eqn:E;
      [|apply Hexc; exact Hu].
    simpl. rewrite (append_history_agent _ _ _ E). exact Hu.
Qed.

(** C2 (as the code has it): placing an order leaves no mark on the
    session.  The address handler never changes the session's [agent]
    field, and no agent-3 tool, [place_order_request] included, writes
    a session update other than [industry_id], [industry_name] and
    [address]; so later [select_industry] and [select_address] calls are
    applied as before. *)
Theorem order_placement_not_terminal (py_str : PyVal -> string)
    (http : OrderRequest -> option HttpResponse) :
  (forall addresses_api industries_api user_input session_data llm,
     dict_get "agent" (snd (fst (handle_address_purpose py_str addresses_api industries_api
                                   http user_input session_data llm)))
     = dict_get "agent" session_data) /\
  (forall user_input session_data industries addresses calls session_updates sent u sent',
     address_tools py_str http user_input session_data industries addresses calls
       session_updates sent = (Ok u, sent') ->
     forall k, In k (map fst u) ->
     In k (map fst session_updates) \/ In k ["industry_id"; "industry_name"; "address"]).
Proof.
  split.
  - intros. apply handle_address_purpose_keeps_agent.
  - intros. eapply address_tools_keys; eassumption.
Qed.

(** C2: a turn whose [place_order_request] call succeeds (status 201,
    [error: false]) is followed by a turn whose [select_industry] call
    replaces the industry: the session accepts the change and no
    refusal is produced. *)
Lemma industry_changed_after_order :
  let ind1 := VDict [("_id", VStr "i1"); ("name_en", VStr "Paint")] in
  let ind2 := VDict [("_id", VStr "i2"); ("name_en", VStr "Ink")] in
  let addr1 := VDict [("_id", VStr "a1"); ("addressLine", VStr "Road 1")] in
  let s0 := [("agent", VStr "address_purpose"); ("_cached_data_fetched", VBool true);
             ("_cached_industries", VList [ind1; ind2]); ("_cached_addresses", VList [addr1]);
             ("industry_id", VStr "i1"); ("industry_name", VStr "Paint"); ("address", addr1);
             ("userAuth", VStr "tok"); ("request", VStr "order"); ("product_id", VStr "p1");
             ("product_details", VDict [("quantity", VInt 10); ("unit", VStr "KG")]);
             ("history", VList [])] in
  let http := fun _ : OrderRequest =>
    Some (mkHttpResponse 201 (Some (VDict [("error", VBool false); ("message", VStr "ok")]))) in
  let turn1 := mkLLMTurn "" [mkToolCall "place_order_request"
                               (Some (VDict [("user_confirmed", VBool true)]))] "Order placed" in
  let turn2 := mkLLMTurn "" [mkToolCall "select_industry"
                               (Some (VDict [("industry_id", VStr "i2");
                                             ("industry_name", VStr "Ink")]))] "Industry updated" in
  fst (place_order_request str_of_scalar http s0) = Ok (mkOrderResult "success" (VStr "ok")) /\
  match handle_address_purpose str_of_scalar None None http "yes, place it" s0 turn1 with
  | (r1, s1, sent1) =>
      r1 = Ok "Order placed" /\ List.length sent1 = 1%nat /\
      dict_get "industry_id" s1 = Some (VStr "i1") /\
      match handle_address_purpose str_of_scalar None None http "use Ink" s1 turn2 with
      | (r2, s2, _) =>
          r2 = Ok "Industry updated" /\
          dict_get "industry_id" s2 = Some (VStr "i2") /\
          dict_get "industry_name" s2 = Some (VStr "Ink")
      end
  end.
Proof.
  vm_compute. repeat split.
Qed.

(** ** C3: order placement *)

Lemma build_order_request_shape (py_str : PyVal -> string) (s : dict) (req : OrderRequest) :
  build_order_request py_str s = Ok (inr req) ->
  req_url req = PLACE_ORDER_URL /\
  exists r, dict_get_or "request" (VStr "") s = VStr r /\
            In ("type", FText (VStr (py_capitalize r))) (req_form req).
Proof.
  unfold build_order_request. intros H.
  destruct (negb (truthy (dict_get_or "userAuth" VNone s))); [discriminate|].
  repeat match type of H with
         | bind ?m _ = _ => let E := fresh "E" in
                            destruct m eqn:E; cbn [bind] in H; [|discriminate H]
         end.
  injection H as <-. split; [reflexivity|].
  match goal with
  | E : match dict_get_or "request" (VStr "") s with _ => _ end = Ok ?r |- _ =>
      destruct (dict_get_or "request" (VStr "") s) eqn:Er; try discriminate E;
      injection E as E; subst r; eexists; split; [reflexivity|]
  end.
  simpl. do 5 right. left. reflexivity.
Qed.

Lemma order_success_iff (py_str : PyVal -> string) (resp : HttpResponse) :
  (exists m, handle_order_response py_str resp = Ok (mkOrderResult "success" m)) <->
  order_ok resp.
Proof.
  unfold order_ok, handle_order_response. destruct resp as [st body]. cbn [http_status http_body].
  destruct (Z.eqb_spec st 200) as [->|H200]; [|destruct (Z.eqb_spec st 201) as [->|H201]].
  3: destruct (Z.eqb_spec st 206) as [->|H206].
  all: cbn [orb].
  all: try (destruct body as [[| | | | | |d]|]).
  all: cbn [get_from bind].
  all: try (destruct (py_eq (dict_get_or "error" VNone d) (VBool false)) eqn:Eerr).
  all: try (destruct (order_id_of d) as [v|e] eqn:Eo).
  all: cbn [bind].
  all: split; [intros [m Hm]; try discriminate Hm
              | intros [[Hst [d' [Hd [He [v' Hv]]]]]|[Hst Hall]]].
  all: try (exfalso; first [ lia | discriminate Hd
                           | injection Hd as <-; congruence
                           | specialize (Hall _ eq_refl); congruence ]).
  all: try (eexists; reflexivity).
  all: try (injection Hm as <-; clear Hm).
  all: first [ left; split; [lia | eexists; repeat split; eauto]
             | right; split; [reflexivity | intros ? Hd; injection Hd as <-; assumption]
             | right; split; [reflexivity | intros ? Hd; discriminate Hd] ].
Qed.

Lemma build_order_request_early (py_str : PyVal -> string) (s : dict) (e : OrderResult) :
  build_order_request py_str s = Ok (inl e) -> order_status e = "error".
Proof.
  unfold build_order_request. intros H.
  destruct (negb (truthy (dict_get_or "userAuth" VNone s))).
  - injection H as <-. reflexivity.
  - repeat match type of H with
           | bind ?m _ = _ => let E := fresh "E" in
                              destruct m eqn:E; cbn [bind] in H; [|discriminate H]
           end.
    discriminate H.
Qed.

(** C3: the order placement of every request type, PPR included, builds
    at most one request, sent to [PLACE_ORDER_URL] as a multipart form
    whose [type] is [request.capitalize()]; the result is a success
    exactly when the server answered and [order_ok] holds of its answer
    (no check of the address, product, quantity, unit or delivery date
    is made before sending). *)
Theorem place_order_request_path (py_str : PyVal -> string)
    (http : OrderRequest -> option HttpResponse) (s : dict) :
  (List.length (snd (place_order_request py_str http s)) <= 1)%nat /\
  (forall q, In q (snd (place_order_request py_str http s)) ->
     req_url q = PLACE_ORDER_URL /\
     exists r, dict_get_or "request" (VStr "") s = VStr r /\
               In ("type", FText (VStr (py_capitalize r))) (req_form q)) /\
  ((exists m, fst (place_order_request py_str http s) = Ok (mkOrderResult "success" m)) <->
   exists req resp, build_order_request py_str s = Ok (inr req) /\
                    http req = Some resp /\ order_ok resp).
Proof.
  unfold place_order_request.
  destruct (build_order_request py_str s) as [[early|req]|e] eqn:Eb.
  - cbn [fst snd]. split; [cbn; lia|]. split; [intros q []|].
    split.
    + intros [m Hm]. injection Hm as Hm.
      apply build_order_request_early in Eb. rewrite Hm in Eb. discriminate Eb.
    + intros (req & resp & Hr & _). discriminate Hr.
  - destruct (build_order_request_shape py_str s req Eb) as [Hurl Htype].
    assert (Hq : forall q, In q [req] -> req_url q = PLACE_ORDER_URL /\
              exists r, dict_get_or "request" (VStr "") s = VStr r /\
                        In ("type", FText (VStr (py_capitalize r))) (req_form q)).
    { intros q [<-|[]]. split; assumption. }
    destruct (http req) as [resp|] eqn:Eh.
    + destruct (handle_order_response py_str resp) as [r|e] eqn:Er; cbn [fst snd];
        (split; [cbn; lia|]); (split; [exact Hq|]).
      * split.
        -- intros [m Hm]. exists req, resp. repeat split; auto.
           apply (order_success_iff py_str). exists m. rewrite Er. exact Hm.
        -- intros (req' & resp' & Hr & Hh & Hok). injection Hr as <-.
           rewrite Eh in Hh. injection Hh as <-.
           apply (order_success_iff py_str) in Hok. destruct Hok as [m Hm].
           exists m. rewrite Er in Hm. exact Hm.
      * split.
        -- intros [m Hm]. discriminate Hm.
        -- intros (req' & resp' & Hr & Hh & Hok). injection Hr as <-.
           rewrite Eh in Hh. injection Hh as <-.
           apply (order_success_iff py_str) in Hok. destruct Hok as [m Hm].
           rewrite Er in Hm. discriminate Hm.
    + cbn [fst snd]. split; [cbn; lia|]. split; [exact Hq|]. split.
      * intros [m Hm]. discriminate Hm.
      * intros (req' & resp' & Hr & Hh & _). injection Hr as <-. congruence.
  - cbn [fst snd]. split; [cbn; lia|]. split; [intros q []|]. split.
    + intros [m Hm]. discriminate Hm.
    + intros (req & resp & Hr & _). discriminate Hr.
Qed.

(** C3 counterexample: a PPR session with no delivery date is sent to
    the ordinary order endpoint with type [Ppr], and a 206 answer with no
    JSON body is reported as a success, with no [error: false] flag. *)
Lemma ppr_order_goes_to_place_order :
  let s := [("userAuth", VStr "tok"); ("request", VStr "ppr"); ("product_id", VStr "p1");
            ("address", VDict [("_id", VStr "a1"); ("addressLine", VStr "Road 1")]);
            ("product_details", VDict [("quantity", VInt 5); ("unit", VStr "KG")])] in
  match build_order_request str_of_scalar s with
  | Ok (inr req) => req_url req = PLACE_ORDER_URL /\
                    In ("type", FText (VStr "Ppr")) (req_form req) /\
                    ~ (exists v, In ("expectedPurchaseDate", v) (req_form req))
  | _ => False
  end /\
  fst (place_order_request str_of_scalar (fun _ => Some (mkHttpResponse 206 None)) s)
    = Ok (mkOrderResult "success" (VStr "Order processed successfully (206)")).
Proof.
  vm_compute. split; [split; [reflexivity|split]|reflexivity].
  - repeat (try (left; reflexivity); right).
  - intros [v Hv]. repeat destruct Hv as [Hv|Hv]; try discriminate Hv; exact Hv.
Qed.

(** ** Further properties of the code *)

(** *** Dict lemmas *)
Lemma dict_get_set_same (k : string) (v : PyVal) (d : dict) :
  dict_get k (dict_set k v d) = Some v.
Proof.
  induction d as [|[k0 v0] d IH]; simpl.
  - rewrite String.eqb_refl. reflexivity.
  - destruct (String.eqb_spec k k0) as [->|Hne]; simpl.
    + rewrite String.eqb_refl. reflexivity.
    + apply String.eqb_neq in Hne. rewrite Hne. exact IH.
Qed.


Lemma dict_get_or_set_other (k k' : string) (dflt v : PyVal) (d : dict) :
  k <> k' -> dict_get_or k dflt (dict_set k' v d) = dict_get_or k dflt d.
Proof. intros H. unfold dict_get_or. rewrite dict_get_set_other; auto. Qed.


Lemma expand_required_fields_lower (data : dict) (r : string) :
  dict_get_or "request" (VStr "") data = VStr r ->
  expand_required_fields data = Ok (get_required_fields r).
Proof.
  intros H. unfold expand_required_fields, get_required_fields. rewrite H.
  unfold lookup_fields, field_requirements.
  destruct (String.eqb (py_lower r) "order"); [reflexivity|].
  destruct (String.eqb (py_lower r) "sample"); [reflexivity|].
  destruct (String.eqb (py_lower r) "quote"); [reflexivity|].
  destruct (String.eqb (py_lower r) "ppr"); reflexivity.
Qed.







(** [expand_session_for_request] leaves the session unchanged and raises
    [KeyError] when [product_details] is absent, [TypeError] when it is not
    a dict, and [AttributeError] when [request] is not a string. *)
Theorem expand_session_for_request_errors (data : dict) :
  (forall r, dict_get_or "request" (VStr "") data = VStr r ->
     dict_get "product_details" data = None ->
     expand_session_for_request data = (Raise KeyError, data)) /\
  (forall r v, dict_get_or "request" (VStr "") data = VStr r ->
     dict_get "product_details" data = Some v -> (forall d, v <> VDict d) ->
     expand_session_for_request data = (Raise TypeError, data)) /\
  ((forall r, dict_get_or "request" (VStr "") data <> VStr r) ->
     expand_session_for_request data = (Raise AttributeError, data)).
Proof.
  unfold expand_session_for_request. split; [|split].
  - intros r Hr Hpd. rewrite (expand_required_fields_lower data r Hr).
    unfold get_required_fields.
    destruct (String.eqb (py_lower r) "order"); [cbn [expand_fields]; unfold expand_field; rewrite Hpd; reflexivity|].
    destruct (String.eqb (py_lower r) "sample"); [cbn [expand_fields]; unfold expand_field; rewrite Hpd; reflexivity|].
    destruct (String.eqb (py_lower r) "quote"); [cbn [expand_fields]; unfold expand_field; rewrite Hpd; reflexivity|].
    destruct (String.eqb (py_lower r) "ppr"); cbn [expand_fields]; unfold expand_field; rewrite Hpd; reflexivity.
  - intros r v Hr Hpd Hv. rewrite (expand_required_fields_lower data r Hr).
    assert (Hf : forall f, expand_field data f = (Raise TypeError, data)).
    { intros f. unfold expand_field. rewrite Hpd.
      destruct v as [| | | | | |d]; try reflexivity. exfalso; exact (Hv d eq_refl). }
    unfold get_required_fields.
    destruct (String.eqb (py_lower r) "order"); [cbn [expand_fields]; rewrite Hf; reflexivity|].
    destruct (String.eqb (py_lower r) "sample"); [cbn [expand_fields]; rewrite Hf; reflexivity|].
    destruct (String.eqb (py_lower r) "quote"); [cbn [expand_fields]; rewrite Hf; reflexivity|].
    destruct (String.eqb (py_lower r) "ppr"); cbn [expand_fields]; rewrite Hf; reflexivity.
  - intros Hr. unfold expand_required_fields.
    destruct (dict_get_or "request" (VStr "") data) eqn:E; try reflexivity.
    exfalso. exact (Hr s eq_refl).
Qed.

Lemma is_py_space_upper (c : ascii) : is_py_space (ascii_upper c) = is_py_space c.
Proof. destruct c as [[] [] [] [] [] [] [] []]; reflexivity. Qed.

Lemma lstrip_upper (s : string) : lstrip (py_upper s) = py_upper (lstrip s).
Proof.
  induction s as [|c s IH]; [reflexivity|].
  cbn [py_upper str_map lstrip]. unfold py_upper in IH.
  rewrite is_py_space_upper. destruct (is_py_space c); [exact IH | reflexivity].
Qed.

Lemma list_ascii_of_str_map (f : ascii -> ascii) (s : string) :
  list_ascii_of_string (str_map f s) = map f (list_ascii_of_string s).
Proof. induction s as [|c s IH]; simpl; [reflexivity | rewrite IH; reflexivity]. Qed.

Lemma str_map_of_list_ascii (f : ascii -> ascii) (l : list ascii) :
  string_of_list_ascii (map f l) = str_map f (string_of_list_ascii l).
Proof. induction l as [|c l IH]; simpl; [reflexivity | rewrite IH; reflexivity]. Qed.

Lemma rev_string_upper (s : string) : rev_string (py_upper s) = py_upper (rev_string s).
Proof.
  unfold rev_string, py_upper. rewrite list_ascii_of_str_map, <- map_rev.
  apply str_map_of_list_ascii.
Qed.

Lemma py_strip_upper (s : string) : py_strip (py_upper s) = py_upper (py_strip s).
Proof.
  unfold py_strip. rewrite lstrip_upper, rev_string_upper, lstrip_upper, rev_string_upper.
  reflexivity.
Qed.

(** [validate_unit_field] accepts a string only if [validate_unit] accepts
    it too (with the upper-cased unit); the two agree on strings without
    surrounding whitespace, but [validate_unit_field] rejects [" kg"],
    which [validate_unit] strips and accepts. *)
Theorem validate_unit_field_vs_validate_unit (s : string) :
  (validate_unit_field (VStr s) = Ok true ->
   validate_unit (VStr s) = Ok (mkValidation true (Some (VStr (py_upper s))))) /\
  (py_strip s = s ->
   exists v, validate_unit (VStr s) = Ok v /\ validate_unit_field (VStr s) = Ok (is_valid v)) /\
  (validate_unit_field (VStr " kg") = Ok false /\
   validate_unit (VStr " kg") = Ok (mkValidation true (Some (VStr "KG")))).
Proof.
  split; [|split; [|split; reflexivity]].
  - unfold validate_unit_field, validate_unit. cbn [truthy negb].
    destruct (String.eqb s ""); cbn [negb]; [intros H; discriminate H|].
    intros H. injection H as H. pose proof H as H0. rewrite <- py_strip_upper.
    assert (Hs : py_strip (py_upper s) = py_upper s).
    { unfold ALLOWED_UNITS in H. cbn [existsb] in H.
      repeat (apply orb_prop in H; destruct H as [H|H]);
        try (apply String.eqb_eq in H; rewrite H; reflexivity).
      discriminate H. }
    rewrite Hs. unfold ALLOWED_UNITS in *. cbn [existsb] in *. rewrite H0. reflexivity.
  - intros Hs. unfold validate_unit_field, validate_unit. rewrite Hs.
    destruct (existsb (String.eqb (py_upper s)) ALLOWED_UNITS) eqn:E.
    + eexists; split; [reflexivity|]. cbn [truthy].
      destruct (String.eqb_spec s "") as [->|_]; [cbv in E; discriminate E | reflexivity].
    + eexists; split; [reflexivity|]. cbn [truthy].
      destruct (String.eqb s ""); reflexivity.
Qed.

Lemma assoc_str_in (k v : string) (l : list (string * string)) :
  assoc_str k l = Some v -> In (k, v) l.
Proof.
  induction l as [|[k' v'] l IH]; simpl; [discriminate|].
  destruct (String.eqb_spec k k') as [->|_].
  - intros H. injection H as ->. left; reflexivity.
  - intros H. right. exact (IH H).
Qed.

Lemma normalize_language_cases (language_input : string) :
  normalize_language language_input = "en" \/
  normalize_language language_input = "ar" \/
  normalize_language language_input = "bn".
Proof.
  unfold normalize_language.
  destruct (String.eqb language_input ""); [left; reflexivity|].
  destruct (assoc_str (py_lower (py_strip language_input)) language_map) as [c|] eqn:E;
    [|left; reflexivity].
  apply assoc_str_in in E. unfold language_map in E.
  repeat (destruct E as [E|E]; [injection E as _ <-; cbv; auto|]). destruct E.
Qed.

(** [normalize_language] always returns a supported language code
    ([en], [ar] or [bn]), and normalizing twice is normalizing once. *)
Theorem normalize_language_supported (language_input : string) :
  In (normalize_language language_input) supported_languages /\
  is_supported_language (normalize_language language_input) = true /\
  normalize_language (normalize_language language_input) = normalize_language language_input.
Proof.
  destruct (normalize_language_cases language_input) as [H|[H|H]];
    rewrite H; split; cbv; auto.
Qed.

Lemma in_get_completed_fields (pd : dict) (req : list string) (f : string) :
  In f (get_completed_fields pd req) <->
  In f req /\ completed_value (dict_get_or f VNone pd) = true.
Proof. unfold get_completed_fields. apply filter_In. Qed.

(** The pending fields listed in the prompt of [process_request_details]
    are the required fields whose value is [None], [""], [0] or ["0"] up to
    Python equality (so also [False] and [0.0]); every field that the
    fallback branch counts as missing ([None] or [""]) is among them. *)
Theorem prompt_pending_fields_spec (pd : dict) (req : list string) :
  (forall f, In f (prompt_pending_fields pd req) <->
             In f req /\ completed_value (dict_get_or f VNone pd) = false) /\
  (forall f, In f req -> is_none_or_empty (dict_get_or f VNone pd) = true ->
             In f (prompt_pending_fields pd req)) /\
  completed_value (VBool false) = false /\
  completed_value (VFloat (S754_zero false)) = false /\
  completed_value (VStr "0.0") = true.
Proof.
  assert (Hspec : forall f, In f (prompt_pending_fields pd req) <->
             In f req /\ completed_value (dict_get_or f VNone pd) = false).
  { intros f. unfold prompt_pending_fields. rewrite filter_In.
    split.
    - intros [Hin Hn]. split; [exact Hin|].
      destruct (completed_value (dict_get_or f VNone pd)) eqn:Ec; [|reflexivity].
      exfalso.
      assert (Hc : In f (get_completed_fields pd req)) by (apply in_get_completed_fields; auto).
      assert (Hx : existsb (String.eqb f) (get_completed_fields pd req) = true).
      { apply existsb_exists. exists f. split; [exact Hc | apply String.eqb_refl]. }
      rewrite Hx in Hn. discriminate Hn.
    - intros [Hin Hc]. split; [exact Hin|]. apply negb_true_iff.
      apply not_true_iff_false. intros Hex. apply existsb_exists in Hex.
      destruct Hex as [g [Hg Heq]]. apply String.eqb_eq in Heq. subst g.
      apply in_get_completed_fields in Hg. destruct Hg as [_ Hg]. congruence. }
  split; [exact Hspec|]. split; [|repeat split; reflexivity].
  intros f Hin He. apply Hspec. split; [exact Hin|].
  destruct (dict_get_or f VNone pd) as [| | | |s| |]; try discriminate He.
  - reflexivity.
  - apply String.eqb_eq in He. subst s. reflexivity.
Qed.




Lemma filter_industries_dicts (ds : list dict) :
  filter_industries (map VDict ds) = Ok (map industry_projection (filter industry_active ds)).
Proof.
  induction ds as [|d ds IH]; [reflexivity|].
  cbn [map filter_industries]. rewrite IH. cbn [bind filter].
  destruct (industry_active d); reflexivity.
Qed.

Lemma filter_industries_ok (raw l : list PyVal) :
  filter_industries raw = Ok l ->
  Forall (fun v => exists d, v = industry_projection d /\ industry_active d = true) l.
Proof.
  revert l. induction raw as [|x raw IH]; intros l H.
  - injection H as <-. constructor.
  - destruct x as [| | | | | |d]; try discriminate H.
    cbn [filter_industries] in H.
    destruct (filter_industries raw) as [r|e] eqn:E; [|discriminate H].
    cbn [bind] in H. injection H as <-.
    destruct (industry_active d) eqn:Ea.
    + constructor; [exists d; split; [reflexivity | exact Ea] | exact (IH r eq_refl)].
    + exact (IH r eq_refl).
Qed.

Lemma filter_industries_bad (ds : list dict) (v : PyVal) (rest : list PyVal) :
  (forall d, v <> VDict d) ->
  filter_industries (map VDict ds ++ v :: rest) = Raise AttributeError.
Proof.
  intros Hv. induction ds as [|d ds IH].
  - cbn [map app filter_industries].
    destruct v as [| | | | | |d]; try reflexivity. exfalso; exact (Hv d eq_refl).
  - cbn [map app filter_industries]. rewrite IH. reflexivity.
Qed.

Lemma all_dicts_iff (l : list PyVal) :
  all_dicts l = Ok tt <-> exists ds, l = map VDict ds.
Proof.
  induction l as [|x l IH].
  - split; [intros _; exists []; reflexivity | reflexivity].
  - split.
    + destruct x as [| | | | | |d]; cbn [all_dicts]; try discriminate.
      intros H. destruct (proj1 IH H) as [ds ->]. exists (d :: ds). reflexivity.
    + intros [[|d ds] Hds]; [discriminate Hds|].
      injection Hds as -> ->. cbn [all_dicts]. apply IH. exists ds. reflexivity.
Qed.

Lemma all_dicts_raise (l : list PyVal) :
  all_dicts l <> Ok tt -> all_dicts l = Raise AttributeError.
Proof.
  induction l as [|x l IH]; cbn [all_dicts]; [intros H; exfalso; exact (H eq_refl)|].
  destruct x; auto.
Qed.

Lemma fetch_industries_shape (resp : option HttpResponse) :
  fetch_industries resp = fetch_error \/
  exists l, fetch_industries resp = mkFetchResult "success" (VList l) (List.length l) /\
    Forall (fun v => exists d, v = industry_projection d /\ industry_active d = true) l.
Proof.
  unfold fetch_industries.
  destruct resp as [r|]; [|left; reflexivity].
  destruct (status_200_201 r); [|left; reflexivity].
  destruct (http_body r) as [result|]; [|left; reflexivity].
  destruct (industries_payload result) as [l|e] eqn:E; [|left; reflexivity].
  right. exists l. split; [reflexivity|].
  unfold industries_payload in E. destruct result as [| | | | | |d]; try discriminate E.
  destruct (py_eq (dict_get_or "error" VNone d) (VBool false));
    [|injection E as <-; constructor].
  destruct (get_from (dict_get_or "results" (VDict []) d) "inventories" VNone) as [inv|e];
    cbn [bind] in E; [|discriminate E].
  destruct (truthy inv); [|injection E as <-; constructor].
  destruct (py_len inv) as [n|e]; cbn [bind] in E; [|discriminate E].
  destruct (py_iter inv) as [raw|e]; cbn [bind] in E; [|discriminate E].
  exact (filter_industries_ok raw l E).
Qed.

(** ** Properties of the API helpers *)

(** [fetch_industries] either fails with an empty list and count 0, or
    succeeds with a list of [{_id, name_en}] records of industries whose
    [status == True] and [isDeleted == False], counted by [count]. On a
    well-formed answer it keeps exactly the active industries, in order;
    a single entry that is not a dict makes the whole call fail. *)
Theorem fetch_industries_result (resp : option HttpResponse) :
  (fetch_industries resp = fetch_error \/
   exists l, fetch_industries resp = mkFetchResult "success" (VList l) (List.length l) /\
     Forall (fun v => exists d, v = industry_projection d /\ industry_active d = true) l) /\
  (forall r d rs ds,
     resp = Some r -> status_200_201 r = true -> http_body r = Some (VDict d) ->
     py_eq (dict_get_or "error" VNone d) (VBool false) = true ->
     dict_get_or "results" (VDict []) d = VDict rs ->
     dict_get_or "inventories" VNone rs = VList (map VDict ds) -> ds <> [] ->
     fetch_industries resp =
       mkFetchResult "success" (VList (map industry_projection (filter industry_active ds)))
         (List.length (filter industry_active ds))) /\
  (forall r d rs ds v rest,
     resp = Some r -> http_body r = Some (VDict d) ->
     py_eq (dict_get_or "error" VNone d) (VBool false) = true ->
     dict_get_or "results" (VDict []) d = VDict rs ->
     dict_get_or "inventories" VNone rs = VList (map VDict ds ++ v :: rest) ->
     (forall d', v <> VDict d') ->
     fetch_industries resp = fetch_error).
Proof.
  split; [|split].
  - exact (fetch_industries_shape resp).
  - intros r d rs ds -> Hs Hb He Hr Hi Hne. unfold fetch_industries.
    rewrite Hs, Hb. unfold industries_payload. rewrite He, Hr. cbn [get_from bind].
    rewrite Hi. destruct ds as [|d0 ds0]; [exfalso; exact (Hne eq_refl)|].
    cbn [truthy map py_len py_iter bind].
    rewrite <- (map_cons VDict d0 ds0), filter_industries_dicts. cbn [bind].
    rewrite length_map. reflexivity.
  - intros r d rs ds v rest -> Hb He Hr Hi Hv. unfold fetch_industries.
    destruct (status_200_201 r); [|reflexivity]. rewrite Hb.
    unfold industries_payload. rewrite He, Hr. cbn [get_from bind]. rewrite Hi.
    assert (Ht : truthy (VList (map VDict ds ++ v :: rest)) = true)
      by (destruct ds; reflexivity).
    rewrite Ht. cbn [py_len py_iter bind].
    rewrite (filter_industries_bad ds v rest Hv). reflexivity.
Qed.

Lemma fetch_user_addresses_shape (api : PyVal -> option HttpResponse) (s : dict) :
  fetch_user_addresses api s = fetch_error \/
  exists a n, fetch_user_addresses api s = mkFetchResult "success" a n /\
    py_len a = Ok n /\ (truthy a = true \/ a = VList []).
Proof.
  unfold fetch_user_addresses.
  destruct (negb (truthy (dict_get_or "userAuth" VNone s))); [left; reflexivity|].
  destruct (api (dict_get_or "userAuth" VNone s)) as [r|]; [|left; reflexivity].
  destruct (status_200_201 r); [|left; reflexivity].
  destruct (http_body r) as [result|]; [|left; reflexivity].
  destruct (addresses_payload result) as [a|e] eqn:E; cbn [bind]; [|left; reflexivity].
  destruct (py_len a) as [n|e] eqn:En; cbn [bind]; [|left; reflexivity].
  right. exists a, n. split; [reflexivity|]. split; [exact En|].
  unfold addresses_payload in E. destruct result as [| | | | | |d]; try discriminate E.
  destruct (py_eq (dict_get_or "error" VNone d) (VBool false)); [|injection E as <-; right; reflexivity].
  destruct (get_from (dict_get_or "results" (VDict []) d) "address" VNone) as [x|e];
    cbn [bind] in E; [|discriminate E].
  injection E as <-. destruct (truthy x) eqn:Ex; [left; exact Ex | right; reflexivity].
Qed.

(** [fetch_user_addresses] without a truthy [userAuth] token fails
    whatever the API would answer; otherwise it either fails with an empty
    list or succeeds with a value whose [len] is [count] and which is
    truthy or [[]]. The value under [address] is not checked to be a
    list: a non-empty string is returned as the addresses, counted by its
    length. *)
Theorem fetch_user_addresses_result (api : PyVal -> option HttpResponse) (s : dict) :
  (truthy (dict_get_or "userAuth" VNone s) = false ->
   forall api', fetch_user_addresses api' s = fetch_error) /\
  (fetch_user_addresses api s = fetch_error \/
   exists a n, fetch_user_addresses api s = mkFetchResult "success" a n /\
     py_len a = Ok n /\ (truthy a = true \/ a = VList [])) /\
  (forall r d rs t,
     truthy (dict_get_or "userAuth" VNone s) = true ->
     api (dict_get_or "userAuth" VNone s) = Some r -> status_200_201 r = true ->
     http_body r = Some (VDict d) ->
     py_eq (dict_get_or "error" VNone d) (VBool false) = true ->
     dict_get_or "results" (VDict []) d = VDict rs ->
     dict_get_or "address" VNone rs = VStr t -> t <> "" ->
     fetch_user_addresses api s = mkFetchResult "success" (VStr t) (String.length t)).
Proof.
  split; [|split; [exact (fetch_user_addresses_shape api s)|]].
  - intros H api'. unfold fetch_user_addresses. rewrite H. reflexivity.
  - intros r d rs t Ht Hapi Hs Hb He Hr Ha Hne. unfold fetch_user_addresses.
    rewrite Ht. cbn [negb]. rewrite Hapi, Hs, Hb. unfold addresses_payload.
    rewrite He, Hr. cbn [get_from bind]. rewrite Ha. cbn [truthy].
    apply String.eqb_neq in Hne. rewrite Hne. reflexivity.
Qed.

Lemma cache_list_items (key : string) (a : PyVal) (n : nat) (s : dict) :
  py_len a = Ok n -> (truthy a = true \/ a = VList []) ->
  (fst (cache_list key (Some a) s) = Ok tt <-> exists ds, a = VList (map VDict ds)) /\
  (fst (cache_list key (Some a) s) <> Ok tt -> fst (cache_list key (Some a) s) = Raise AttributeError).
Proof.
  intros Hn Ht. unfold cache_list. cbn [fst]. rewrite Hn. cbn [bind].
  destruct a as [| | | |t|l|d]; try discriminate Hn; cbn [py_iter bind].
  - destruct t as [|c t]; [destruct Ht as [Ht|Ht]; discriminate Ht|].
    cbn [string_chars all_dicts]. split; [|intros _; reflexivity].
    split; [discriminate | intros [ds Hds]; discriminate Hds].
  - split; [|apply all_dicts_raise].
    rewrite all_dicts_iff. split; intros [ds Hds]; exists ds;
      [rewrite Hds; reflexivity | injection Hds as ->; reflexivity].
  - destruct d as [|[k v] d]; [destruct Ht as [Ht|Ht]; discriminate Ht|].
    cbn [map fst all_dicts]. split; [|intros _; reflexivity].
    split; [discriminate | intros [ds Hds]; discriminate Hds].
Qed.

Lemma projections_all_dicts (l : list PyVal) :
  Forall (fun v => exists d, v = industry_projection d /\ industry_active d = true) l ->
  all_dicts l = Ok tt.
Proof.
  induction 1 as [|x l [d [-> _]] _ IH]; [reflexivity|]. exact IH.
Qed.

(** [fetch_and_cache_data] fed by [fetch_user_addresses] and
    [fetch_industries] raises exactly when the fetched addresses are not a
    list of dicts (the logging loop calls [.get] on each), and then only
    [AttributeError]; the industries never make it raise. When it returns,
    the session is marked as fetched and caches a list of active
    [{_id, name_en}] industries. *)
Theorem fetch_and_cache_outcome (api : PyVal -> option HttpResponse)
    (s : dict) (resp : option HttpResponse) :
  match fetch_and_cache_data (fetched_list (fetch_user_addresses api s))
          (fetched_list (fetch_industries resp)) s with
  | (res, s') =>
      (res = Ok tt <->
       forall a, fetched_list (fetch_user_addresses api s) = Some a ->
                 exists ds, a = VList (map VDict ds)) /\
      (res <> Ok tt -> res = Raise AttributeError) /\
      (res = Ok tt ->
       dict_get "_cached_data_fetched" s' = Some (VBool true) /\
       exists l, dict_get "_cached_industries" s' = Some (VList l) /\
         Forall (fun v => exists d, v = industry_projection d /\ industry_active d = true) l)
  end.
Proof.
  (* the industries part always succeeds *)
  assert (Hind : forall s1,
    exists l, cache_list "_cached_industries" (fetched_list (fetch_industries resp)) s1
              = (Ok tt, dict_set "_cached_industries" (VList l) s1) /\
      Forall (fun v => exists d, v = industry_projection d /\ industry_active d = true) l).
  { intros s1. destruct (fetch_industries_shape resp) as [E|[l [E Hl]]]; rewrite E.
    - exists []. split; [reflexivity | constructor].
    - exists l. split; [|exact Hl].
      assert (Hf : fetched_list (mkFetchResult "success" (VList l) (List.length l)) = Some (VList l))
        by reflexivity.
      rewrite Hf. unfold cache_list. cbn [py_len py_iter bind].
      rewrite (projections_all_dicts l Hl). reflexivity. }
  unfold fetch_and_cache_data.
  destruct (fetch_user_addresses_shape api s) as [E|[a [n [E [Hn Ht]]]]]; rewrite E.
  - cbn [fetched_list fetch_error fetch_status String.eqb Ascii.eqb Bool.eqb cache_list].
    destruct (Hind (dict_set "_cached_addresses" (VList []) s)) as [l [-> Hl]].
    split; [split; [intros _ a Ha; discriminate Ha | intros _; reflexivity]|].
    split; [intros H; exfalso; exact (H eq_refl)|].
    intros _. split; [apply dict_get_set_same|].
    exists l. split; [|exact Hl].
    rewrite dict_get_set_other by discriminate. apply dict_get_set_same.
  - assert (Hf : fetched_list (mkFetchResult "success" a n) = Some a) by reflexivity.
    rewrite Hf.
    destruct (cache_list_items "_cached_addresses" a n s Hn Ht) as [Hiff Hraise].
    destruct (cache_list "_cached_addresses" (Some a) s) as [r s1] eqn:Ec.
    cbn [fst] in Hiff, Hraise.
    destruct r as [[]|e].
    + destruct (Hind s1) as [l [-> Hl]].
      split; [split; [intros _ a' Ha'; injection Ha' as <-; apply Hiff; reflexivity
                     | intros _; reflexivity]|].
      split; [intros H; exfalso; exact (H eq_refl)|].
      intros _. split; [apply dict_get_set_same|].
      exists l. split; [|exact Hl].
      rewrite dict_get_set_other by discriminate. apply dict_get_set_same.
    + split; [split; [intros H; discriminate H
                     | intros H; apply Hiff; exact (H a eq_refl)]|].
      split; [exact Hraise | intros H; discriminate H].
Qed.

Lemma number_industries_dicts (ds : list dict) : forall i,
  exists formatted, number_industries i (map VDict ds) = Ok formatted /\
    List.length formatted = List.length ds /\
    forall k d, nth_error ds k = Some d -> nth_error formatted k = Some (industry_entry (i + k) d).
Proof.
  induction ds as [|d ds IH]; intros i.
  - exists []. split; [reflexivity|]. split; [reflexivity|].
    intros [|k] d H; discriminate H.
  - destruct (IH (S i)) as [f [Hf [Hl Hn]]].
    exists (industry_entry i d :: f). cbn [map number_industries]. rewrite Hf.
    split; [reflexivity|]. split; [cbn; rewrite Hl; reflexivity|].
    intros [|k] d' H; cbn in H |- *.
    + injection H as <-. rewrite Nat.add_0_r. reflexivity.
    + rewrite (Hn k d' H). f_equal. f_equal. lia.
Qed.

Lemma number_addresses_dicts (ds : list dict) : forall i,
  exists formatted, number_addresses i (map VDict ds) = Ok formatted /\
    List.length formatted = List.length ds /\
    forall k d, nth_error ds k = Some d -> nth_error formatted k = Some (address_entry (i + k) d).
Proof.
  induction ds as [|d ds IH]; intros i.
  - exists []. split; [reflexivity|]. split; [reflexivity|].
    intros [|k] d H; discriminate H.
  - destruct (IH (S i)) as [f [Hf [Hl Hn]]].
    exists (address_entry i d :: f). cbn [map number_addresses]. rewrite Hf.
    split; [reflexivity|]. split; [cbn; rewrite Hl; reflexivity|].
    intros [|k] d' H; cbn in H |- *.
    + injection H as <-. rewrite Nat.add_0_r. reflexivity.
    + rewrite (Hn k d' H). f_equal. f_equal. lia.
Qed.

Lemma number_industries_bad (l : list PyVal) (i : nat) :
  (forall ds, l <> map VDict ds) -> number_industries i l = Raise AttributeError.
Proof.
  revert i. induction l as [|x l IH]; intros i H.
  - exfalso. exact (H [] eq_refl).
  - destruct x as [| | | | | |d]; try reflexivity.
    cbn [number_industries]. rewrite IH; [reflexivity|].
    intros ds Hds. apply (H (d :: ds)). rewrite Hds. reflexivity.
Qed.

Lemma number_addresses_bad (l : list PyVal) (i : nat) :
  (forall ds, l <> map VDict ds) -> number_addresses i l = Raise AttributeError.
Proof.
  revert i. induction l as [|x l IH]; intros i H.
  - exfalso. exact (H [] eq_refl).
  - destruct x as [| | | | | |d]; try reflexivity.
    cbn [number_addresses]. rewrite IH; [reflexivity|].
    intros ds Hds. apply (H (d :: ds)). rewrite Hds. reflexivity.
Qed.

Lemma pick_nth (ds : list dict) (k : nat) (d : dict) :
  nth_error ds k = Some d -> pick (map VDict ds) (Z.of_nat k) = VDict d.
Proof.
  intros H. unfold pick.
  assert (Hk : (k < List.length ds)%nat) by (apply nth_error_Some; congruence).
  rewrite length_map.
  match goal with |- context [if ?b then _ else _] =>
    assert (E : b = true)
      by (apply andb_true_iff; split; [apply Z.leb_le | apply Z.ltb_lt]; unfold dict in *; lia);
    rewrite E end.
  rewrite Nat2Z.id. apply nth_error_nth. rewrite nth_error_map. unfold dict in *. rewrite H. reflexivity.
Qed.

(** [get_cached_industries] on a non-empty cached list of dicts succeeds:
    the [k]-th entry (from 0) has number [k + 1], the industry's [_id] as
    [id] and its [name_en] (["Unknown Industry"] when absent) as [name];
    [count] is the length of the cached list. *)
Theorem get_cached_industries_numbered (s : dict) (ds : list dict) :
  dict_get_or "_cached_industries" (VList []) s = VList (map VDict ds) -> ds <> [] ->
  exists formatted,
    get_cached_industries s =
      Ok [("industries", VList formatted); ("count", VInt (Z.of_nat (List.length ds)));
          ("status", VStr "success");
          ("message", VStr ("Found " ++ string_of_nat (List.length ds)
                            ++ " ACTIVE industries (status:true, isDeleted:false) - Display ALL "
                            ++ string_of_nat (List.length ds) ++ " items"))] /\
    List.length formatted = List.length ds /\
    forall k d, nth_error ds k = Some d ->
      nth_error formatted k =
        Some (VDict [("number", VInt (Z.of_nat (S k))); ("id", dict_get_or "_id" VNone d);
                     ("name", dict_get_or "name_en" (VStr "Unknown Industry") d)]).
Proof.
  intros Hc Hne. unfold get_cached_industries. rewrite Hc.
  destruct ds as [|d0 ds0]; [exfalso; exact (Hne eq_refl)|].
  destruct (number_industries_dicts (d0 :: ds0) 1) as [f [Hf [Hl Hn]]].
  exists f. cbn [truthy negb py_iter bind]. rewrite Hf. cbn [bind py_len].
  rewrite length_map. split; [reflexivity|]. split; [exact Hl|].
  intros k d H. rewrite (Hn k d H). reflexivity.
Qed.

Lemma get_cached_industries_numbered_witness :
  let s := [("_cached_industries", VList [VDict [("_id", VStr "a1"); ("name_en", VStr "Food")];
                                          VDict [("_id", VStr "b2")]])] in
  dict_get_or "_cached_industries" (VList []) s
    = VList (map VDict [[("_id", VStr "a1"); ("name_en", VStr "Food")]; [("_id", VStr "b2")]]) /\
  [[("_id", VStr "a1"); ("name_en", VStr "Food")]; [("_id", VStr "b2")]] <> [] /\
  exists formatted,
    get_cached_industries s =
      Ok [("industries", VList formatted); ("count", VInt (Z.of_nat 2));
          ("status", VStr "success");
          ("message", VStr ("Found " ++ string_of_nat 2
                            ++ " ACTIVE industries (status:true, isDeleted:false) - Display ALL "
                            ++ string_of_nat 2 ++ " items"))] /\
    List.length formatted = 2%nat /\
    forall k d, nth_error [[("_id", VStr "a1"); ("name_en", VStr "Food")]; [("_id", VStr "b2")]] k
                  = Some d ->
      nth_error formatted k =
        Some (VDict [("number", VInt (Z.of_nat (S k))); ("id", dict_get_or "_id" VNone d);
                     ("name", dict_get_or "name_en" (VStr "Unknown Industry") d)]).
Proof.
  intros s. split; [reflexivity|]. split; [discriminate|].
  exact (get_cached_industries_numbered s
           [[("_id", VStr "a1"); ("name_en", VStr "Food")]; [("_id", VStr "b2")]]
           eq_refl ltac:(discriminate)).
Defined.

(** [get_cached_addresses] on a non-empty cached list of dicts succeeds:
    the [k]-th entry (from 0) is numbered [k + 1] and carries the fields of
    the [k]-th cached address, which is the address [cached_addresses[k]]
    that a selection by number picks; [count] is the length of the list. *)
Theorem get_cached_addresses_numbered (s : dict) (ds : list dict) :
  dict_get_or "_cached_addresses" (VList []) s = VList (map VDict ds) -> ds <> [] ->
  exists formatted,
    get_cached_addresses s =
      Ok [("addresses", VList formatted); ("count", VInt (Z.of_nat (List.length ds)));
          ("status", VStr "success");
          ("message", VStr ("Found " ++ string_of_nat (List.length ds)
                            ++ " REAL addresses from API"))] /\
    List.length formatted = List.length ds /\
    forall k d, nth_error ds k = Some d ->
      nth_error formatted k = Some (address_entry (S k) d) /\
      pick (map VDict ds) (Z.of_nat (S k) - 1) = VDict d.
Proof.
  intros Hc Hne. unfold get_cached_addresses. rewrite Hc.
  destruct ds as [|d0 ds0]; [exfalso; exact (Hne eq_refl)|].
  destruct (number_addresses_dicts (d0 :: ds0) 1) as [f [Hf [Hl Hn]]].
  exists f. cbn [truthy negb py_iter bind]. rewrite Hf. cbn [bind py_len].
  rewrite length_map. split; [reflexivity|]. split; [exact Hl|].
  intros k d H. split; [exact (Hn k d H)|].
  replace (Z.of_nat (S k) - 1)%Z with (Z.of_nat k) by lia.
  exact (pick_nth (d0 :: ds0) k d H).
Qed.

Lemma get_cached_addresses_numbered_witness :
  let ds := [[("_id", VStr "x1"); ("addressLine", VStr "1 Main St")]; [("_id", VStr "x2")]] in
  let s := [("_cached_addresses", VList (map VDict ds))] in
  dict_get_or "_cached_addresses" (VList []) s = VList (map VDict ds) /\ ds <> [] /\
  exists formatted,
    get_cached_addresses s =
      Ok [("addresses", VList formatted); ("count", VInt (Z.of_nat (List.length ds)));
          ("status", VStr "success");
          ("message", VStr ("Found " ++ string_of_nat (List.length ds)
                            ++ " REAL addresses from API"))] /\
    List.length formatted = List.length ds /\
    forall k d, nth_error ds k = Some d ->
      nth_error formatted k = Some (address_entry (S k) d) /\
      pick (map VDict ds) (Z.of_nat (S k) - 1) = VDict d.
Proof.
  intros ds s. split; [reflexivity|]. split; [discriminate|].
  exact (get_cached_addresses_numbered s ds eq_refl ltac:(discriminate)).
Defined.

Lemma py_iter_not_dicts (v : PyVal) :
  truthy v = true -> (forall ds, v <> VList (map VDict ds)) ->
  (exists e, py_iter v = Raise e) \/
  exists l, py_iter v = Ok l /\ forall ds, l <> map VDict ds.
Proof.
  intros Ht Hv. destruct v as [| | | |t|l|d]; try (left; eexists; reflexivity).
  - right. exists (string_chars t). split; [reflexivity|].
    destruct t as [|c t]; [discriminate Ht|]. intros [|d ds] H; discriminate H.
  - right. exists l. split; [reflexivity|]. intros ds H. apply (Hv ds). rewrite H. reflexivity.
  - right. exists (map (fun kv => VStr (fst kv)) d). split; [reflexivity|].
    destruct d as [|kv d]; [discriminate Ht|]. intros [|d' ds] H; discriminate H.
Qed.

(** [get_cached_industries] and [get_cached_addresses] report status
    error, an empty list and count 0 when the cache entry is missing or
    falsy, and raise when it is truthy but not a list of dicts. *)
Theorem get_cached_lists_errors (s : dict) :
  (truthy (dict_get_or "_cached_industries" (VList []) s) = false ->
   get_cached_industries s =
     Ok [("industries", VList []); ("count", VInt 0); ("status", VStr "error");
         ("message", VStr "No industries available from API")]) /\
  (truthy (dict_get_or "_cached_industries" (VList []) s) = true ->
   (forall ds, dict_get_or "_cached_industries" (VList []) s <> VList (map VDict ds)) ->
   exists e, get_cached_industries s = Raise e) /\
  (truthy (dict_get_or "_cached_addresses" (VList []) s) = false ->
   get_cached_addresses s =
     Ok [("addresses", VList []); ("count", VInt 0); ("status", VStr "error");
         ("message", VStr "No addresses available from API")]) /\
  (truthy (dict_get_or "_cached_addresses" (VList []) s) = true ->
   (forall ds, dict_get_or "_cached_addresses" (VList []) s <> VList (map VDict ds)) ->
   exists e, get_cached_addresses s = Raise e).
Proof.
  split; [|split; [|split]].
  - intros H. unfold get_cached_industries. rewrite H. reflexivity.
  - intros Ht Hv. unfold get_cached_industries. rewrite Ht. cbn [negb].
    destruct (py_iter_not_dicts _ Ht Hv) as [[e E]|[l [E Hl]]]; rewrite E; cbn [bind].
    + exists e. reflexivity.
    + rewrite (number_industries_bad l 1 Hl). exists AttributeError. reflexivity.
  - intros H. unfold get_cached_addresses. rewrite H. reflexivity.
  - intros Ht Hv. unfold get_cached_addresses. rewrite Ht. cbn [negb].
    destruct (py_iter_not_dicts _ Ht Hv) as [[e E]|[l [E Hl]]]; rewrite E; cbn [bind].
    + exists e. reflexivity.
    + rewrite (number_addresses_bad l 1 Hl). exists AttributeError. reflexivity.
Qed.




(** ** Properties of the agent manager and the chat endpoint *)






(** [chat_endpoint] never calls [route_message] for a blank [userAuth]
    and then answers the sign-in message in the requested language;
    otherwise it calls [route_message] once, with the normalized language
    code, which is always supported. Its reply is never empty, whatever
    [route_message] returns or raises. *)
Theorem chat_endpoint_spec (new_uuid : string)
    (route : string -> string -> string -> string -> Result string)
    (sessionId userAuth message : string) (language : option string) :
  let language_input := match language with
                        | Some l => if String.eqb l "" then "English" else l
                        | None => "English"
                        end in
  let session_id := if String.eqb sessionId "" then new_uuid else sessionId in
  let r := chat_endpoint new_uuid route sessionId userAuth message language in
  (py_strip userAuth = "" ->
   chat_routed r = None /\ chat_reply r = sign_in_message (normalize_language language_input)) /\
  (py_strip userAuth <> "" ->
   chat_routed r = Some (message, session_id, userAuth, normalize_language language_input) /\
   In (normalize_language language_input) supported_languages) /\
  chat_reply r <> "" /\ chat_session_id r = session_id.
Proof.
  intros language_input session_id r.
  assert (Hcase := normalize_language_cases language_input).
  assert (Hsup : is_supported_language (normalize_language language_input) = true)
    by (destruct Hcase as [H|[H|H]]; rewrite H; reflexivity).
  assert (Hin : In (normalize_language language_input) supported_languages)
    by (destruct Hcase as [H|[H|H]]; rewrite H; cbv; auto).
  assert (Hsign : forall c, sign_in_message c <> "").
  { intros c. unfold sign_in_message.
    destruct (String.eqb c "ar"); [discriminate|]. destruct (String.eqb c "bn"); discriminate. }
  assert (Herr : forall c, route_error_message c <> "").
  { intros c. unfold route_error_message.
    destruct (String.eqb c "ar"); [discriminate|]. destruct (String.eqb c "bn"); discriminate. }
  assert (Hstrip : String.eqb userAuth "" = true -> py_strip userAuth = "")
    by (intros H; apply String.eqb_eq in H; subst; reflexivity).
  subst r. unfold chat_endpoint. fold language_input session_id.
  destruct (String.eqb userAuth "" || String.eqb (py_strip userAuth) "") eqn:Eb.
  - cbn [chat_routed chat_reply chat_session_id].
    split; [intros _; split; reflexivity|].
    split; [|split; [apply Hsign | reflexivity]].
    intros Hne. exfalso. apply orb_true_iff in Eb as [Eb|Eb].
    + exact (Hne (Hstrip Eb)).
    + apply String.eqb_eq in Eb. exact (Hne Eb).
  - rewrite Hsup. cbn [chat_routed chat_reply chat_session_id].
    apply orb_false_iff in Eb as [_ Eb]. apply String.eqb_neq in Eb.
    split; [intros H; exfalso; exact (Eb H)|].
    split; [intros _; split; [reflexivity | exact Hin]|].
    split; [|reflexivity].
    destruct (route message session_id userAuth (normalize_language language_input)) as [x|e].
    + destruct (String.eqb_spec x "") as [_|Hx]; [discriminate | exact Hx].
    + apply Herr.
Qed.

Lemma options_map_cases (field_name : string) :
  options_map field_name = ["KG"; "GAL"; "LB"; "L"] \/
  options_map field_name = ["Ex Factory"; "Deliver to Buyer Factory"] \/
  options_map field_name = ["LC"; "TT"; "Cash"] \/
  options_map field_name = ["Bulk Tanker"; "PP Bag"; "Jerry Can"; "Drum"] \/
  options_map field_name = [].
Proof.
  unfold options_map.
  destruct (String.eqb field_name "unit"); [left; reflexivity|].
  destruct (String.eqb field_name "incoterm"); [right; left; reflexivity|].
  destruct (String.eqb field_name "mode_of_payment"); [right; right; left; reflexivity|].
  destruct (String.eqb field_name "packaging_pref"); [right; right; right; left; reflexivity|].
  right; right; right; right; reflexivity.
Qed.

(** [validate_selection] accepts a string exactly when its stripped,
    lower-cased form equals an allowed option of the field up to case, and
    then returns that option as spelled in the table; a field with no
    options accepts nothing; every allowed option validates to itself. *)
Theorem validate_selection_canonical (field_name s : string) :
  (forall v, validate_selection field_name (VStr s) = Ok v ->
     (is_valid v = true <->
      exists opt, In opt (options_map field_name) /\ py_lower opt = py_lower (py_strip s)) /\
     (is_valid v = true ->
      exists opt, In opt (options_map field_name) /\ py_lower opt = py_lower (py_strip s) /\
                  normalized_value v = Some (VStr opt))) /\
  (exists v, validate_selection field_name (VStr s) = Ok v) /\
  (options_map field_name = [] -> validate_selection field_name (VStr s) = Ok invalid) /\
  (forall opt, In opt (options_map field_name) ->
     validate_selection field_name (VStr opt) = Ok (mkValidation true (Some (VStr opt)))).
Proof.
  split; [|split; [|split]].
  - intros v. unfold validate_selection.
    destruct (find (fun opt => String.eqb (py_lower opt) (py_lower (py_strip s)))
                (options_map field_name)) as [a|] eqn:E; intros H; injection H as <-.
    + apply find_some in E as [Hin Heq]. apply String.eqb_eq in Heq.
      split; [split; [intros _; exists a; split; assumption | intros _; reflexivity]|].
      intros _. exists a. repeat split; assumption.
    + split; [|intros H; discriminate H].
      split; [intros H; discriminate H|].
      intros [opt [Hin Heq]]. apply String.eqb_eq in Heq.
      rewrite (find_none _ _ E opt Hin) in Heq. discriminate Heq.
  - unfold validate_selection.
    destruct (find _ _); eexists; reflexivity.
  - intros H. unfold validate_selection. rewrite H. reflexivity.
  - intros opt Hin. unfold validate_selection.
    destruct (options_map_cases field_name) as [H|[H|[H|[H|H]]]]; rewrite H in *;
      repeat (destruct Hin as [<-|Hin]; [reflexivity|]); destruct Hin.
Qed.

Lemma dict_get_del_other (k k' : string) (d : dict) :
  k <> k' -> dict_get k (dict_del k' d) = dict_get k d.
Proof.
  intros Hne. induction d as [|[k0 v0] d IH]; [reflexivity|].
  cbn [dict_del]. destruct (String.eqb_spec k' k0) as [->|Hne'].
  - cbn [dict_get]. apply String.eqb_neq in Hne. rewrite Hne. reflexivity.
  - cbn [dict_get]. rewrite IH. reflexivity.
Qed.

Lemma open_cache_cache (s s1 : dict) (c : InvCache) :
  open_cache s = Ok (s1, c) -> exists cd, dict_get "cache" s1 = Some (VDict cd).
Proof.
  unfold open_cache, setdefault.
  destruct (dict_get "cache" s) as [v|]; [destruct v as [| | | | | |cd]; try discriminate|].
  all: repeat match goal with
         | |- context [match dict_get ?k ?d with Some _ => _ | None => _ end] =>
             destruct (dict_get k d) end.
  all: repeat match goal with
         | |- context [match ?v with VNone => _ | _ => _ end] => destruct v end.
  all: try discriminate.
  all: intros H; injection H as <- _; eexists; apply dict_get_set_same.
Qed.

Lemma cache_products_ids (pds : list dict) : forall (i : nat) (c : InvCache),
  Forall product_with_id pds ->
  NoDup (map (fun d => dict_get_or "_id" VNone d) pds) ->
  exists c2, cache_products i (map VDict pds) c = (c2, None) /\
    (forall pd pid, In pd pds -> dict_get_or "_id" VNone pd = VStr pid ->
       dict_get pid (product_details_cache c2) = Some (VDict pd)) /\
    (forall k, (forall pd, In pd pds -> dict_get_or "_id" VNone pd <> VStr k) ->
       dict_get k (product_details_cache c2) = dict_get k (product_details_cache c)).
Proof.
  induction pds as [|d pds IH]; intros i c Hall Hnd.
  - exists c. split; [reflexivity|]. split; [intros pd pid []|]. intros k _; reflexivity.
  - inversion Hall as [|? ? [id [Hid Hne]] Hall']; subst.
    inversion Hnd as [|? ? Hnin Hnd']; subst.
    cbn [map cache_products]. rewrite Hid.
    assert (Ht : truthy (VStr id) = true)
      by (cbn [truthy]; apply String.eqb_neq in Hne; rewrite Hne; reflexivity).
    rewrite Ht.
    destruct (IH (S i) (mkInvCache (product_cache c)
                         (dict_set id (VDict d) (product_details_cache c))
                         (dict_set (string_of_nat (S i)) (VStr id) (product_list_cache c))
                         (current_product_list c ++ [VDict d])) Hall' Hnd')
      as [c2 [Hrun [Hin Hout]]].
    exists c2. split; [exact Hrun|]. split.
    + intros pd pid [<-|Hpd] Hpid.
      * rewrite Hid in Hpid. injection Hpid as <-.
        rewrite Hout; [apply dict_get_set_same|].
        intros pd' Hpd' Heq. apply Hnin. rewrite Hid, <- Heq.
        apply in_map. exact Hpd'.
      * exact (Hin pd pid Hpd Hpid).
    + intros k Hk. rewrite Hout.
      * cbn [product_details_cache]. apply dict_get_set_other.
        intros ->. apply (Hk d (or_introl eq_refl)). exact Hid.
      * intros pd Hpd. apply Hk. right. exact Hpd.
Qed.

Lemma close_cache_details (s1 : dict) (cd : dict) (c : InvCache) :
  dict_get "cache" s1 = Some (VDict cd) ->
  exists cd', dict_get "cache" (close_cache s1 c) = Some (VDict cd') /\
    dict_get "product_details_cache" cd' = Some (VDict (product_details_cache c)).
Proof.
  intros H. unfold close_cache. rewrite H.
  eexists. split; [apply dict_get_set_same|].
  rewrite dict_get_set_other by discriminate.
  rewrite dict_get_set_other by discriminate.
  apply dict_get_set_same.
Qed.

(** A search that is not cached and whose answer lists products with
    distinct non-empty string ids makes every listed product retrievable:
    [get_product_by_id] returns it from the session, and an
    [update_session_memory] call that names only its id gets the product
    details filled in from the cache. *)
Theorem search_then_lookup (api : string -> option PyVal) (query : string)
    (s s1 : dict) (c : InvCache) (rd rr : dict) (pds : list dict) (pd : dict) (pid : string) :
  open_cache s = Ok (s1, c) ->
  dict_get (py_strip (py_lower query)) (product_cache c) = None ->
  api query = Some (VDict rd) ->
  dict_get "results" rd = Some (VDict rr) ->
  dict_get "products" rr = Some (VList (map VDict pds)) ->
  Forall product_with_id pds ->
  NoDup (map (fun d => dict_get_or "_id" VNone d) pds) ->
  In pd pds -> dict_get_or "_id" VNone pd = VStr pid ->
  exists result s',
    fetch_inventory_query api query s = (Ok result, s', [query]) /\
    get_product_by_id (VStr pid) s' = Ok (VDict pd) /\
    update_session_memory_tool [("product_id", VStr pid)] s' =
      Ok (Some [("product_id", VStr pid); ("product_details", VDict pd)]).
Proof.
  intros Hopen Hnc Hapi Hres Hprods Hall Hnd Hin Hpid.
  destruct (open_cache_cache s s1 c Hopen) as [cd Hcd].
  destruct (cache_products_ids pds 0
              (mkInvCache (dict_set (py_strip (py_lower query))
                             (VDict (dict_set "results"
                                       (VDict (dict_del "rawResult" (dict_del "sellers" rr))) rd))
                             (product_cache c))
                          (product_details_cache c) [] []) Hall Hnd)
    as [c2 [Hrun [Hget _]]].
  destruct (close_cache_details s1 cd c2 Hcd) as [cd' [Hcache Hpdc]].
  assert (Hlook : get_product_by_id (VStr pid) (close_cache s1 c2) = Ok (VDict pd)).
  { unfold get_product_by_id, get_from, dict_get_or. rewrite Hcache. cbn [bind].
    rewrite Hpdc. rewrite (Hget pd pid Hin Hpid). reflexivity. }
  assert (Hne : pds <> []) by (destruct pds; [destruct Hin | discriminate]).
  exists (VDict (dict_set "results" (VDict (dict_del "rawResult" (dict_del "sellers" rr))) rd)),
         (close_cache s1 c2).
  split; [|split; [exact Hlook|]].
  - unfold fetch_inventory_query. rewrite Hopen. cbv beta iota zeta. rewrite Hnc.
    unfold inventory_fetch. rewrite Hapi.
    unfold get_from, dict_get_or. rewrite Hres. cbn [bind]. rewrite Hprods.
    cbn [py_len bind]. rewrite dict_get_set_same.
    rewrite !dict_get_del_other by discriminate. rewrite Hprods.
    destruct pds as [|d0 pds0]; [exfalso; exact (Hne eq_refl)|].
    cbn [truthy map].
    rewrite <- (map_cons VDict d0 pds0). unfold dict in *. rewrite Hrun. reflexivity.
  - assert (Hg : dict_get "_id" pd = Some (VStr pid)).
    { unfold dict_get_or in Hpid. destruct (dict_get "_id" pd); congruence. }
    assert (Hmem : dict_mem "_id" pd = true) by (unfold dict_mem; rewrite Hg; reflexivity).
    assert (Htr : truthy (VDict pd) = true)
      by (destruct pd; [discriminate Hg | reflexivity]).
    unfold update_session_memory_tool. cbv zeta.
    change (dict_get_or "product_details" (VDict []) [("product_id", VStr pid)]) with (VDict []).
    change (dict_get_or "product_id" VNone [("product_id", VStr pid)]) with (VStr pid).
    cbn [truthy negb orb bind]. rewrite Hlook. cbn [bind]. rewrite Htr.
    cbn [bind]. rewrite Htr. cbn [has_id]. rewrite Hmem. reflexivity.
Qed.

Lemma search_then_lookup_witness :
  let api := fun _ : string =>
    Some (VDict [("results", VDict [("products",
      VList [VDict [("_id", VStr "p1"); ("name", VStr "Acetone")];
             VDict [("_id", VStr "p2"); ("name", VStr "Toluene")]])])]) in
  exists result s',
    fetch_inventory_query api "Acetone" [] = (Ok result, s', ["Acetone"]) /\
    get_product_by_id (VStr "p2") s' = Ok (VDict [("_id", VStr "p2"); ("name", VStr "Toluene")]) /\
    update_session_memory_tool [("product_id", VStr "p2")] s' =
      Ok (Some [("product_id", VStr "p2");
                ("product_details", VDict [("_id", VStr "p2"); ("name", VStr "Toluene")])]).
Proof.
  intros api.
  apply (search_then_lookup api "Acetone" []
           [("cache", VDict [("product_cache", VDict []); ("product_details_cache", VDict []);
                             ("product_list_cache", VDict []); ("current_product_list", VList [])])]
           (mkInvCache [] [] [] [])
           [("results", VDict [("products",
              VList [VDict [("_id", VStr "p1"); ("name", VStr "Acetone")];
                     VDict [("_id", VStr "p2"); ("name", VStr "Toluene")]])])]
           [("products",
              VList [VDict [("_id", VStr "p1"); ("name", VStr "Acetone")];
                     VDict [("_id", VStr "p2"); ("name", VStr "Toluene")]])]
           [[("_id", VStr "p1"); ("name", VStr "Acetone")];
            [("_id", VStr "p2"); ("name", VStr "Toluene")]]
           [("_id", VStr "p2"); ("name", VStr "Toluene")] "p2").
  - reflexivity.
  - reflexivity.
  - reflexivity.
  - reflexivity.
  - reflexivity.
  - constructor; [exists "p1"; split; [reflexivity | discriminate]|].
    constructor; [exists "p2"; split; [reflexivity | discriminate]|].
    constructor.
  - cbn. constructor; [intros [H|[]]; discriminate H|].
    constructor; [intros []|]. constructor.
  - right; left; reflexivity.
  - reflexivity.
Defined.

Section RateLimitProofs.
Local Open Scope Z_scope.
Local Open Scope list_scope.

Lemma popleft_expired_split (now : Z) (q : list Z) :
  exists dropped, q = dropped ++ popleft_expired now q /\
                  Forall (fun x => x < now - 60) dropped.
Proof.
  induction q as [|t q IH]; [exists []; split; [reflexivity | constructor]|].
  cbn [popleft_expired]. destruct (Z.ltb_spec t (now - 60)) as [Hlt|Hge].
  - destruct IH as [d [Hq Hd]]. exists (t :: d). split; [cbn; rewrite <- Hq; reflexivity|].
    constructor; assumption.
  - exists []. split; [reflexivity | constructor].
Qed.

Lemma wait_for_rate_limit_spec (m : Z) (clock : list Z) : forall q res q',
  StronglySorted Z.le clock ->
  wait_for_rate_limit m clock q = Some (res, q') ->
  exists dropped, q = dropped ++ q' /\
    (forall x, In x dropped -> exists r, In r clock /\ x < r - 60) /\
    (forall t, res = Proceed t -> In t clock /\ Z.of_nat (List.length q') < m /\
                            forall x, In x dropped -> x < t - 60).
Proof.
  induction clock as [|now clock IH]; intros q res q' Hs Hw; [discriminate Hw|].
  inversion Hs as [|? ? Hs' Hall]; subst.
  cbn [wait_for_rate_limit] in Hw.
  destruct (popleft_expired_split now q) as [d1 [Hq Hd1]].
  destruct (Z.ltb_spec (Z.of_nat (List.length (popleft_expired now q))) m) as [Hlt|Hge].
  - injection Hw as <- <-. exists d1. split; [exact Hq|]. split.
    + intros x Hx. exists now. split; [left; reflexivity|]. rewrite Forall_forall in Hd1; auto.
    + intros t Ht. injection Ht as <-. split; [left; reflexivity|]. split; [exact Hlt|].
      rewrite Forall_forall in Hd1; auto.
  - destruct (popleft_expired now q) as [|y ys] eqn:Ep.
    + injection Hw as <- <-. exists d1. split; [exact Hq|]. split; [|discriminate].
      intros x Hx. exists now. split; [left; reflexivity|]. rewrite Forall_forall in Hd1; auto.
    + destruct (IH (y :: ys) res q' Hs' Hw) as [d2 [Hq2 [Hd2 Hok]]].
      exists (d1 ++ d2). split; [rewrite Hq, Hq2, app_assoc; reflexivity|].
      rewrite Forall_forall in Hd1, Hall. split.
      * intros x Hx. apply in_app_or in Hx as [Hx|Hx].
        -- exists now. split; [left; reflexivity | auto].
        -- destruct (Hd2 x Hx) as [r [Hr Hxr]]. exists r. split; [right; exact Hr | exact Hxr].
      * intros t Ht. destruct (Hok t Ht) as [Hin [Hlen Hx2]].
        split; [right; exact Hin|]. split; [exact Hlen|].
        intros x Hx. apply in_app_or in Hx as [Hx|Hx]; [|auto].
        specialize (Hd1 x Hx). specialize (Hall t Hin). lia.
Qed.

Lemma filter_below_nil (t : Z) (l : list Z) :
  (forall x, In x l -> x < t - 60) -> filter (fun x => t - 60 <=? x) l = [].
Proof.
  induction l as [|x l IH]; intros H; [reflexivity|].
  cbn [filter]. destruct (Z.leb_spec (t - 60) x) as [Hle|_].
  - specialize (H x (or_introl eq_refl)). lia.
  - apply IH. intros y Hy. apply H. right; exact Hy.
Qed.

Lemma process_queue_window (m : Z) (jobs : list (list Z * Z)) : forall q D,
  StronglySorted Z.le (flat_map fst jobs) ->
  (forall x r, In x D -> In r (flat_map fst jobs) -> x < r - 60) ->
  forall i t f, nth_error (fst (process_queue m jobs q)) i = Some (t, f) ->
    Z.of_nat (List.length (filter (fun x => t - 60 <=? x)
                (D ++ q ++ map snd (firstn i (fst (process_queue m jobs q)))))) < m.
Proof.
  induction jobs as [|[clock fin] jobs IH]; intros q D Hs HD i t f Hi.
  - destruct i; discriminate Hi.
  - cbn [flat_map fst] in Hs, HD. cbn [process_queue] in Hi |- *.
    assert (Hsc : StronglySorted Z.le clock /\ StronglySorted Z.le (flat_map fst jobs) /\
                  forall r r', In r clock -> In r' (flat_map fst jobs) -> r <= r').
    { clear -Hs. induction clock as [|c clock IHc]; cbn [app] in Hs.
      - split; [constructor|]. split; [exact Hs|]. intros r r' [].
      - inversion Hs as [|? ? Hs' Hall]; subst. destruct (IHc Hs') as [H1 [H2 H3]].
        rewrite Forall_forall in Hall. split; [constructor; [exact H1|]|]; [|split; [exact H2|]].
        + apply Forall_forall. intros y Hy. apply Hall, in_or_app. left; exact Hy.
        + intros r r' [<-|Hr] Hr'; [apply Hall, in_or_app; right; exact Hr'|]. auto. }
    destruct Hsc as [Hsc [Hsj Hcj]].
    destruct (wait_for_rate_limit m clock q) as [[[start|] q1]|] eqn:Hw; [| |destruct i; discriminate Hi].
    + destruct (wait_for_rate_limit_spec m clock q (Proceed start) q1 Hsc Hw)
        as [dr [Hq [Hdr Hok]]].
      destruct (Hok start eq_refl) as [Hin [Hlen Hbelow]].
      destruct (process_queue m jobs (update_request_times fin q1)) as [done_ qf] eqn:Hp.
      cbn [fst] in Hi |- *.
      destruct i as [|i].
      * injection Hi as <- <-. cbn [firstn map]. rewrite app_nil_r, Hq, app_assoc.
        rewrite filter_app, filter_below_nil, length_app;
          [pose proof (filter_length_le (fun x => start - 60 <=? x) q1); cbn [List.length]; lia|].
        intros x Hx. apply in_app_or in Hx as [Hx|Hx]; [|exact (Hbelow x Hx)].
        specialize (HD x start Hx (in_or_app _ _ _ (or_introl Hin))). exact HD.
      * cbn [nth_error] in Hi. cbn [firstn map snd].
        assert (HD' : forall x r, In x (D ++ dr) -> In r (flat_map fst jobs) -> x < r - 60).
        { intros x r Hx Hr. apply in_app_or in Hx as [Hx|Hx].
          - apply HD; [exact Hx | apply in_or_app; right; exact Hr].
          - destruct (Hdr x Hx) as [r0 [Hr0 Hxr0]]. specialize (Hcj r0 r Hr0 Hr). lia. }
        specialize (IH (update_request_times fin q1) (D ++ dr) Hsj HD' i t f).
        rewrite Hp in IH. cbn [fst] in IH. specialize (IH Hi).
        unfold update_request_times in IH.
        replace (D ++ q ++ fin :: map snd (firstn i done_))
          with ((D ++ dr) ++ (q1 ++ [fin]) ++ map snd (firstn i done_)); [exact IH|].
        rewrite Hq. rewrite <- !app_assoc. reflexivity.
    + destruct (wait_for_rate_limit_spec m clock q IndexErrorRaised q1 Hsc Hw)
        as [dr [Hq [Hdr _]]].
      assert (HD' : forall x r, In x (D ++ dr) -> In r (flat_map fst jobs) -> x < r - 60).
      { intros x r Hx Hr. apply in_app_or in Hx as [Hx|Hx].
        - apply HD; [exact Hx | apply in_or_app; right; exact Hr].
        - destruct (Hdr x Hx) as [r0 [Hr0 Hxr0]]. specialize (Hcj r0 r Hr0 Hr). lia. }
      specialize (IH q1 (D ++ dr) Hsj HD' i t f Hi).
      rewrite Hq, <- !app_assoc. rewrite <- !app_assoc in IH. exact IH.
Qed.

(** The rate limit of the translation worker: with a clock that never goes
    back, each translation starts when fewer than [max_requests_per_minute]
    of the translations recorded so far (the initial deque and the ones the
    worker finished before it) finished at most 60 time units earlier. *)
Theorem translation_rate_limit (m : Z) (jobs : list (list Z * Z)) (q0 : list Z) :
  Sorted Z.le (flat_map fst jobs) ->
  forall i t f, nth_error (fst (process_queue m jobs q0)) i = Some (t, f) ->
    Z.of_nat (List.length (filter (fun x => t - 60 <=? x)
                (q0 ++ map snd (firstn i (fst (process_queue m jobs q0)))))) < m.
Proof.
  intros Hs i t f Hi.
  apply Sorted_StronglySorted in Hs; [|intros x y z; lia].
  exact (process_queue_window m jobs q0 [] Hs (fun x r Hx _ => match Hx with end) i t f Hi).
Qed.

Lemma wait_for_rate_limit_outcome (m : Z) (clock : list Z) : forall q res q',
  wait_for_rate_limit m clock q = Some (res, q') ->
  match res with
  | Proceed _ => Z.of_nat (List.length q') < m
  | IndexErrorRaised => q' = []
  end.
Proof.
  induction clock as [|now clock IH]; intros q res q' Hw; [discriminate Hw|].
  cbn [wait_for_rate_limit] in Hw.
  destruct (Z.ltb_spec (Z.of_nat (List.length (popleft_expired now q))) m) as [Hlt|_].
  - injection Hw as <- <-. exact Hlt.
  - destruct (popleft_expired now q) as [|y ys]; [injection Hw as <- <-; reflexivity|].
    exact (IH _ _ _ Hw).
Qed.

(** The deque of request times never grows past the larger of
    [max_requests_per_minute] and its initial length. *)
Theorem request_times_bounded (m : Z) (jobs : list (list Z * Z)) (q0 : list Z) :
  Z.of_nat (List.length (snd (process_queue m jobs q0))) <= Z.max m (Z.of_nat (List.length q0)).
Proof.
  revert q0. induction jobs as [|[clock fin] jobs IH]; intros q0; cbn [process_queue].
  - cbn [snd]. lia.
  - destruct (wait_for_rate_limit m clock q0) as [[res q1]|] eqn:Hw; [|cbn [snd]; lia].
    pose proof (wait_for_rate_limit_outcome m clock q0 res q1 Hw) as Ho.
    destruct res as [start|].
    + destruct (process_queue m jobs (update_request_times fin q1)) as [done_ qf] eqn:Hp.
      specialize (IH (update_request_times fin q1)). rewrite Hp in IH. cbn [snd] in IH |- *.
      unfold update_request_times in IH. rewrite length_app in IH. cbn [List.length] in IH. lia.
    + subst q1. specialize (IH []). cbn [List.length] in IH. lia.
Qed.

Lemma translation_rate_limit_witness :
  let jobs := [([0], 1); ([2], 3); ([4; 70], 71)] in
  Sorted Z.le (flat_map fst jobs) /\
  nth_error (fst (process_queue 2 jobs [])) 2 = Some (70, 71) /\
  Z.of_nat (List.length (filter (fun x => 70 - 60 <=? x)
              ([] ++ map snd (firstn 2 (fst (process_queue 2 jobs [])))))) < 2.
Proof.
  intros jobs.
  assert (Hs : Sorted Z.le (flat_map fst jobs)).
  { cbn. repeat (apply Sorted_cons; [|repeat (apply HdRel_cons || apply HdRel_nil); lia]).
    apply Sorted_nil. }
  split; [exact Hs|]. split; [reflexivity|].
  exact (translation_rate_limit 2 jobs [] Hs 2 70 71 eq_refl).
Defined.

End RateLimitProofs.

Lemma ascii_lower_idem (c : ascii) : ascii_lower (ascii_lower c) = ascii_lower c.
Proof. destruct c as [[] [] [] [] [] [] [] []]; reflexivity. Qed.

Lemma py_lower_idem (s : string) : py_lower (py_lower s) = py_lower s.
Proof.
  induction s as [|c s IH]; [reflexivity|].
  unfold py_lower in *. cbn [str_map]. rewrite ascii_lower_idem, IH. reflexivity.
Qed.

Lemma is_py_space_lower (c : ascii) : is_py_space (ascii_lower c) = is_py_space c.
Proof. destruct c as [[] [] [] [] [] [] [] []]; reflexivity. Qed.

Lemma lstrip_lower (s : string) : lstrip (py_lower s) = py_lower (lstrip s).
Proof.
  induction s as [|c s IH]; [reflexivity|].
  cbn [py_lower str_map lstrip]. unfold py_lower in IH.
  rewrite is_py_space_lower. destruct (is_py_space c); [exact IH | reflexivity].
Qed.

Lemma rev_string_lower (s : string) : rev_string (py_lower s) = py_lower (rev_string s).
Proof.
  unfold rev_string, py_lower. rewrite list_ascii_of_str_map, <- map_rev.
  apply str_map_of_list_ascii.
Qed.

Lemma py_strip_lower (s : string) : py_strip (py_lower s) = py_lower (py_strip s).
Proof.
  unfold py_strip. rewrite lstrip_lower, rev_string_lower, lstrip_lower, rev_string_lower.
  reflexivity.
Qed.

Lemma lstrip_idem (s : string) : lstrip (lstrip s) = lstrip s.
Proof.
  induction s as [|c s IH]; [reflexivity|].
  cbn [lstrip]. destruct (is_py_space c) eqn:E; [exact IH|].
  cbn [lstrip]. rewrite E. reflexivity.
Qed.

Lemma rev_string_involutive (s : string) : rev_string (rev_string s) = s.
Proof.
  unfold rev_string. rewrite list_ascii_of_string_of_list_ascii, rev_involutive.
  apply string_of_list_ascii_of_string.
Qed.

Lemma lstrip_snoc (c : ascii) (l : list ascii) :
  is_py_space c = false ->
  lstrip (string_of_list_ascii (l ++ [c])) =
  string_of_list_ascii (list_ascii_of_string (lstrip (string_of_list_ascii l)) ++ [c]).
Proof.
  intros Hc. induction l as [|a l IH]; cbn [app string_of_list_ascii lstrip].
  - rewrite Hc. reflexivity.
  - destruct (is_py_space a); [exact IH|].
    cbn [list_ascii_of_string app string_of_list_ascii].
    rewrite list_ascii_of_string_of_list_ascii. reflexivity.
Qed.

(** Stripping trailing space keeps a string free of leading space. *)
Lemma lstrip_rstrip_fixed (a : string) :
  lstrip a = a -> lstrip (rev_string (lstrip (rev_string a))) = rev_string (lstrip (rev_string a)).
Proof.
  destruct a as [|c a]; [reflexivity|].
  cbn [lstrip]. destruct (is_py_space c) eqn:Hc.
  - intros H. exfalso. assert (Hl : (String.length (lstrip a) <= String.length a)%nat).
    { clear. induction a as [|d a IH]; cbn [lstrip]; [lia|].
      destruct (is_py_space d); cbn [String.length]; lia. }
    rewrite H in Hl. cbn [String.length] in Hl. lia.
  - intros _.
    assert (Hr : exists x, rev_string (lstrip (rev_string (String c a))) = String c x).
    { unfold rev_string at 2. cbn [list_ascii_of_string rev].
      rewrite lstrip_snoc by exact Hc.
      unfold rev_string. rewrite list_ascii_of_string_of_list_ascii, rev_app_distr.
      cbn [rev app string_of_list_ascii]. eexists; reflexivity. }
    destruct Hr as [x Hx]. rewrite Hx. cbn [lstrip]. rewrite Hc. reflexivity.
Qed.

Lemma py_strip_idem (s : string) : py_strip (py_strip s) = py_strip s.
Proof.
  unfold py_strip at 2 3.
  pose proof (lstrip_idem s) as Ha.
  remember (lstrip s) as a eqn:Ea.
  pose proof (lstrip_rstrip_fixed a Ha) as Hx.
  unfold py_strip. rewrite Hx, rev_string_involutive, lstrip_idem. reflexivity.
Qed.

(** [_normalize_term] is idempotent: a normalized term normalizes to itself. *)
Theorem normalize_term_idempotent (term : string) :
  normalize_term (normalize_term term) = normalize_term term.
Proof.
  unfold normalize_term at 2 3.
  destruct (assoc_str (py_strip (py_lower term)) term_variations) as [v|] eqn:E.
  - apply assoc_str_in in E. unfold term_variations in E.
    repeat (destruct E as [E|E]; [injection E as _ <-; reflexivity|]). destruct E.
  - assert (Hn : py_strip (py_lower (py_strip (py_lower term))) = py_strip (py_lower term)).
    { rewrite (py_strip_lower (py_strip (py_lower term))), py_strip_idem.
      rewrite (py_strip_lower term), py_lower_idem. reflexivity. }
    unfold normalize_term. rewrite Hn, E. reflexivity.
Qed.

Lemma dict_set_nodup (k : string) (v : PyVal) (d : dict) :
  NoDup (map fst d) -> NoDup (map fst (dict_set k v d)).
Proof.
  induction d as [|[k0 v0] d IH]; intros Hnd; cbn [dict_set].
  - constructor; [intros []|constructor].
  - inversion Hnd as [|? ? Hnin Hnd']; subst.
    destruct (String.eqb_spec k k0) as [->|Hne]; [exact Hnd|].
    cbn [map fst]. constructor; [|exact (IH Hnd')].
    intros Hin. apply dict_set_keys in Hin as [->|Hin]; [exact (Hne eq_refl) | exact (Hnin Hin)].
Qed.

Lemma dict_set_key_in (k : string) (v : PyVal) (d : dict) :
  In k (map fst (dict_set k v d)).
Proof.
  induction d as [|[k0 v0] d IH]; cbn [dict_set]; [left; reflexivity|].
  destruct (String.eqb_spec k k0) as [->|_]; [left; reflexivity | right; exact IH].
Qed.

Lemma dict_set_keys_mono (x k : string) (v : PyVal) (d : dict) :
  In x (map fst d) -> In x (map fst (dict_set k v d)).
Proof.
  induction d as [|[k0 v0] d IH]; cbn [dict_set]; [intros []|].
  destruct (String.eqb k k0); cbn [map fst In]; intros [H|H]; auto.
Qed.

Lemma dict_set_Forall (P : string * PyVal -> Prop) (k : string) (v : PyVal) (d : dict) :
  P (k, v) -> Forall P d -> Forall P (dict_set k v d).
Proof.
  intros Hp. induction d as [|[k0 v0] d IH]; intros Hall; cbn [dict_set].
  - constructor; [exact Hp | constructor].
  - inversion Hall as [|? ? H0 Hall']; subst.
    destruct (String.eqb_spec k k0) as [<-|_]; constructor; auto.
Qed.

Lemma count_arabic_terms_all (m : dict) :
  Forall has_arabic m -> count_arabic_terms m = Ok (List.length m).
Proof.
  induction m as [|[k v] m IH]; intros Hall; [reflexivity|].
  inversion Hall as [|? ? [d [t [Hv [Ht Hne]]]] Hall']; subst.
  cbn [snd] in Hv. subst v. cbn [count_arabic_terms]. unfold get_from. rewrite Ht.
  cbn [bind]. rewrite (IH Hall'). cbn [bind truthy].
  apply String.eqb_neq in Hne. rewrite Hne. reflexivity.
Qed.

(** Starting from the initial translation memory, any run of
    [add_translation_memory_entry] calls whose English term or Arabic
    translation is non-empty keeps the memory free of duplicate keys,
    records every added term under its lower-cased form, and
    [get_translation_memory_stats] counts every term as having an Arabic
    translation. *)
Theorem translation_memory_stats_after_adds (adds : list (string * option string)) :
  Forall (fun ea => fst ea <> "" \/ exists t, snd ea = Some t /\ t <> "") adds ->
  let memory := fold_left (fun m ea => add_translation_memory_entry (fst ea) (snd ea) m)
                          adds translation_memory_init in
  NoDup (map fst memory) /\
  (forall e a, In (e, a) adds -> In (py_lower e) (map fst memory)) /\
  get_translation_memory_stats memory =
    Ok [("total_terms", VInt (Z.of_nat (List.length memory)));
        ("arabic_translations", VInt (Z.of_nat (List.length memory)));
        ("terms", VList (map (fun kv => VStr (fst kv)) memory))].
Proof.
  intros Hadds memory. subst memory.
  assert (Hinit : NoDup (map fst translation_memory_init) /\ Forall has_arabic translation_memory_init).
  { split.
    - cbn. repeat constructor; cbn; intuition discriminate.
    - unfold translation_memory_init.
      repeat (apply Forall_cons;
              [do 2 eexists; split; [reflexivity|]; split; [reflexivity | discriminate]|]).
      apply Forall_nil. }
  revert Hinit. generalize translation_memory_init as m0.
  induction adds as [|[e a] adds IH]; intros m0 [Hnd Hall].
  - cbn [fold_left]. split; [exact Hnd|]. split; [intros e a []|].
    unfold get_translation_memory_stats. rewrite (count_arabic_terms_all m0 Hall). reflexivity.
  - inversion Hadds as [|? ? Hea Hadds']; subst. cbn [fold_left fst snd] in *.
    assert (Hm1 : NoDup (map fst (add_translation_memory_entry e a m0)) /\
                  Forall has_arabic (add_translation_memory_entry e a m0)).
    { unfold add_translation_memory_entry. split; [apply dict_set_nodup; exact Hnd|].
      apply dict_set_Forall; [|exact Hall].
      do 2 eexists. split; [reflexivity|]. split; [reflexivity|].
      destruct a as [t|]; [destruct (truthy (VStr t)) eqn:Et|].
      - cbn [truthy] in Et. intros ->. discriminate Et.
      - destruct Hea as [He|[t' [Ht' Hne]]]; [exact He|].
        injection Ht' as <-. cbn [truthy] in Et. apply String.eqb_neq in Hne.
        rewrite Hne in Et. discriminate Et.
      - destruct Hea as [He|[t' [Ht' _]]]; [exact He | discriminate Ht']. }
    destruct (IH Hadds' _ Hm1) as [Hnd' [Hin' Hst']].
    split; [exact Hnd'|]. split; [|exact Hst'].
    intros e' a' [Heq|Hin].
    + injection Heq as <- <-.
      assert (Hk : forall adds m, In (py_lower e) (map fst m) ->
                 In (py_lower e) (map fst (fold_left (fun m ea => add_translation_memory_entry (fst ea) (snd ea) m) adds m))).
      { clear. induction adds as [|ea adds IH]; intros m Hm; [exact Hm|].
        cbn [fold_left]. apply IH. unfold add_translation_memory_entry. apply dict_set_keys_mono. exact Hm. }
      apply Hk. unfold add_translation_memory_entry. apply dict_set_key_in.
    + exact (Hin' e' a' Hin).
Qed.

Lemma translation_memory_stats_after_adds_witness :
  let adds := [("Drum", None); ("TT", Some "حوالة مصرفية"); ("drum", Some "")] in
  Forall (fun ea => fst ea <> "" \/ exists t, snd ea = Some t /\ t <> "") adds /\
  let memory := fold_left (fun m ea => add_translation_memory_entry (fst ea) (snd ea) m)
                          adds translation_memory_init in
  NoDup (map fst memory) /\
  (forall e a, In (e, a) adds -> In (py_lower e) (map fst memory)) /\
  get_translation_memory_stats memory =
    Ok [("total_terms", VInt (Z.of_nat (List.length memory)));
        ("arabic_translations", VInt (Z.of_nat (List.length memory)));
        ("terms", VList (map (fun kv => VStr (fst kv)) memory))].
Proof.
  intros adds.
  assert (H : Forall (fun ea => fst ea <> "" \/ exists t, snd ea = Some t /\ t <> "") adds).
  { repeat (apply Forall_cons; [left; discriminate|]). apply Forall_nil. }
  split; [exact H|]. exact (translation_memory_stats_after_adds adds H).
Defined.







Lemma same_except_refl (k0 : string) (s : dict) : same_except k0 s s.
Proof. intros k _. reflexivity. Qed.

Lemma same_except_trans (k0 : string) (s1 s2 s3 : dict) :
  same_except k0 s1 s2 -> same_except k0 s2 s3 -> same_except k0 s1 s3.
Proof. intros H1 H2 k Hk. rewrite (H2 k Hk). exact (H1 k Hk). Qed.

Lemma same_except_set (k0 : string) (v : PyVal) (s : dict) :
  same_except k0 s (dict_set k0 v s).
Proof. intros k Hk. apply dict_get_set_other. exact Hk. Qed.

Lemma close_cache_frame (s : dict) (c : InvCache) :
  same_except "cache" s (close_cache s c).
Proof.
  unfold close_cache. destruct (dict_get "cache" s) as [[| | | | | |cd]|];
    try apply same_except_refl. apply same_except_set.
Qed.

Lemma open_cache_frame (s s1 : dict) (c : InvCache) :
  open_cache s = Ok (s1, c) -> same_except "cache" s s1.
Proof.
  unfold open_cache, setdefault.
  destruct (dict_get "cache" s) as [v|].
  all: repeat match goal with
         | |- context [match ?x with _ => _ end] => destruct x
         end; try discriminate.
  all: intros H; injection H as <- _.
  all: try (apply same_except_set).
  all: eapply same_except_trans; apply same_except_set.
Qed.

Lemma inventory_fetch_frame (api : string -> option PyVal) (query key : string)
    (s : dict) (c : InvCache) :
  same_except "cache" s (snd (fst (inventory_fetch api query key s c))).
Proof.
  unfold inventory_fetch.
  destruct (api query) as [result|]; [|apply close_cache_frame].
  destruct (let* r := get_from result "results" (VDict []) in
            let* ps := get_from r "products" (VList []) in py_len ps);
    [|apply close_cache_frame].
  cbv zeta.
  match goal with |- context [if truthy ?p then _ else _] => destruct (truthy p) end;
    [|apply close_cache_frame].
  match goal with |- context [match ?p with VList _ => _ | _ => _ end] =>
    destruct p; try apply close_cache_frame end.
  match goal with |- context [cache_products 0 ?l ?c1] =>
    destruct (cache_products 0 l c1) as [c2 [e|]] end; apply close_cache_frame.
Qed.

Lemma fetch_inventory_query_frame (api : string -> option PyVal) (query : string) (s : dict) :
  same_except "cache" s (snd (fst (fetch_inventory_query api query s))).
Proof.
  unfold fetch_inventory_query.
  destruct (open_cache s) as [[s1 c]|e] eqn:Ho; [|apply same_except_refl].
  pose proof (open_cache_frame s s1 c Ho) as H1.
  destruct (dict_get (py_strip (py_lower query)) (product_cache c)) as [cr|].
  - destruct (cached_products cr); [|exact H1].
    destruct (truthy a); [exact H1|].
    eapply same_except_trans; [exact H1|].
    eapply same_except_trans; [apply close_cache_frame | apply inventory_fetch_frame].
  - eapply same_except_trans; [exact H1 | apply inventory_fetch_frame].
Qed.

Lemma product_tools_frame (api : string -> option PyVal) (calls : list ToolCall) :
  forall s su sent,
  Forall (fun tc => tc_name tc <> "update_session_memory") calls ->
  (fst (fst (product_tools api calls s su sent)) = Ok su \/
   exists e, fst (fst (product_tools api calls s su sent)) = Raise e) /\
  same_except "cache" s (snd (fst (product_tools api calls s su sent))).
Proof.
  induction calls as [|tc rest IH]; intros s su sent Hall.
  - split; [left; reflexivity | apply same_except_refl].
  - inversion Hall as [|? ? Hname Hrest]; subst. cbn [product_tools].
    destruct (json_loads_args (tc_args tc)) as [raw|e];
      [|split; [right; exists e; reflexivity | apply same_except_refl]].
    destruct (String.eqb_spec (tc_name tc) "fetch_inventory_query") as [_|_].
    + destruct (let* a := as_dict raw in getitem "query" a) as [[| | | |q| |]|e];
        try (split; [right; eexists; reflexivity | apply same_except_refl]).
      pose proof (fetch_inventory_query_frame api q s) as Hf.
      destruct (fetch_inventory_query api q s) as [[[v|e] s'] qs].
      * destruct (IH s' su (app sent qs) Hrest) as [Hr Hs].
        split; [exact Hr|]. eapply same_except_trans; [exact Hf | exact Hs].
      * split; [right; exists e; reflexivity | exact Hf].
    + apply String.eqb_neq in Hname. rewrite Hname.
      exact (IH s su sent Hrest).
Qed.

(** A product-agent turn without an [update_session_memory] call, searches
    included, changes no session key but [cache] and [history]: the agent,
    the selected product and the request type stay as they were. *)
Theorem search_turn_keeps_selection (api : string -> option PyVal) (user_input : string)
    (s : dict) (llm : LLMTurn) :
  Forall (fun tc => tc_name tc <> "update_session_memory") (llm_tool_calls llm) ->
  forall k, k <> "cache" -> k <> "history" ->
    dict_get k (snd (fst (handle_product_request api user_input s llm))) = dict_get k s.
Proof.
  intros Hall k Hc Hh.
  assert (H0 : same_except "history" s (fst (setdefault "history" (VList []) s))).
  { unfold setdefault. destruct (dict_get "history" s);
      [apply same_except_refl | apply same_except_set]. }
  unfold handle_product_request.
  destruct (setdefault "history" (VList []) s) as [s0 h0]. cbn [fst] in H0.
  rewrite <- (H0 k Hh).
  destruct (negb (agent_is "product_request" s0)); [reflexivity|].
  destruct (product_tools_frame api (llm_tool_calls llm) s0 [] [] Hall) as [Hr Hs].
  destruct (product_tools api (llm_tool_calls llm) s0 [] []) as [[r s1] sent].
  cbn [fst snd] in Hr, Hs. rewrite <- (Hs k Hc).
  destruct Hr as [->|[e ->]]; [|reflexivity].
  cbn [fold_left].
  destruct (dict_get "history" s1) as [[| | | | |l|]|]; try reflexivity.
  cbn [snd fst]. apply dict_get_set_other. intros ->. exact (Hh eq_refl).
Qed.

Lemma search_turn_keeps_selection_witness :
  let s := [("agent", VStr "product_request"); ("product_id", VStr "p9")] in
  let api := fun _ : string =>
    Some (VDict [("results", VDict [("products",
      VList [VDict [("_id", VStr "p1"); ("name", VStr "Acetone")]])])]) in
  let llm := mkLLMTurn ""
               [mkToolCall "fetch_inventory_query" (Some (VDict [("query", VStr "acetone")]))]
               "Here is what I found." in
  Forall (fun tc => tc_name tc <> "update_session_memory") (llm_tool_calls llm) /\
  dict_get "product_id" (snd (fst (handle_product_request api "find acetone" s llm)))
    = Some (VStr "p9").
Proof.
  intros s api llm.
  assert (H : Forall (fun tc => tc_name tc <> "update_session_memory") (llm_tool_calls llm)).
  { apply Forall_cons; [discriminate | apply Forall_nil]. }
  split; [exact H|].
  exact (search_turn_keeps_selection api "find acetone" s llm H "product_id"
           ltac:(discriminate) ltac:(discriminate)).
Defined.
